(** * Entity data model of realdwg-web: a shallow embedding

    The development follows the classes of [packages/data-model/src/entity]:
    every class is a module, its private fields are the fields of a record,
    its getters, setters and methods are functions on that record.

    Conventions of the embedding.
    - A JavaScript [number] that holds a coordinate, a length or an angle is
      an idealised real ([R]); a number used as an index, a bit mask or a
      colour is an integer ([Z]), with the 32-bit conversions of the bitwise
      operators written out.
    - A method that may [throw] returns a [completion]; a method that
      mutates [this] returns the new record (together with the completion
      when it can throw after having mutated).
    - The tables of the drawing database are finite maps keyed by name. *)

From Stdlib Require Import ZArith Reals Lra Lia Bool List String.
From stdpp Require Import gmap strings.

Import ListNotations.

(** ** JavaScript values shared by the classes *)

(** What a [throw] carries: [new Error(message)], or the [TypeError] raised
    by the runtime when a property of [undefined] is read. *)
Inductive JsError : Type :=
| Error (message : string)
| TypeError.

(** The outcome of a call: a normal return or a thrown error. *)
Inductive completion (A : Type) : Type :=
| Normal (value : A)
| Throw (error : JsError).
Arguments Normal {A} value.
Arguments Throw {A} error.

Definition throws {A : Type} (c : completion A) : bool :=
  match c with
  | Normal _ => false
  | Throw _ => true
  end.

(** The error of a thrown outcome. *)
Definition thrown {A : Type} (c : completion A) : option JsError :=
  match c with
  | Normal _ => None
  | Throw e => Some e
  end.

(** [array[index]] for an integral index: [undefined] ([None]) outside
    [0 .. length - 1]. *)
Definition js_index {A : Type} (l : list A) (index : Z) : option A :=
  if (index <? 0)%Z then None else l !! Z.to_nat index.

(** [ToInt32] of an integral number. *)
Definition ToInt32 (n : Z) : Z :=
  ((n + 2 ^ 31) mod 2 ^ 32 - 2 ^ 31)%Z.

(** [a << b]: the left operand as int32, the shift count modulo 32, the
    result as int32. *)
Definition js_shl (a b : Z) : Z :=
  ToInt32 (Z.shiftl (ToInt32 a) (b mod 32)).

(** [a & b] and [a | b] on the int32 images of the operands. *)
Definition js_and (a b : Z) : Z := Z.land (ToInt32 a) (ToInt32 b).
Definition js_or (a b : Z) : Z := Z.lor (ToInt32 a) (ToInt32 b).

(** ** Points, vectors and boxes of the geometry engine

    The geometry engine is a package of its own and is not among the
    sources.  Only the storage and the component-wise operations that the
    entity classes call are needed here. *)

Module AcGePoint2d.
(** Modelled from the spec: a planar point of the geometry engine, as its
    two coordinates. *)
Record t : Type := mk { x : R; y : R }.
End AcGePoint2d.

Module AcGePoint3d.
(** Modelled from the spec: a point of the geometry engine, as its three
    coordinates; the vector class shares this layout. *)
Record t : Type := mk { x : R; y : R; z : R }.

(** Modelled from the spec: [new AcGePoint3d()], the origin. *)
Definition origin : t := mk 0 0 0.

(** Modelled from the spec: [p.setX(v)], which replaces one coordinate. *)
Definition setX (v : R) (p : t) : t := mk v (y p) (z p).
(** Modelled from the spec: [p.setY(v)]. *)
Definition setY (v : R) (p : t) : t := mk (x p) v (z p).
(** Modelled from the spec: the assignment [p.z = v]. *)
Definition setZ (v : R) (p : t) : t := mk (x p) (y p) v.

(** Modelled from the spec: [v.multiplyScalar(s)], every coordinate of the
    vector times [s]. *)
Definition multiplyScalar (s : R) (v : t) : t :=
  mk (x v * s) (y v * s) (z v * s).
(** Modelled from the spec: [v.add(p)], the coordinate-wise sum. *)
Definition add (p : t) (v : t) : t :=
  mk (x v + x p) (y v + y p) (z v + z p).

(** Modelled from the spec: the coordinate-wise minimum and maximum, by
    which a box grows. *)
Definition min (p q : t) : t :=
  mk (Rmin (x p) (x q)) (Rmin (y p) (y q)) (Rmin (z p) (z q)).
Definition max (p q : t) : t :=
  mk (Rmax (x p) (x q)) (Rmax (y p) (y q)) (Rmax (z p) (z q)).
End AcGePoint3d.

Module AcGeBox3d.
(** Modelled from the spec: the axis-aligned box of the geometry engine; a
    box is empty until a first point is added to it. *)
Inductive t : Type :=
| Empty
| Box (min max : AcGePoint3d.t).

(** Modelled from the spec: [box.expandByPoint(p)], the smallest box that
    holds the box and the point. *)
Definition expandByPoint (p : AcGePoint3d.t) (b : t) : t :=
  match b with
  | Empty => Box p p
  | Box mn mx => Box (AcGePoint3d.min mn p) (AcGePoint3d.max mx p)
  end.

(** Modelled from the spec: [box.setFromPoints(points)], the bounding box
    of the points. *)
Definition setFromPoints (points : list AcGePoint3d.t) : t :=
  fold_left (fun b p => expandByPoint p b) points Empty.

(** A point lies in a box. *)
Definition contains (b : t) (p : AcGePoint3d.t) : Prop :=
  match b with
  | Empty => False
  | Box mn mx =>
      (AcGePoint3d.x mn <= AcGePoint3d.x p <= AcGePoint3d.x mx
       /\ AcGePoint3d.y mn <= AcGePoint3d.y p <= AcGePoint3d.y mx
       /\ AcGePoint3d.z mn <= AcGePoint3d.z p <= AcGePoint3d.z mx)%R
  end.
End AcGeBox3d.

(** ** AcDbFace: the edge-invisibility mask *)

Module AcDbFace.
Local Open Scope Z_scope.

Record t : Type := mk {
  _vertices : list AcGePoint3d.t;
  _edgeInvisibilities : Z
}.

(** [constructor()] *)
Definition new : t :=
  mk [AcGePoint3d.origin; AcGePoint3d.origin; AcGePoint3d.origin] 0.

Definition setEdgeInvisibilities (invisibilities : Z) (f : t) : t :=
  mk (_vertices f) invisibilities.

Definition isEdgeVisibleAt (index : Z) (f : t) : completion bool :=
  if (index <? 0) || (index >? 3) then
    Throw (Error "Index out of range")
  else
    Normal (js_and (_edgeInvisibilities f) (js_shl 1 index) =? 0).

Definition makeEdgeInvisibleAt (index : Z) (f : t) : completion t :=
  if (index <? 0) || (index >? 3) then
    Throw (Error "Index out of range")
  else
    Normal (mk (_vertices f)
               (js_or (_edgeInvisibilities f) (js_shl 1 index))).
End AcDbFace.

(** ** Colours, transparency and the drawing database

    The entity classes only read these collaborators.  A colour is what its
    three getters return; a table is a finite map from names to records. *)

Module AcCmColor.
(** Modelled from the spec: the colour of the common package, which is not
    among the sources, as what the getters the entities call return:
    [isByLayer], [isByBlock] and [RGB] ([None] when the getter yields
    [undefined]). *)
Record t : Type := mk {
  isByLayer : bool;
  isByBlock : bool;
  RGB : option Z
}.

(** Modelled from the spec: [target.copy(source)] overwrites the target
    with the source. *)
Definition copy (source target : t) : t := source.
End AcCmColor.

Module AcCmTransparency.
(** Modelled from the spec: the transparency value of the common package,
    which is not among the sources; the spec describes it as a tri-state
    value (by layer, by block, or an explicit level). *)
Inductive t : Type :=
| ByLayer
| ByBlock
| Alpha (level : Z).

(** Modelled from the spec: [v.clone()], an equal value. *)
Definition clone (v : t) : t := v.
End AcCmTransparency.

(** Modelled from the spec: the string constants of [../misc], which is not
    among the sources; [ByLayer] and [ByBlock] are the indirection markers
    of the glossary, [DEFAULT_LINE_TYPE] the fixed fallback linetype name. *)
Definition ByLayer : string := "ByLayer".
Definition ByBlock : string := "ByBlock".
Definition DEFAULT_LINE_TYPE : string := "Continuous".

(** Modelled from the spec: the linetype description carried by a linetype
    table record, and the line style handed to the renderer (the same
    fields plus the kind of resolution that produced it), with the fields
    that [lineStyle] fills in. *)
Record AcGiBaseLineStyle : Type := mkBaseLineStyle {
  bls_name : string;
  bls_standardFlag : Z;
  bls_description : string;
  bls_totalPatternLength : R
}.

Record AcGiLineStyle : Type := mkLineStyle {
  ls_type : string;
  ls_name : string;
  ls_standardFlag : Z;
  ls_description : string;
  ls_totalPatternLength : R
}.

(** Modelled from the spec: the records and tables of the database that
    the entities look up, "layer record with .color, .linetype" and
    "linetype record", and the drawing-wide default [cecolor]. *)
Record AcDbLayerTableRecord : Type := mkLayer {
  layer_color : AcCmColor.t;
  layer_linetype : string
}.

Record AcDbLinetypeTableRecord : Type := mkLinetype {
  linetype : AcGiBaseLineStyle
}.

Record AcDbDatabase : Type := mkDatabase {
  cecolor : AcCmColor.t;
  layerTable : gmap string AcDbLayerTableRecord;
  linetypeTable : gmap string AcDbLinetypeTableRecord
}.

(** Truthiness of a string: only the empty string is falsy. *)
Definition truthy (s : string) : bool :=
  match s with
  | EmptyString => false
  | String _ _ => true
  end.

(** ** The renderer, as far as the entities drive it

    An entity first writes its resolved style onto the renderer's current
    sub-entity traits and then requests one primitive.  The renderer is the
    traits record together with the list of primitives requested so far,
    oldest first; the opaque handle a request returns is not modelled. *)

(** Modelled from the spec: the traits an entity writes before it requests
    a primitive, the primitives it requests, and the renderer that records
    both; the graphic interface is not among the sources. *)
Record AcGiSubEntityTraits : Type := mkTraits {
  traits_rgbColor : Z;
  traits_color : AcCmColor.t;
  traits_lineTypeScale : R;
  traits_lineWeight : Z;
  traits_transparency : AcCmTransparency.t;
  traits_layer : string
}.

Inductive AcGiPrimitive : Type :=
| GiLines (points : list AcGePoint3d.t)
| GiArea (loop : list AcGePoint3d.t)
| GiImage (image : string) (boundary : list AcGePoint3d.t) (roation : R).

Record AcGiRenderer : Type := mkRenderer {
  subEntityTraits : AcGiSubEntityTraits;
  requests : list AcGiPrimitive
}.

Definition request (p : AcGiPrimitive) (r : AcGiRenderer) : AcGiRenderer :=
  mkRenderer (subEntityTraits r) (requests r ++ [p]).

(** Modelled from the spec: the object-snap modes of [../misc], which is
    not among the sources; the spec's dispatch names five modes and treats
    every other one alike. *)
Inductive AcDbOsnapMode : Type :=
| EndPoint
| MidPoint
| Nearest
| Perpendicular
| Tangent
| OtherMode (code : Z).

(** ** AcDbEntity: the base class *)

Module AcDbEntity.
Record t : Type := mk {
  objectId : string;
  _layer : string;
  _color : AcCmColor.t;
  _lineType : string;
  _lineWeight : Z;
  _linetypeScale : R;
  _visibility : bool;
  _transparency : AcCmTransparency.t
}.

Definition layer (e : t) : string := _layer e.
Definition set_layer (value : string) (e : t) : t :=
  mk (objectId e) value (_color e) (_lineType e) (_lineWeight e)
     (_linetypeScale e) (_visibility e) (_transparency e).

Definition color (e : t) : AcCmColor.t := _color e.
Definition set_color (value : AcCmColor.t) (e : t) : t :=
  mk (objectId e) (_layer e) (AcCmColor.copy value (_color e)) (_lineType e)
     (_lineWeight e) (_linetypeScale e) (_visibility e) (_transparency e).

Definition lineType (e : t) : string := _lineType e.
(** [this._lineType = value || ByLayer] *)
Definition set_lineType (value : string) (e : t) : t :=
  mk (objectId e) (_layer e) (_color e)
     (if truthy value then value else ByLayer)
     (_lineWeight e) (_linetypeScale e) (_visibility e) (_transparency e).

Definition lineWeight (e : t) : Z := _lineWeight e.
Definition set_lineWeight (value : Z) (e : t) : t :=
  mk (objectId e) (_layer e) (_color e) (_lineType e) value
     (_linetypeScale e) (_visibility e) (_transparency e).

Definition linetypeScale (e : t) : R := _linetypeScale e.
Definition set_linetypeScale (value : R) (e : t) : t :=
  mk (objectId e) (_layer e) (_color e) (_lineType e) (_lineWeight e)
     value (_visibility e) (_transparency e).

Definition visibility (e : t) : bool := _visibility e.
Definition set_visibility (value : bool) (e : t) : t :=
  mk (objectId e) (_layer e) (_color e) (_lineType e) (_lineWeight e)
     (_linetypeScale e) value (_transparency e).

Definition transparency (e : t) : AcCmTransparency.t := _transparency e.
Definition set_transparency (value : AcCmTransparency.t) (e : t) : t :=
  mk (objectId e) (_layer e) (_color e) (_lineType e) (_lineWeight e)
     (_linetypeScale e) (_visibility e) (AcCmTransparency.clone value).

(** [getLayerColor()]: the colour of the entity's layer, [null] when the
    layer table has no such layer (the console message written in that
    case is not part of the state). *)
Definition getLayerColor (db : AcDbDatabase) (e : t) : option AcCmColor.t :=
  match layerTable db !! layer e with
  | None => None
  | Some l => Some (layer_color l)
  end.

(** [get rgbColor()] *)
Definition rgbColor (db : AcDbDatabase) (e : t) : Z :=
  let color0 := cecolor db in
  let color1 :=
    if AcCmColor.isByLayer (color e) then
      match getLayerColor db e with
      | Some layerColor =>
          match AcCmColor.RGB layerColor with
          | Some _ => layerColor
          | None => color0
          end
      | None => color0
      end
    else if AcCmColor.isByBlock (color e) then color0
    else
      match AcCmColor.RGB (color e) with
      | Some _ => color e
      | None => color0
      end in
  match AcCmColor.RGB color1 with
  | Some rgb => rgb
  | None => 0xffffff%Z
  end.

(** [getLineType()]: the kind of resolution and the resolved name. *)
Definition getLineType (db : AcDbDatabase) (e : t) : string * string :=
  let fallthrough := ("UserSpecified", DEFAULT_LINE_TYPE) in
  if String.eqb (lineType e) ByLayer then
    match layerTable db !! layer e with
    | Some l =>
        if truthy (layer_linetype l) then ("ByLayer", layer_linetype l)
        else fallthrough
    | None => fallthrough
    end
  else if String.eqb (lineType e) ByBlock then
    ("ByBlock", DEFAULT_LINE_TYPE)
  else
    ("UserSpecified", lineType e).

(** [get lineStyle()] *)
Definition lineStyle (db : AcDbDatabase) (e : t) : AcGiLineStyle :=
  let '(type, name) := getLineType db e in
  match linetypeTable db !! name with
  | Some lineTypeRecord =>
      let lt := linetype lineTypeRecord in
      mkLineStyle type (bls_name lt) (bls_standardFlag lt)
                  (bls_description lt) (bls_totalPatternLength lt)
  | None => mkLineStyle type name 0 "" 0
  end.

(** [attachToEntityTraits(renderer.subEntityTraits)] *)
Definition attachToEntityTraits (db : AcDbDatabase) (e : t)
    (r : AcGiRenderer) : AcGiRenderer :=
  mkRenderer
    (mkTraits (rgbColor db e) (color e) (linetypeScale e) (lineWeight e)
              (transparency e) (layer e))
    (requests r).

(** The defaults a subclass may override: no grip points, no snap
    points. *)
Definition subGetGripPoints (e : t) : list AcGePoint3d.t := [].

Definition subGetOsnapPoints (osnapMode : AcDbOsnapMode)
    (pickPoint lastPoint : AcGePoint3d.t)
    (snapPoints : list AcGePoint3d.t) (e : t) : list AcGePoint3d.t :=
  snapPoints.

(** The fields the constructor initialises that the style resolution
    reads: layer ["0"], colour by layer, linetype by layer. *)
Definition hasDefaultStyle (e : t) : Prop :=
  _layer e = "0"
  /\ AcCmColor.isByLayer (_color e) = true
  /\ _lineType e = ByLayer.
End AcDbEntity.

(** ** AcDbRasterImage: the boundary path *)

Module AcGeBox2d.
(** Modelled from the spec: the planar bounding box of the geometry engine
    and its [setFromPoints], "the bounding box of the boundary points". *)
Inductive t : Type :=
| Empty
| Box (min max : AcGePoint2d.t).

Definition expandByPoint (p : AcGePoint2d.t) (b : t) : t :=
  match b with
  | Empty => Box p p
  | Box mn mx =>
      Box (AcGePoint2d.mk (Rmin (AcGePoint2d.x mn) (AcGePoint2d.x p))
                          (Rmin (AcGePoint2d.y mn) (AcGePoint2d.y p)))
          (AcGePoint2d.mk (Rmax (AcGePoint2d.x mx) (AcGePoint2d.x p))
                          (Rmax (AcGePoint2d.y mx) (AcGePoint2d.y p)))
  end.

Definition setFromPoints (points : list AcGePoint2d.t) : t :=
  fold_left (fun b p => expandByPoint p b) points Empty.
End AcGeBox2d.

(** Modelled from the spec: [AcGePoint2d.rotateAround(center, angle)] of the
    geometry engine, which is not among the sources; the spec has the
    vertices "rotated about" a pivot by the rotation angle, which is the
    planar rotation of the offset from the pivot. *)
Definition rotateAround (center : AcGePoint2d.t) (angle : R)
    (p : AcGePoint2d.t) : AcGePoint2d.t :=
  let c := cos angle in
  let s := sin angle in
  let dx := (AcGePoint2d.x p - AcGePoint2d.x center)%R in
  let dy := (AcGePoint2d.y p - AcGePoint2d.y center)%R in
  AcGePoint2d.mk (dx * c - dy * s + AcGePoint2d.x center)
                 (dx * s + dy * c + AcGePoint2d.y center).

Module AcDbRasterImage.
Local Open Scope R_scope.

Inductive AcDbRasterImageClipBoundaryType : Type :=
| Invalid
| Rect
| Poly.

Record t : Type := mk {
  entity : AcDbEntity.t;
  _brightness : R;
  _contrast : R;
  _fade : R;
  _width : R;
  _height : R;
  _position : AcGePoint3d.t;
  _rotation : R;
  _scale : AcGePoint2d.t;
  _clipBoundaryType : AcDbRasterImageClipBoundaryType;
  _clipBoundary : list AcGePoint2d.t;
  _imageDefId : string;
  _isClipped : bool;
  _isShownClipped : bool;
  _isImageShown : bool;
  _isImageTransparent : bool;
  _image : option string
}.

(** [constructor()], on top of an already initialised base part. *)
Definition new (base : AcDbEntity.t) : t :=
  mk base 50 50 0 0 0 AcGePoint3d.origin 0 (AcGePoint2d.mk 1 1) Rect []
     "" false false true false None.

Definition isClipped (img : t) : bool := _isClipped img.

(** One turn of the rotation loop: [points[index]] gets the planar
    coordinates of its copy rotated around [point1]. *)
Definition rotateVertex (point1 : AcGePoint2d.t) (angle : R)
    (points : list AcGePoint3d.t) (index : nat) : list AcGePoint3d.t :=
  match points !! index with
  | Some p =>
      let point2 :=
        rotateAround point1 angle
          (AcGePoint2d.mk (AcGePoint3d.x p) (AcGePoint3d.y p)) in
      <[index := AcGePoint3d.setY (AcGePoint2d.y point2)
                   (AcGePoint3d.setX (AcGePoint2d.x point2) p)]> points
  | None => points
  end.

(** [boundaryPath()] *)
Definition boundaryPath (img : t) : list AcGePoint3d.t :=
  let position := _position img in
  if isClipped img && (3 <? length (_clipBoundary img))%nat then
    let wcsWidth := _width img in
    let wcsHeight := _height img in
    match AcGeBox2d.setFromPoints (_clipBoundary img) with
    | AcGeBox2d.Box ocsMin _ =>
        let translation :=
          AcGePoint2d.mk
            (AcGePoint3d.x position - AcGePoint2d.x ocsMin * wcsWidth)
            (AcGePoint3d.y position - AcGePoint2d.y ocsMin * wcsHeight) in
        map (fun point =>
               AcGePoint3d.mk
                 (AcGePoint2d.x point * wcsWidth + AcGePoint2d.x translation)
                 (AcGePoint2d.y point * wcsHeight + AcGePoint2d.y translation)
                 (AcGePoint3d.z position))
            (_clipBoundary img)
    | AcGeBox2d.Empty => []  (* not reached: the boundary has points *)
    end
  else
    let points :=
      [ position;
        AcGePoint3d.setX (AcGePoint3d.x position + _width img) position;
        AcGePoint3d.mk (AcGePoint3d.x position + _width img)
                       (AcGePoint3d.y position + _height img)
                       (AcGePoint3d.z position);
        AcGePoint3d.setY (AcGePoint3d.y position + _height img) position ] in
    let points :=
      if Rlt_dec 0 (_rotation img) then
        match points !! 1%nat with
        | Some p1 =>
            let point1 :=
              AcGePoint2d.mk (AcGePoint3d.x p1) (AcGePoint3d.y p1) in
            fold_left (rotateVertex point1 (_rotation img))
                      [1%nat; 2%nat; 3%nat] points
        | None => points
        end
      else points in
    match points !! 0%nat with
    | Some p0 => points ++ [p0]
    | None => points
    end.

Definition subGetGripPoints (img : t) : list AcGePoint3d.t :=
  boundaryPath img.

(** [draw(renderer)] *)
Definition draw (db : AcDbDatabase) (img : t) (r : AcGiRenderer)
    : AcGiRenderer :=
  let r := AcDbEntity.attachToEntityTraits db (entity img) r in
  let points := boundaryPath img in
  match _image img with
  | Some blob => request (GiImage blob points (_rotation img)) r
  | None => request (GiLines points) r
  end.
End AcDbRasterImage.

(** [AcDbWipeout.draw]: the same boundary, requested as an area. *)
Module AcDbWipeout.
Definition draw (db : AcDbDatabase) (img : AcDbRasterImage.t)
    (r : AcGiRenderer) : AcGiRenderer :=
  let points := AcDbRasterImage.boundaryPath img in
  let r :=
    AcDbEntity.attachToEntityTraits db (AcDbRasterImage.entity img) r in
  request (GiArea points) r.
End AcDbWipeout.

(** ** AcDbLeader: vertices and the lazily rebuilt spline *)

Module AcGeSpline3d.
(** Modelled from the spec: the spline of the geometry engine, as the fit
    points and the knot parameterisation that
    [new AcGeSpline3d(points, 'Uniform')] receives. *)
Record t : Type := mk {
  fitPoints : list AcGePoint3d.t;
  knotParameterization : string
}.
End AcGeSpline3d.

Module AcDbLeader.
Inductive AcDbLeaderAnnotationType : Type :=
| MText
| Fcf
| BlockReference
| NoAnnotation.

Record t : Type := mk {
  entity : AcDbEntity.t;
  _isSplined : bool;
  _splineGeo : option AcGeSpline3d.t;
  _updated : bool;
  _hasArrowHead : bool;
  _vertices : list AcGePoint3d.t;
  _dimensionStyle : string;
  _hasHookLine : bool;
  _annoType : AcDbLeaderAnnotationType
}.

(** [constructor()], on top of an already initialised base part. *)
Definition new (base : AcDbEntity.t) : t :=
  mk base false None false false [] "" false NoAnnotation.

Definition isSplined (l : t) : bool := _isSplined l.
Definition set_isSplined (value : bool) (l : t) : t :=
  mk (entity l) value (_splineGeo l) (_updated l) (_hasArrowHead l)
     (_vertices l) (_dimensionStyle l) (_hasHookLine l) (_annoType l).

Definition set_hasArrowHead (value : bool) (l : t) : t :=
  mk (entity l) (_isSplined l) (_splineGeo l) (_updated l) value
     (_vertices l) (_dimensionStyle l) (_hasHookLine l) (_annoType l).

Definition set_hasHookLine (value : bool) (l : t) : t :=
  mk (entity l) (_isSplined l) (_splineGeo l) (_updated l) (_hasArrowHead l)
     (_vertices l) (_dimensionStyle l) value (_annoType l).

Definition set_dimensionStyle (value : string) (l : t) : t :=
  mk (entity l) (_isSplined l) (_splineGeo l) (_updated l) (_hasArrowHead l)
     (_vertices l) value (_hasHookLine l) (_annoType l).

Definition set_annoType (value : AcDbLeaderAnnotationType) (l : t) : t :=
  mk (entity l) (_isSplined l) (_splineGeo l) (_updated l) (_hasArrowHead l)
     (_vertices l) (_dimensionStyle l) (_hasHookLine l) value.

Definition numVertices (l : t) : nat := length (_vertices l).

(** [appendVertex(point)] *)
Definition appendVertex (point : AcGePoint3d.t) (l : t) : t :=
  mk (entity l) (_isSplined l) (_splineGeo l) true (_hasArrowHead l)
     (_vertices l ++ [point]) (_dimensionStyle l) (_hasHookLine l)
     (_annoType l).

Definition outOfRange (index : Z) (l : t) : bool :=
  (index <? 0)%Z || (index >=? Z.of_nat (length (_vertices l)))%Z.

(** [setVertexAt(index, point)]: the completion and the leader as the
    call leaves it.  Inside the [if], [this._vertices[index]] is read
    first; calling [copy] on [undefined] raises a [TypeError]. *)
Definition setVertexAt (index : Z) (point : AcGePoint3d.t) (l : t)
    : completion unit * t :=
  if outOfRange index l then
    match js_index (_vertices l) index with
    | Some _ =>
        (Throw (Error "The vertex index is out of range!"),
         mk (entity l) (_isSplined l) (_splineGeo l) true (_hasArrowHead l)
            (<[Z.to_nat index := point]> (_vertices l))
            (_dimensionStyle l) (_hasHookLine l) (_annoType l))
    | None => (Throw TypeError, l)
    end
  else
    (Throw (Error "The vertex index is out of range!"), l).

(** [vertexAt(index)]: inside the [if] the element is read and dropped;
    the [throw] follows in either case. *)
Definition vertexAt (index : Z) (l : t) : completion AcGePoint3d.t :=
  if outOfRange index l then
    let _ := js_index (_vertices l) index in
    Throw (Error "The vertex index is out of range!")
  else
    Throw (Error "The vertex index is out of range!").

Definition closed (l : t) : bool := false.
Definition set_closed (_value : bool) (l : t) : t := l.

(** The leader together with every spline that [new AcGeSpline3d(...)]
    has returned for it so far, oldest first. *)
Record world : Type := mkWorld {
  this : t;
  splinesBuilt : list AcGeSpline3d.t
}.

Definition needsSpline (l : t) : bool :=
  isSplined l && (2 <=? numVertices l)%nat
  && (match _splineGeo l with None => true | Some _ => false end
      || _updated l).

Section Engine.
(** The geometry engine, which is not among the sources.  Its spline
    constructor may throw: [rejects] gives the error it throws for the
    arguments it does not accept.  The other two are what it computes
    from a spline. *)
Variable rejects : list AcGePoint3d.t -> string -> option JsError.
Variable calculateBoundingBox : AcGeSpline3d.t -> AcGeBox3d.t.
Variable getPoints : AcGeSpline3d.t -> Z -> list AcGePoint3d.t.

(** [new AcGeSpline3d(points, knotParameterization)]: a throw for the
    arguments the engine rejects, the spline of the arguments otherwise. *)
Definition newAcGeSpline3d (points : list AcGePoint3d.t)
    (knotParameterization : string) : completion AcGeSpline3d.t :=
  match rejects points knotParameterization with
  | Some e => Throw e
  | None => Normal (AcGeSpline3d.mk points knotParameterization)
  end.

(** [createSplineIfNeeded()]: a throw of the constructor leaves the
    method before either field is assigned. *)
Definition createSplineIfNeeded (w : world) : completion unit * world :=
  let l := this w in
  if needsSpline l then
    match newAcGeSpline3d (_vertices l) "Uniform" with
    | Normal spline =>
        (Normal tt,
         mkWorld
           (mk (entity l) (_isSplined l) (Some spline) false
               (_hasArrowHead l) (_vertices l) (_dimensionStyle l)
               (_hasHookLine l) (_annoType l))
           (splinesBuilt w ++ [spline]))
    | Throw e => (Throw e, w)
    end
  else (Normal tt, w).

(** [get splineGeo()] *)
Definition splineGeo (w : world)
    : completion (option AcGeSpline3d.t) * world :=
  match createSplineIfNeeded w with
  | (Normal _, w) => (Normal (_splineGeo (this w)), w)
  | (Throw e, w) => (Throw e, w)
  end.

(** [get geometricExtents()]: the getter [splineGeo] is read once by
    the test and once more for the call; nothing catches what it
    throws. *)
Definition geometricExtents (w : world)
    : completion AcGeBox3d.t * world :=
  if isSplined (this w) then
    match splineGeo w with
    | (Throw e, w1) => (Throw e, w1)
    | (Normal (Some _), w1) =>
        match splineGeo w1 with
        | (Throw e, w2) => (Throw e, w2)
        | (Normal (Some spline), w2) =>
            (Normal (calculateBoundingBox spline), w2)
        | (Normal None, w2) => (Throw TypeError, w2)
        end
    | (Normal None, w1) =>
        (Normal (AcGeBox3d.setFromPoints (_vertices (this w1))), w1)
    end
  else
    (Normal (AcGeBox3d.setFromPoints (_vertices (this w))), w).

(** [draw(renderer)]: the traits are written before the spline is asked
    for, so they stay written when the getter throws. *)
Definition draw (db : AcDbDatabase) (w : world) (r : AcGiRenderer)
    : completion unit * world * AcGiRenderer :=
  let r := AcDbEntity.attachToEntityTraits db (entity (this w)) r in
  if isSplined (this w) then
    match splineGeo w with
    | (Throw e, w1) => (Throw e, w1, r)
    | (Normal (Some _), w1) =>
        match splineGeo w1 with
        | (Throw e, w2) => (Throw e, w2, r)
        | (Normal (Some spline), w2) =>
            (Normal tt, w2, request (GiLines (getPoints spline 100)) r)
        | (Normal None, w2) => (Throw TypeError, w2, r)
        end
    | (Normal None, w1) =>
        (Normal tt, w1, request (GiLines (_vertices (this w1))) r)
    end
  else
    (Normal tt, w, request (GiLines (_vertices (this w))) r).

(** The calls a client can make on a leader. *)
Inductive call : Type :=
| CallAppendVertex (point : AcGePoint3d.t)
| CallSetVertexAt (index : Z) (point : AcGePoint3d.t)
| CallVertexAt (index : Z)
| CallSetIsSplined (value : bool)
| CallSetHasArrowHead (value : bool)
| CallSetHasHookLine (value : bool)
| CallSetDimensionStyle (value : string)
| CallSetAnnoType (value : AcDbLeaderAnnotationType)
| CallSetClosed (value : bool)
| CallGeometricExtents
| CallDraw (db : AcDbDatabase) (r : AcGiRenderer).

Definition onThis (f : t -> t) (w : world) : world :=
  mkWorld (f (this w)) (splinesBuilt w).

(** The leader (and the splines built) after one call, whether the call
    returns or throws. *)
Definition step (w : world) (c : call) : world :=
  match c with
  | CallAppendVertex point => onThis (appendVertex point) w
  | CallSetVertexAt index point =>
      onThis (fun l => snd (setVertexAt index point l)) w
  | CallVertexAt _ => w
  | CallSetIsSplined value => onThis (set_isSplined value) w
  | CallSetHasArrowHead value => onThis (set_hasArrowHead value) w
  | CallSetHasHookLine value => onThis (set_hasHookLine value) w
  | CallSetDimensionStyle value => onThis (set_dimensionStyle value) w
  | CallSetAnnoType value => onThis (set_annoType value) w
  | CallSetClosed value => onThis (set_closed value) w
  | CallGeometricExtents => snd (geometricExtents w)
  | CallDraw db r => snd (fst (draw db w r))
  end.

(** The error that one call throws, [None] when it returns. *)
Definition thrownBy (w : world) (c : call) : option JsError :=
  match c with
  | CallSetVertexAt index point =>
      thrown (fst (setVertexAt index point (this w)))
  | CallVertexAt index => thrown (vertexAt index (this w))
  | CallGeometricExtents => thrown (fst (geometricExtents w))
  | CallDraw db r => thrown (fst (fst (draw db w r)))
  | _ => None
  end.

Definition run (w : world) (calls : list call) : world :=
  fold_left step calls w.

(** A call that reads the spline-backed geometry. *)
Definition isRead (c : call) : bool :=
  match c with
  | CallGeometricExtents | CallDraw _ _ => true
  | _ => false
  end.

(** A call that appends or modifies a vertex. *)
Definition isMutation (c : call) : bool :=
  match c with
  | CallAppendVertex _ | CallSetVertexAt _ _ => true
  | _ => false
  end.
End Engine.

(** A freshly constructed leader, no spline built yet. *)
Definition initial (base : AcDbEntity.t) : world := mkWorld (new base) [].
End AcDbLeader.

(** ** Property reflection

    A runtime property pairs static metadata with an accessor bound to the
    live entity: [get] reads the entity it is given, [set] (when present)
    returns the entity after the write.  The [options] of an enum property
    are labels for the inspector and are left out. *)

Module AcDbPropertyAccessor.
Record t (E V : Type) : Type := mk {
  get : E -> V;
  set : option (V -> E -> E)
}.
Arguments mk {E V} get set.
Arguments get {E V} _ _.
Arguments set {E V} _.
End AcDbPropertyAccessor.

Module AcDbEntityRuntimeProperty.
Record t (E : Type) : Type := mk {
  name : string;
  type : string;
  editable : bool;
  valueType : Type;
  accessor : AcDbPropertyAccessor.t E valueType
}.
Arguments mk {E} name type editable valueType accessor.
Arguments name {E} _.
Arguments type {E} _.
Arguments editable {E} _.
Arguments valueType {E} _.
Arguments accessor {E} _.
End AcDbEntityRuntimeProperty.

Module AcDbEntityPropertyGroup.
Record t (E : Type) : Type := mk {
  groupName : string;
  properties : list (AcDbEntityRuntimeProperty.t E)
}.
Arguments mk {E} groupName properties.
Arguments groupName {E} _.
Arguments properties {E} _.
End AcDbEntityPropertyGroup.

Module AcDbEntityProperties.
Record t (E : Type) : Type := mk {
  type : string;
  groups : list (AcDbEntityPropertyGroup.t E)
}.
Arguments mk {E} type groups.
Arguments type {E} _.
Arguments groups {E} _.

(** Every property of every group, in order. *)
Definition allProperties {E : Type} (p : t E)
    : list (AcDbEntityRuntimeProperty.t E) :=
  concat (map AcDbEntityPropertyGroup.properties (groups p)).
End AcDbEntityProperties.

(** A class that extends [AcDbEntity]: its static [typeName] and the
    inherited part of its instances. *)
Class AcDbEntityClass (E : Type) : Type := {
  typeName : string;
  base : E -> AcDbEntity.t;
  withBase : AcDbEntity.t -> E -> E;
  base_withBase : forall b e, base (withBase b e) = b
}.

(** An inherited setter, run on an instance of a subclass. *)
Definition inherited {E : Type} `{AcDbEntityClass E} {V : Type}
    (setter : V -> AcDbEntity.t -> AcDbEntity.t) (value : V) (e : E) : E :=
  withBase (setter value (base e)) e.

(** The typed setter that stands behind an editable property: the type of
    its argument, the setter, and what the property's accessor is to read
    back once the setter has run (the argument itself, or the coordinate
    of it that the property shows). *)
Module binding.
Record t (E : Type) : Type := mk {
  property : AcDbEntityRuntimeProperty.t E;
  argType : Type;
  typedSetter : argType -> E -> E;
  readBack : argType -> AcDbEntityRuntimeProperty.valueType property
}.
Arguments mk {E} property argType typedSetter readBack.
Arguments property {E} _.
Arguments argType {E} _.
Arguments typedSetter {E} _ _ _.
Arguments readBack {E} _ _.

(** Set through the typed setter, read through the accessor. *)
Definition roundTrips {E : Type} (b : t E) : Prop :=
  forall (v : argType b) (e : E),
    AcDbPropertyAccessor.get
      (AcDbEntityRuntimeProperty.accessor (property b))
      (typedSetter b v e)
    = readBack b v.
End binding.

Section GeneralProperties.
Context {E : Type} `{AcDbEntityClass E}.

Definition handleProperty : AcDbEntityRuntimeProperty.t E :=
  AcDbEntityRuntimeProperty.mk "handle" "int" false string
    (AcDbPropertyAccessor.mk
       (fun e => AcDbEntity.objectId (base e))
       None).
(** The setter of this accessor is [this.color.copy(newVal)]. *)
Definition colorProperty : AcDbEntityRuntimeProperty.t E :=
  AcDbEntityRuntimeProperty.mk "color" "color" true AcCmColor.t
    (AcDbPropertyAccessor.mk
       (fun e => AcDbEntity.color (base e))
       (Some (fun newVal e =>
                withBase
                  (AcDbEntity.mk
                     (AcDbEntity.objectId (base e))
                     (AcDbEntity._layer (base e))
                     (AcCmColor.copy newVal (AcDbEntity.color (base e)))
                     (AcDbEntity._lineType (base e))
                     (AcDbEntity._lineWeight (base e))
                     (AcDbEntity._linetypeScale (base e))
                     (AcDbEntity._visibility (base e))
                     (AcDbEntity._transparency (base e)))
                  e))).
Definition layerProperty : AcDbEntityRuntimeProperty.t E :=
  AcDbEntityRuntimeProperty.mk "layer" "string" true string
    (AcDbPropertyAccessor.mk
       (fun e => AcDbEntity.layer (base e))
       (Some (fun newVal e => inherited AcDbEntity.set_layer newVal e))).
Definition linetypeProperty : AcDbEntityRuntimeProperty.t E :=
  AcDbEntityRuntimeProperty.mk "linetype" "linetype" true string
    (AcDbPropertyAccessor.mk
       (fun e => AcDbEntity.lineType (base e))
       (Some (fun newVal e => inherited AcDbEntity.set_lineType newVal e))).
Definition linetypeScaleProperty : AcDbEntityRuntimeProperty.t E :=
  AcDbEntityRuntimeProperty.mk "linetypeScale" "float" true R
    (AcDbPropertyAccessor.mk
       (fun e => AcDbEntity.linetypeScale (base e))
       (Some (fun newVal e =>
                inherited AcDbEntity.set_linetypeScale newVal e))).
Definition lineWeightProperty : AcDbEntityRuntimeProperty.t E :=
  AcDbEntityRuntimeProperty.mk "lineWeight" "lineweight" true Z
    (AcDbPropertyAccessor.mk
       (fun e => AcDbEntity.lineWeight (base e))
       (Some (fun newVal e => inherited AcDbEntity.set_lineWeight newVal e))).
Definition transparencyProperty : AcDbEntityRuntimeProperty.t E :=
  AcDbEntityRuntimeProperty.mk "transparency" "transparency" true
    AcCmTransparency.t
    (AcDbPropertyAccessor.mk
       (fun e => AcDbEntity.transparency (base e))
       (Some (fun newVal e =>
                inherited AcDbEntity.set_transparency newVal e))).

(** [getGeneralProperties()] *)
Definition getGeneralProperties : AcDbEntityPropertyGroup.t E :=
  AcDbEntityPropertyGroup.mk "general"
    [handleProperty; colorProperty; layerProperty; linetypeProperty;
     linetypeScaleProperty; lineWeightProperty; transparencyProperty].

(** [AcDbEntity.properties], inherited by the classes that do not
    override it. *)
Definition entityProperties : AcDbEntityProperties.t E :=
  AcDbEntityProperties.mk typeName [getGeneralProperties].

(** The typed setter behind the linetype property. *)
Definition linetypeBinding : binding.t E :=
  binding.mk linetypeProperty string
    (inherited AcDbEntity.set_lineType) (fun v => v).

(** The typed setters behind the editable properties of the general
    group, in the order of the group. *)
Definition generalBindings : list (binding.t E) :=
  [ binding.mk colorProperty AcCmColor.t
      (inherited AcDbEntity.set_color) (fun v => v);
    binding.mk layerProperty string
      (inherited AcDbEntity.set_layer) (fun v => v);
    linetypeBinding;
    binding.mk linetypeScaleProperty R
      (inherited AcDbEntity.set_linetypeScale) (fun v => v);
    binding.mk lineWeightProperty Z
      (inherited AcDbEntity.set_lineWeight) (fun v => v);
    binding.mk transparencyProperty AcCmTransparency.t
      (inherited AcDbEntity.set_transparency) (fun v => v) ].

(** The bindings [own] of a class, with the general ones, name a typed
    setter for every editable property of the tree, in order, but for the
    properties [rest] at the end. *)
Definition coversBut (tree : AcDbEntityProperties.t E)
    (own : list (binding.t E)) (rest : list (AcDbEntityRuntimeProperty.t E))
    : Prop :=
  List.filter AcDbEntityRuntimeProperty.editable
    (AcDbEntityProperties.allProperties tree)
  = map binding.property (generalBindings ++ own) ++ rest.

Definition covers (tree : AcDbEntityProperties.t E)
    (own : list (binding.t E)) : Prop :=
  coversBut tree own [].
End GeneralProperties.

(** ** AcDbMText *)

Module AcDbMText.
Record t : Type := mk {
  entity : AcDbEntity.t;
  _height : R;
  _width : R;
  _contents : string;
  _lineSpacingStyle : Z;
  _lineSpacingFactor : R;
  _backgroundFill : bool;
  _backgroundFillColor : Z;
  _backgroundScaleFactor : R;
  _backgroundFillTransparency : R;
  _rotation : R;
  _styleName : string;
  _location : AcGePoint3d.t;
  _attachmentPoint : Z;
  _direction : AcGePoint3d.t;
  _drawingDirection : Z
}.

(** Field updates: one assignment to a private field. *)
Definition with_entity (v : AcDbEntity.t) (m : t) : t :=
  mk v (_height m) (_width m) (_contents m) (_lineSpacingStyle m)
     (_lineSpacingFactor m) (_backgroundFill m) (_backgroundFillColor m)
     (_backgroundScaleFactor m) (_backgroundFillTransparency m)
     (_rotation m) (_styleName m) (_location m) (_attachmentPoint m)
     (_direction m) (_drawingDirection m).
Definition with_height (v : R) (m : t) : t :=
  mk (entity m) v (_width m) (_contents m) (_lineSpacingStyle m)
     (_lineSpacingFactor m) (_backgroundFill m) (_backgroundFillColor m)
     (_backgroundScaleFactor m) (_backgroundFillTransparency m)
     (_rotation m) (_styleName m) (_location m) (_attachmentPoint m)
     (_direction m) (_drawingDirection m).
Definition with_width (v : R) (m : t) : t :=
  mk (entity m) (_height m) v (_contents m) (_lineSpacingStyle m)
     (_lineSpacingFactor m) (_backgroundFill m) (_backgroundFillColor m)
     (_backgroundScaleFactor m) (_backgroundFillTransparency m)
     (_rotation m) (_styleName m) (_location m) (_attachmentPoint m)
     (_direction m) (_drawingDirection m).
Definition with_contents (v : string) (m : t) : t :=
  mk (entity m) (_height m) (_width m) v (_lineSpacingStyle m)
     (_lineSpacingFactor m) (_backgroundFill m) (_backgroundFillColor m)
     (_backgroundScaleFactor m) (_backgroundFillTransparency m)
     (_rotation m) (_styleName m) (_location m) (_attachmentPoint m)
     (_direction m) (_drawingDirection m).
Definition with_lineSpacingStyle (v : Z) (m : t) : t :=
  mk (entity m) (_height m) (_width m) (_contents m) v
     (_lineSpacingFactor m) (_backgroundFill m) (_backgroundFillColor m)
     (_backgroundScaleFactor m) (_backgroundFillTransparency m)
     (_rotation m) (_styleName m) (_location m) (_attachmentPoint m)
     (_direction m) (_drawingDirection m).
Definition with_lineSpacingFactor (v : R) (m : t) : t :=
  mk (entity m) (_height m) (_width m) (_contents m) (_lineSpacingStyle m)
     v (_backgroundFill m) (_backgroundFillColor m)
     (_backgroundScaleFactor m) (_backgroundFillTransparency m)
     (_rotation m) (_styleName m) (_location m) (_attachmentPoint m)
     (_direction m) (_drawingDirection m).
Definition with_backgroundFill (v : bool) (m : t) : t :=
  mk (entity m) (_height m) (_width m) (_contents m) (_lineSpacingStyle m)
     (_lineSpacingFactor m) v (_backgroundFillColor m)
     (_backgroundScaleFactor m) (_backgroundFillTransparency m)
     (_rotation m) (_styleName m) (_location m) (_attachmentPoint m)
     (_direction m) (_drawingDirection m).
Definition with_backgroundFillColor (v : Z) (m : t) : t :=
  mk (entity m) (_height m) (_width m) (_contents m) (_lineSpacingStyle m)
     (_lineSpacingFactor m) (_backgroundFill m) v
     (_backgroundScaleFactor m) (_backgroundFillTransparency m)
     (_rotation m) (_styleName m) (_location m) (_attachmentPoint m)
     (_direction m) (_drawingDirection m).
Definition with_backgroundScaleFactor (v : R) (m : t) : t :=
  mk (entity m) (_height m) (_width m) (_contents m) (_lineSpacingStyle m)
     (_lineSpacingFactor m) (_backgroundFill m) (_backgroundFillColor m) v
     (_backgroundFillTransparency m) (_rotation m) (_styleName m)
     (_location m) (_attachmentPoint m) (_direction m)
     (_drawingDirection m).
Definition with_backgroundFillTransparency (v : R) (m : t) : t :=
  mk (entity m) (_height m) (_width m) (_contents m) (_lineSpacingStyle m)
     (_lineSpacingFactor m) (_backgroundFill m) (_backgroundFillColor m)
     (_backgroundScaleFactor m) v (_rotation m) (_styleName m)
     (_location m) (_attachmentPoint m) (_direction m)
     (_drawingDirection m).
Definition with_rotation (v : R) (m : t) : t :=
  mk (entity m) (_height m) (_width m) (_contents m) (_lineSpacingStyle m)
     (_lineSpacingFactor m) (_backgroundFill m) (_backgroundFillColor m)
     (_backgroundScaleFactor m) (_backgroundFillTransparency m) v
     (_styleName m) (_location m) (_attachmentPoint m) (_direction m)
     (_drawingDirection m).
Definition with_styleName (v : string) (m : t) : t :=
  mk (entity m) (_height m) (_width m) (_contents m) (_lineSpacingStyle m)
     (_lineSpacingFactor m) (_backgroundFill m) (_backgroundFillColor m)
     (_backgroundScaleFactor m) (_backgroundFillTransparency m)
     (_rotation m) v (_location m) (_attachmentPoint m) (_direction m)
     (_drawingDirection m).
Definition with_location (v : AcGePoint3d.t) (m : t) : t :=
  mk (entity m) (_height m) (_width m) (_contents m) (_lineSpacingStyle m)
     (_lineSpacingFactor m) (_backgroundFill m) (_backgroundFillColor m)
     (_backgroundScaleFactor m) (_backgroundFillTransparency m)
     (_rotation m) (_styleName m) v (_attachmentPoint m) (_direction m)
     (_drawingDirection m).
Definition with_attachmentPoint (v : Z) (m : t) : t :=
  mk (entity m) (_height m) (_width m) (_contents m) (_lineSpacingStyle m)
     (_lineSpacingFactor m) (_backgroundFill m) (_backgroundFillColor m)
     (_backgroundScaleFactor m) (_backgroundFillTransparency m)
     (_rotation m) (_styleName m) (_location m) v (_direction m)
     (_drawingDirection m).
Definition with_direction (v : AcGePoint3d.t) (m : t) : t :=
  mk (entity m) (_height m) (_width m) (_contents m) (_lineSpacingStyle m)
     (_lineSpacingFactor m) (_backgroundFill m) (_backgroundFillColor m)
     (_backgroundScaleFactor m) (_backgroundFillTransparency m)
     (_rotation m) (_styleName m) (_location m) (_attachmentPoint m) v
     (_drawingDirection m).
Definition with_drawingDirection (v : Z) (m : t) : t :=
  mk (entity m) (_height m) (_width m) (_contents m) (_lineSpacingStyle m)
     (_lineSpacingFactor m) (_backgroundFill m) (_backgroundFillColor m)
     (_backgroundScaleFactor m) (_backgroundFillTransparency m)
     (_rotation m) (_styleName m) (_location m) (_attachmentPoint m)
     (_direction m) v.

Definition contents (m : t) : string := _contents m.
Definition set_contents (value : string) (m : t) : t :=
  with_contents value m.
Definition height (m : t) : R := _height m.
Definition set_height (value : R) (m : t) : t :=
  with_height value m.
Definition width (m : t) : R := _width m.
Definition set_width (value : R) (m : t) : t :=
  with_width value m.
Definition rotation (m : t) : R := _rotation m.
Definition set_rotation (value : R) (m : t) : t :=
  with_rotation value m.
Definition lineSpacingFactor (m : t) : R := _lineSpacingFactor m.
Definition set_lineSpacingFactor (value : R) (m : t) : t :=
  with_lineSpacingFactor value m.
Definition lineSpacingStyle (m : t) : Z := _lineSpacingStyle m.
Definition set_lineSpacingStyle (value : Z) (m : t) : t :=
  with_lineSpacingStyle value m.
Definition backgroundFillColor (m : t) : Z := _backgroundFillColor m.
Definition set_backgroundFillColor (value : Z) (m : t) : t :=
  with_backgroundFillColor value m.
Definition backgroundFillTransparency (m : t) : R :=
  _backgroundFillTransparency m.
Definition set_backgroundFillTransparency (value : R) (m : t) : t :=
  with_backgroundFillTransparency value m.
Definition backgroundScaleFactor (m : t) : R := _backgroundScaleFactor m.
Definition set_backgroundScaleFactor (value : R) (m : t) : t :=
  with_backgroundScaleFactor value m.
Definition styleName (m : t) : string := _styleName m.
Definition set_styleName (value : string) (m : t) : t :=
  with_styleName value m.
Definition attachmentPoint (m : t) : Z := _attachmentPoint m.
Definition set_attachmentPoint (value : Z) (m : t) : t :=
  with_attachmentPoint value m.
Definition drawingDirection (m : t) : Z := _drawingDirection m.
Definition set_drawingDirection (value : Z) (m : t) : t :=
  with_drawingDirection value m.

Definition backgroundFill (m : t) : bool := _backgroundFill m.
(** [set backgroundFill(value)]: two assignments. *)
Definition set_backgroundFill (value : bool) (m : t) : t :=
  let m := with_backgroundFill value m in
  with_backgroundFillColor 0xc8c8c8%Z m.

Definition location (m : t) : AcGePoint3d.t := _location m.
(** [this._location.copy(value)] *)
Definition set_location (value : AcGePoint3d.t) (m : t) : t :=
  with_location value m.

Definition direction (m : t) : AcGePoint3d.t := _direction m.
(** [this._direction.copy(value)] *)
Definition set_direction (value : AcGePoint3d.t) (m : t) : t :=
  with_direction value m.

#[global] Instance entityClass : AcDbEntityClass t :=
  {| typeName := "MText"; base := entity; withBase := with_entity;
     base_withBase := fun _ _ => eq_refl |}.

(** The properties of the [text] group. *)
Definition contentsProperty : AcDbEntityRuntimeProperty.t t :=
  AcDbEntityRuntimeProperty.mk "contents" "string" true string
    (AcDbPropertyAccessor.mk
       (fun m => contents m)
       (Some (fun v m => set_contents v m))).
Definition styleNameProperty : AcDbEntityRuntimeProperty.t t :=
  AcDbEntityRuntimeProperty.mk "styleName" "string" true string
    (AcDbPropertyAccessor.mk
       (fun m => styleName m)
       (Some (fun v m => set_styleName v m))).
Definition attachmentPointProperty : AcDbEntityRuntimeProperty.t t :=
  AcDbEntityRuntimeProperty.mk "attachmentPoint" "enum" true Z
    (AcDbPropertyAccessor.mk
       (fun m => attachmentPoint m)
       (Some (fun v m => set_attachmentPoint v m))).
Definition drawingDirectionProperty : AcDbEntityRuntimeProperty.t t :=
  AcDbEntityRuntimeProperty.mk "drawingDirection" "enum" true Z
    (AcDbPropertyAccessor.mk
       (fun m => drawingDirection m)
       (Some (fun v m => set_drawingDirection v m))).
Definition textHeightProperty : AcDbEntityRuntimeProperty.t t :=
  AcDbEntityRuntimeProperty.mk "textHeight" "float" true R
    (AcDbPropertyAccessor.mk
       (fun m => height m)
       (Some (fun v m => set_height v m))).
Definition rotationProperty : AcDbEntityRuntimeProperty.t t :=
  AcDbEntityRuntimeProperty.mk "rotation" "float" true R
    (AcDbPropertyAccessor.mk
       (fun m => rotation m)
       (Some (fun v m => set_rotation v m))).
Definition lineSpacingFactorProperty : AcDbEntityRuntimeProperty.t t :=
  AcDbEntityRuntimeProperty.mk "lineSpacingFactor" "float" true R
    (AcDbPropertyAccessor.mk
       (fun m => lineSpacingFactor m)
       (Some (fun v m => set_lineSpacingFactor v m))).
Definition definedWidthProperty : AcDbEntityRuntimeProperty.t t :=
  AcDbEntityRuntimeProperty.mk "definedWidth" "float" true R
    (AcDbPropertyAccessor.mk
       (fun m => width m)
       (Some (fun v m => set_width v m))).
Definition directionXProperty : AcDbEntityRuntimeProperty.t t :=
  AcDbEntityRuntimeProperty.mk "directionX" "float" true R
    (AcDbPropertyAccessor.mk
       (fun m => AcGePoint3d.x (direction m))
       (Some (fun v m => with_direction (AcGePoint3d.setX v (direction m)) m))).
Definition directionYProperty : AcDbEntityRuntimeProperty.t t :=
  AcDbEntityRuntimeProperty.mk "directionY" "float" true R
    (AcDbPropertyAccessor.mk
       (fun m => AcGePoint3d.y (direction m))
       (Some (fun v m => with_direction (AcGePoint3d.setY v (direction m)) m))).
Definition directionZProperty : AcDbEntityRuntimeProperty.t t :=
  AcDbEntityRuntimeProperty.mk "directionZ" "float" true R
    (AcDbPropertyAccessor.mk
       (fun m => AcGePoint3d.z (direction m))
       (Some (fun v m => with_direction (AcGePoint3d.setZ v (direction m)) m))).

Definition textGroup : AcDbEntityPropertyGroup.t t :=
  AcDbEntityPropertyGroup.mk "text"
    [contentsProperty; styleNameProperty; attachmentPointProperty;
     drawingDirectionProperty; textHeightProperty; rotationProperty;
     lineSpacingFactorProperty; definedWidthProperty;
     directionXProperty; directionYProperty; directionZProperty].

(** The properties of the [geometry] group. *)
Definition locationXProperty : AcDbEntityRuntimeProperty.t t :=
  AcDbEntityRuntimeProperty.mk "locationX" "float" true R
    (AcDbPropertyAccessor.mk
       (fun m => AcGePoint3d.x (location m))
       (Some (fun v m => with_location (AcGePoint3d.setX v (location m)) m))).
Definition locationYProperty : AcDbEntityRuntimeProperty.t t :=
  AcDbEntityRuntimeProperty.mk "locationY" "float" true R
    (AcDbPropertyAccessor.mk
       (fun m => AcGePoint3d.y (location m))
       (Some (fun v m => with_location (AcGePoint3d.setY v (location m)) m))).
Definition locationZProperty : AcDbEntityRuntimeProperty.t t :=
  AcDbEntityRuntimeProperty.mk "locationZ" "float" true R
    (AcDbPropertyAccessor.mk
       (fun m => AcGePoint3d.z (location m))
       (Some (fun v m => with_location (AcGePoint3d.setZ v (location m)) m))).

Definition geometryGroup : AcDbEntityPropertyGroup.t t :=
  AcDbEntityPropertyGroup.mk "geometry"
    [locationXProperty; locationYProperty; locationZProperty].

(** [get properties()] *)
Definition properties : AcDbEntityProperties.t t :=
  AcDbEntityProperties.mk (typeName (E := t))
    (getGeneralProperties :: [textGroup; geometryGroup]).

(** The typed setter behind each editable property of the groups this
    class adds, with the value the accessor is to read back. *)
Definition bindings : list (binding.t t) :=
  [
    binding.mk contentsProperty string set_contents (fun v => v);
    binding.mk styleNameProperty string set_styleName (fun v => v);
    binding.mk attachmentPointProperty Z set_attachmentPoint (fun v => v);
    binding.mk drawingDirectionProperty Z set_drawingDirection (fun v => v);
    binding.mk textHeightProperty R set_height (fun v => v);
    binding.mk rotationProperty R set_rotation (fun v => v);
    binding.mk lineSpacingFactorProperty R set_lineSpacingFactor (fun v => v);
    binding.mk definedWidthProperty R set_width (fun v => v);
    binding.mk directionXProperty AcGePoint3d.t set_direction AcGePoint3d.x;
    binding.mk directionYProperty AcGePoint3d.t set_direction AcGePoint3d.y;
    binding.mk directionZProperty AcGePoint3d.t set_direction AcGePoint3d.z;
    binding.mk locationXProperty AcGePoint3d.t set_location AcGePoint3d.x;
    binding.mk locationYProperty AcGePoint3d.t set_location AcGePoint3d.y;
    binding.mk locationZProperty AcGePoint3d.t set_location AcGePoint3d.z
  ].
End AcDbMText.

(** ** AcDbText *)

Module AcDbText.
Inductive AcDbTextHorizontalMode : Type :=
| LEFT
| CENTER
| RIGHT
| ALIGNED
| MIDDLE
| FIT.

Inductive AcDbTextVerticalMode : Type :=
| BASELINE
| BOTTOM
| VMIDDLE
| TOP.

Record t : Type := mk {
  entity : AcDbEntity.t;
  _textString : string;
  _thickness : R;
  _height : R;
  _position : AcGePoint3d.t;
  _rotation : R;
  _oblique : R;
  _horizontalMode : AcDbTextHorizontalMode;
  _verticalModel : AcDbTextVerticalMode;
  _styleName : string;
  _widthFactor : R
}.

(** Field updates: one assignment to a private field. *)
Definition with_entity (v : AcDbEntity.t) (t0 : t) : t :=
  mk v (_textString t0) (_thickness t0) (_height t0) (_position t0)
     (_rotation t0) (_oblique t0) (_horizontalMode t0) (_verticalModel t0)
     (_styleName t0) (_widthFactor t0).
Definition with_textString (v : string) (t0 : t) : t :=
  mk (entity t0) v (_thickness t0) (_height t0) (_position t0)
     (_rotation t0) (_oblique t0) (_horizontalMode t0) (_verticalModel t0)
     (_styleName t0) (_widthFactor t0).
Definition with_thickness (v : R) (t0 : t) : t :=
  mk (entity t0) (_textString t0) v (_height t0) (_position t0)
     (_rotation t0) (_oblique t0) (_horizontalMode t0) (_verticalModel t0)
     (_styleName t0) (_widthFactor t0).
Definition with_height (v : R) (t0 : t) : t :=
  mk (entity t0) (_textString t0) (_thickness t0) v (_position t0)
     (_rotation t0) (_oblique t0) (_horizontalMode t0) (_verticalModel t0)
     (_styleName t0) (_widthFactor t0).
Definition with_position (v : AcGePoint3d.t) (t0 : t) : t :=
  mk (entity t0) (_textString t0) (_thickness t0) (_height t0) v
     (_rotation t0) (_oblique t0) (_horizontalMode t0) (_verticalModel t0)
     (_styleName t0) (_widthFactor t0).
Definition with_rotation (v : R) (t0 : t) : t :=
  mk (entity t0) (_textString t0) (_thickness t0) (_height t0)
     (_position t0) v (_oblique t0) (_horizontalMode t0)
     (_verticalModel t0) (_styleName t0) (_widthFactor t0).
Definition with_oblique (v : R) (t0 : t) : t :=
  mk (entity t0) (_textString t0) (_thickness t0) (_height t0)
     (_position t0) (_rotation t0) v (_horizontalMode t0)
     (_verticalModel t0) (_styleName t0) (_widthFactor t0).
Definition with_horizontalMode (v : AcDbTextHorizontalMode) (t0 : t) : t :=
  mk (entity t0) (_textString t0) (_thickness t0) (_height t0)
     (_position t0) (_rotation t0) (_oblique t0) v (_verticalModel t0)
     (_styleName t0) (_widthFactor t0).
Definition with_verticalModel (v : AcDbTextVerticalMode) (t0 : t) : t :=
  mk (entity t0) (_textString t0) (_thickness t0) (_height t0)
     (_position t0) (_rotation t0) (_oblique t0) (_horizontalMode t0) v
     (_styleName t0) (_widthFactor t0).
Definition with_styleName (v : string) (t0 : t) : t :=
  mk (entity t0) (_textString t0) (_thickness t0) (_height t0)
     (_position t0) (_rotation t0) (_oblique t0) (_horizontalMode t0)
     (_verticalModel t0) v (_widthFactor t0).
Definition with_widthFactor (v : R) (t0 : t) : t :=
  mk (entity t0) (_textString t0) (_thickness t0) (_height t0)
     (_position t0) (_rotation t0) (_oblique t0) (_horizontalMode t0)
     (_verticalModel t0) (_styleName t0) v.

Definition textString (t0 : t) : string := _textString t0.
Definition set_textString (value : string) (t0 : t) : t :=
  with_textString value t0.
Definition thickness (t0 : t) : R := _thickness t0.
Definition set_thickness (value : R) (t0 : t) : t :=
  with_thickness value t0.
Definition height (t0 : t) : R := _height t0.
Definition set_height (value : R) (t0 : t) : t :=
  with_height value t0.
Definition rotation (t0 : t) : R := _rotation t0.
Definition set_rotation (value : R) (t0 : t) : t :=
  with_rotation value t0.
Definition oblique (t0 : t) : R := _oblique t0.
Definition set_oblique (value : R) (t0 : t) : t :=
  with_oblique value t0.
Definition horizontalMode (t0 : t) : AcDbTextHorizontalMode :=
  _horizontalMode t0.
Definition set_horizontalMode (value : AcDbTextHorizontalMode) (t0 : t) : t :=
  with_horizontalMode value t0.
Definition verticalMode (t0 : t) : AcDbTextVerticalMode := _verticalModel t0.
Definition set_verticalMode (value : AcDbTextVerticalMode) (t0 : t) : t :=
  with_verticalModel value t0.
Definition styleName (t0 : t) : string := _styleName t0.
Definition set_styleName (value : string) (t0 : t) : t :=
  with_styleName value t0.
Definition widthFactor (t0 : t) : R := _widthFactor t0.
Definition set_widthFactor (value : R) (t0 : t) : t :=
  with_widthFactor value t0.

Definition position (t0 : t) : AcGePoint3d.t := _position t0.
(** [this._position.copy(value)] *)
Definition set_position (value : AcGePoint3d.t) (t0 : t) : t :=
  with_position value t0.

(** [constructor()], on top of an already initialised base part. *)
Definition new (base : AcDbEntity.t) : t :=
  mk base "" 1 0 AcGePoint3d.origin 0 0 LEFT VMIDDLE "" 1.

#[global] Instance entityClass : AcDbEntityClass t :=
  {| typeName := "Text"; base := entity; withBase := with_entity;
     base_withBase := fun _ _ => eq_refl |}.

(** The properties of the [text] group. *)
Definition contentsProperty : AcDbEntityRuntimeProperty.t t :=
  AcDbEntityRuntimeProperty.mk "contents" "string" true string
    (AcDbPropertyAccessor.mk
       (fun t0 => textString t0)
       (Some (fun v t0 => set_textString v t0))).
Definition styleNameProperty : AcDbEntityRuntimeProperty.t t :=
  AcDbEntityRuntimeProperty.mk "styleName" "string" true string
    (AcDbPropertyAccessor.mk
       (fun t0 => styleName t0)
       (Some (fun v t0 => set_styleName v t0))).
Definition textHeightProperty : AcDbEntityRuntimeProperty.t t :=
  AcDbEntityRuntimeProperty.mk "textHeight" "float" true R
    (AcDbPropertyAccessor.mk
       (fun t0 => height t0)
       (Some (fun v t0 => set_height v t0))).
Definition rotationProperty : AcDbEntityRuntimeProperty.t t :=
  AcDbEntityRuntimeProperty.mk "rotation" "float" true R
    (AcDbPropertyAccessor.mk
       (fun t0 => rotation t0)
       (Some (fun v t0 => set_rotation v t0))).
Definition widthFactorProperty : AcDbEntityRuntimeProperty.t t :=
  AcDbEntityRuntimeProperty.mk "widthFactor" "float" true R
    (AcDbPropertyAccessor.mk
       (fun t0 => widthFactor t0)
       (Some (fun v t0 => set_widthFactor v t0))).
Definition obliqueProperty : AcDbEntityRuntimeProperty.t t :=
  AcDbEntityRuntimeProperty.mk "oblique" "float" true R
    (AcDbPropertyAccessor.mk
       (fun t0 => oblique t0)
       (Some (fun v t0 => set_oblique v t0))).

Definition textGroup : AcDbEntityPropertyGroup.t t :=
  AcDbEntityPropertyGroup.mk "text"
    [contentsProperty; styleNameProperty; textHeightProperty;
     rotationProperty; widthFactorProperty; obliqueProperty].

(** The properties of the [geometry] group. *)
Definition positionXProperty : AcDbEntityRuntimeProperty.t t :=
  AcDbEntityRuntimeProperty.mk "positionX" "float" true R
    (AcDbPropertyAccessor.mk
       (fun t0 => AcGePoint3d.x (position t0))
       (Some (fun v t0 =>
                with_position (AcGePoint3d.setX v (position t0)) t0))).
Definition positionYProperty : AcDbEntityRuntimeProperty.t t :=
  AcDbEntityRuntimeProperty.mk "positionY" "float" true R
    (AcDbPropertyAccessor.mk
       (fun t0 => AcGePoint3d.y (position t0))
       (Some (fun v t0 =>
                with_position (AcGePoint3d.setY v (position t0)) t0))).
Definition positionZProperty : AcDbEntityRuntimeProperty.t t :=
  AcDbEntityRuntimeProperty.mk "positionZ" "float" true R
    (AcDbPropertyAccessor.mk
       (fun t0 => AcGePoint3d.z (position t0))
       (Some (fun v t0 =>
                with_position (AcGePoint3d.setZ v (position t0)) t0))).

Definition geometryGroup : AcDbEntityPropertyGroup.t t :=
  AcDbEntityPropertyGroup.mk "geometry"
    [positionXProperty; positionYProperty; positionZProperty].

(** [get properties()] *)
Definition properties : AcDbEntityProperties.t t :=
  AcDbEntityProperties.mk (typeName (E := t))
    (getGeneralProperties :: [textGroup; geometryGroup]).

(** The typed setter behind each editable property of the groups this
    class adds, with the value the accessor is to read back. *)
Definition bindings : list (binding.t t) :=
  [
    binding.mk contentsProperty string set_textString (fun v => v);
    binding.mk styleNameProperty string set_styleName (fun v => v);
    binding.mk textHeightProperty R set_height (fun v => v);
    binding.mk rotationProperty R set_rotation (fun v => v);
    binding.mk widthFactorProperty R set_widthFactor (fun v => v);
    binding.mk obliqueProperty R set_oblique (fun v => v);
    binding.mk positionXProperty AcGePoint3d.t set_position AcGePoint3d.x;
    binding.mk positionYProperty AcGePoint3d.t set_position AcGePoint3d.y;
    binding.mk positionZProperty AcGePoint3d.t set_position AcGePoint3d.z
  ].
End AcDbText.

(** ** AcDbRay *)

Module AcDbRay.
Local Open Scope R_scope.

Record t : Type := mk {
  entity : AcDbEntity.t;
  _basePoint : AcGePoint3d.t;
  _unitDir : AcGePoint3d.t
}.

(** Field updates: one assignment to a private field. *)
Definition with_entity (v : AcDbEntity.t) (r : t) : t :=
  mk v (_basePoint r) (_unitDir r).
Definition with_basePoint (v : AcGePoint3d.t) (r : t) : t :=
  mk (entity r) v (_unitDir r).
Definition with_unitDir (v : AcGePoint3d.t) (r : t) : t :=
  mk (entity r) (_basePoint r) v.



(** [constructor()], on top of an already initialised base part. *)
Definition new (base : AcDbEntity.t) : t :=
  mk base AcGePoint3d.origin AcGePoint3d.origin.

Definition basePoint (r : t) : AcGePoint3d.t := _basePoint r.
(** [this._basePoint.copy(value)] *)
Definition set_basePoint (value : AcGePoint3d.t) (r : t) : t :=
  with_basePoint value r.

Definition unitDir (r : t) : AcGePoint3d.t := _unitDir r.
(** [this._unitDir.copy(value)] *)
Definition set_unitDir (value : AcGePoint3d.t) (r : t) : t :=
  with_unitDir value r.

Definition closed (r : t) : bool := false.

(** [get geometricExtents()] *)
Definition geometricExtents (r : t) : AcGeBox3d.t :=
  let extents := AcGeBox3d.Empty in
  let extents :=
    AcGeBox3d.expandByPoint
      (AcGePoint3d.add (_basePoint r)
         (AcGePoint3d.multiplyScalar 10 (_unitDir r))) extents in
  let extents :=
    AcGeBox3d.expandByPoint
      (AcGePoint3d.add (_basePoint r)
         (AcGePoint3d.multiplyScalar (-10) (_unitDir r))) extents in
  extents.

Definition subGetGripPoints (r : t) : list AcGePoint3d.t :=
  [basePoint r].

(** [draw(renderer)] *)
Definition draw (db : AcDbDatabase) (r : t) (renderer : AcGiRenderer)
    : AcGiRenderer :=
  let points :=
    [ basePoint r;
      AcGePoint3d.add (_basePoint r)
        (AcGePoint3d.multiplyScalar 1000000 (_unitDir r)) ] in
  let renderer := AcDbEntity.attachToEntityTraits db (entity r) renderer in
  request (GiLines points) renderer.

#[global] Instance entityClass : AcDbEntityClass t :=
  {| typeName := "Ray"; base := entity; withBase := with_entity;
     base_withBase := fun _ _ => eq_refl |}.

(** The properties of the [geometry] group. *)
Definition basePointXProperty : AcDbEntityRuntimeProperty.t t :=
  AcDbEntityRuntimeProperty.mk "basePointX" "float" true R
    (AcDbPropertyAccessor.mk
       (fun r => AcGePoint3d.x (basePoint r))
       (Some (fun v r => with_basePoint (AcGePoint3d.setX v (basePoint r)) r))).
Definition basePointYProperty : AcDbEntityRuntimeProperty.t t :=
  AcDbEntityRuntimeProperty.mk "basePointY" "float" true R
    (AcDbPropertyAccessor.mk
       (fun r => AcGePoint3d.y (basePoint r))
       (Some (fun v r => with_basePoint (AcGePoint3d.setY v (basePoint r)) r))).
Definition basePointZProperty : AcDbEntityRuntimeProperty.t t :=
  AcDbEntityRuntimeProperty.mk "basePointZ" "float" true R
    (AcDbPropertyAccessor.mk
       (fun r => AcGePoint3d.z (basePoint r))
       (Some (fun v r => with_basePoint (AcGePoint3d.setZ v (basePoint r)) r))).
Definition unitDirXProperty : AcDbEntityRuntimeProperty.t t :=
  AcDbEntityRuntimeProperty.mk "unitDirX" "float" true R
    (AcDbPropertyAccessor.mk
       (fun r => AcGePoint3d.x (unitDir r))
       (Some (fun v r => with_unitDir (AcGePoint3d.setX v (unitDir r)) r))).
Definition unitDirYProperty : AcDbEntityRuntimeProperty.t t :=
  AcDbEntityRuntimeProperty.mk "unitDirY" "float" true R
    (AcDbPropertyAccessor.mk
       (fun r => AcGePoint3d.y (unitDir r))
       (Some (fun v r => with_unitDir (AcGePoint3d.setY v (unitDir r)) r))).
Definition unitDirZProperty : AcDbEntityRuntimeProperty.t t :=
  AcDbEntityRuntimeProperty.mk "unitDirZ" "float" true R
    (AcDbPropertyAccessor.mk
       (fun r => AcGePoint3d.z (unitDir r))
       (Some (fun v r => with_unitDir (AcGePoint3d.setZ v (unitDir r)) r))).

Definition geometryGroup : AcDbEntityPropertyGroup.t t :=
  AcDbEntityPropertyGroup.mk "geometry"
    [basePointXProperty; basePointYProperty; basePointZProperty;
     unitDirXProperty; unitDirYProperty; unitDirZProperty].

(** [get properties()] *)
Definition properties : AcDbEntityProperties.t t :=
  AcDbEntityProperties.mk (typeName (E := t))
    (getGeneralProperties :: [geometryGroup]).

(** The typed setter behind each editable property of the groups this
    class adds, with the value the accessor is to read back. *)
Definition bindings : list (binding.t t) :=
  [
    binding.mk basePointXProperty AcGePoint3d.t set_basePoint AcGePoint3d.x;
    binding.mk basePointYProperty AcGePoint3d.t set_basePoint AcGePoint3d.y;
    binding.mk basePointZProperty AcGePoint3d.t set_basePoint AcGePoint3d.z;
    binding.mk unitDirXProperty AcGePoint3d.t set_unitDir AcGePoint3d.x;
    binding.mk unitDirYProperty AcGePoint3d.t set_unitDir AcGePoint3d.y;
    binding.mk unitDirZProperty AcGePoint3d.t set_unitDir AcGePoint3d.z
  ].
End AcDbRay.

(** ** AcDbXline *)

Module AcDbXline.
Local Open Scope R_scope.

Record t : Type := mk {
  entity : AcDbEntity.t;
  _basePoint : AcGePoint3d.t;
  _unitDir : AcGePoint3d.t
}.

(** Field updates: one assignment to a private field. *)
Definition with_entity (v : AcDbEntity.t) (r : t) : t :=
  mk v (_basePoint r) (_unitDir r).
Definition with_basePoint (v : AcGePoint3d.t) (r : t) : t :=
  mk (entity r) v (_unitDir r).
Definition with_unitDir (v : AcGePoint3d.t) (r : t) : t :=
  mk (entity r) (_basePoint r) v.



(** [constructor()], on top of an already initialised base part. *)
Definition new (base : AcDbEntity.t) : t :=
  mk base AcGePoint3d.origin AcGePoint3d.origin.

Definition basePoint (r : t) : AcGePoint3d.t := _basePoint r.
(** [this._basePoint.copy(value)] *)
Definition set_basePoint (value : AcGePoint3d.t) (r : t) : t :=
  with_basePoint value r.

Definition unitDir (r : t) : AcGePoint3d.t := _unitDir r.
(** [this._unitDir.copy(value)] *)
Definition set_unitDir (value : AcGePoint3d.t) (r : t) : t :=
  with_unitDir value r.

Definition closed (r : t) : bool := false.

(** [get geometricExtents()] *)
Definition geometricExtents (r : t) : AcGeBox3d.t :=
  let extents := AcGeBox3d.Empty in
  let extents :=
    AcGeBox3d.expandByPoint
      (AcGePoint3d.add (_basePoint r)
         (AcGePoint3d.multiplyScalar 10 (_unitDir r))) extents in
  let extents :=
    AcGeBox3d.expandByPoint
      (AcGePoint3d.add (_basePoint r)
         (AcGePoint3d.multiplyScalar (-10) (_unitDir r))) extents in
  extents.

Definition subGetGripPoints (r : t) : list AcGePoint3d.t :=
  [basePoint r].

(** [draw(renderer)] *)
Definition draw (db : AcDbDatabase) (r : t) (renderer : AcGiRenderer)
    : AcGiRenderer :=
  let points :=
    [ AcGePoint3d.add (_basePoint r)
        (AcGePoint3d.multiplyScalar (-1000000) (_unitDir r));
      AcGePoint3d.add (_basePoint r)
        (AcGePoint3d.multiplyScalar 1000000 (_unitDir r)) ] in
  let renderer := AcDbEntity.attachToEntityTraits db (entity r) renderer in
  request (GiLines points) renderer.

#[global] Instance entityClass : AcDbEntityClass t :=
  {| typeName := "Xline"; base := entity; withBase := with_entity;
     base_withBase := fun _ _ => eq_refl |}.

(** The properties of the [geometry] group. *)
Definition basePointXProperty : AcDbEntityRuntimeProperty.t t :=
  AcDbEntityRuntimeProperty.mk "basePointX" "float" true R
    (AcDbPropertyAccessor.mk
       (fun r => AcGePoint3d.x (basePoint r))
       (Some (fun v r => with_basePoint (AcGePoint3d.setX v (basePoint r)) r))).
Definition basePointYProperty : AcDbEntityRuntimeProperty.t t :=
  AcDbEntityRuntimeProperty.mk "basePointY" "float" true R
    (AcDbPropertyAccessor.mk
       (fun r => AcGePoint3d.y (basePoint r))
       (Some (fun v r => with_basePoint (AcGePoint3d.setY v (basePoint r)) r))).
Definition basePointZProperty : AcDbEntityRuntimeProperty.t t :=
  AcDbEntityRuntimeProperty.mk "basePointZ" "float" true R
    (AcDbPropertyAccessor.mk
       (fun r => AcGePoint3d.z (basePoint r))
       (Some (fun v r => with_basePoint (AcGePoint3d.setZ v (basePoint r)) r))).
Definition unitDirXProperty : AcDbEntityRuntimeProperty.t t :=
  AcDbEntityRuntimeProperty.mk "unitDirX" "float" true R
    (AcDbPropertyAccessor.mk
       (fun r => AcGePoint3d.x (unitDir r))
       (Some (fun v r => with_unitDir (AcGePoint3d.setX v (unitDir r)) r))).
Definition unitDirYProperty : AcDbEntityRuntimeProperty.t t :=
  AcDbEntityRuntimeProperty.mk "unitDirY" "float" true R
    (AcDbPropertyAccessor.mk
       (fun r => AcGePoint3d.y (unitDir r))
       (Some (fun v r => with_unitDir (AcGePoint3d.setY v (unitDir r)) r))).
Definition unitDirZProperty : AcDbEntityRuntimeProperty.t t :=
  AcDbEntityRuntimeProperty.mk "unitDirZ" "float" true R
    (AcDbPropertyAccessor.mk
       (fun r => AcGePoint3d.z (unitDir r))
       (Some (fun v r => with_unitDir (AcGePoint3d.setZ v (unitDir r)) r))).

Definition geometryGroup : AcDbEntityPropertyGroup.t t :=
  AcDbEntityPropertyGroup.mk "geometry"
    [basePointXProperty; basePointYProperty; basePointZProperty;
     unitDirXProperty; unitDirYProperty; unitDirZProperty].

(** [get properties()] *)
Definition properties : AcDbEntityProperties.t t :=
  AcDbEntityProperties.mk (typeName (E := t))
    (getGeneralProperties :: [geometryGroup]).

(** The typed setter behind each editable property of the groups this
    class adds, with the value the accessor is to read back. *)
Definition bindings : list (binding.t t) :=
  [
    binding.mk basePointXProperty AcGePoint3d.t set_basePoint AcGePoint3d.x;
    binding.mk basePointYProperty AcGePoint3d.t set_basePoint AcGePoint3d.y;
    binding.mk basePointZProperty AcGePoint3d.t set_basePoint AcGePoint3d.z;
    binding.mk unitDirXProperty AcGePoint3d.t set_unitDir AcGePoint3d.x;
    binding.mk unitDirYProperty AcGePoint3d.t set_unitDir AcGePoint3d.y;
    binding.mk unitDirZProperty AcGePoint3d.t set_unitDir AcGePoint3d.z
  ].
End AcDbXline.


(** ** AcDbPoint *)

Module AcGePointLike.
(** Modelled from the spec: a point-like argument of the geometry engine,
    whose [z] may be missing. *)
Record t : Type := mk { x : R; y : R; z : option R }.
End AcGePointLike.

Module AcDbPoint.
Local Open Scope R_scope.

Record t : Type := mk {
  entity : AcDbEntity.t;
  _geo : AcGePoint3d.t
}.

Definition with_entity (v : AcDbEntity.t) (p : t) : t := mk v (_geo p).
Definition with_geo (v : AcGePoint3d.t) (p : t) : t := mk (entity p) v.

(** [constructor()], on top of an already initialised base part. *)
Definition new (base : AcDbEntity.t) : t := mk base AcGePoint3d.origin.

Definition position (p : t) : AcGePoint3d.t := _geo p.
(** [this._geo.set(value.x, value.y, value.z || 0)] *)
Definition set_position (value : AcGePointLike.t) (p : t) : t :=
  with_geo
    (AcGePoint3d.mk (AcGePointLike.x value) (AcGePointLike.y value)
       (match AcGePointLike.z value with
        | Some z => z
        | None => 0
        end))
    p.

(** [get geometricExtents()] *)
Definition geometricExtents (p : t) : AcGeBox3d.t :=
  AcGeBox3d.expandByPoint (_geo p) AcGeBox3d.Empty.

#[global] Instance entityClass : AcDbEntityClass t :=
  {| typeName := "Point"; base := entity; withBase := with_entity;
     base_withBase := fun _ _ => eq_refl |}.

(** The properties of the [geometry] group. *)
Definition positionXProperty : AcDbEntityRuntimeProperty.t t :=
  AcDbEntityRuntimeProperty.mk "positionX" "float" true R
    (AcDbPropertyAccessor.mk
       (fun p => AcGePoint3d.x (position p))
       (Some (fun v p => with_geo (AcGePoint3d.setX v (position p)) p))).
Definition positionYProperty : AcDbEntityRuntimeProperty.t t :=
  AcDbEntityRuntimeProperty.mk "positionY" "float" true R
    (AcDbPropertyAccessor.mk
       (fun p => AcGePoint3d.y (position p))
       (Some (fun v p => with_geo (AcGePoint3d.setY v (position p)) p))).
Definition positionZProperty : AcDbEntityRuntimeProperty.t t :=
  AcDbEntityRuntimeProperty.mk "positionZ" "float" true R
    (AcDbPropertyAccessor.mk
       (fun p => AcGePoint3d.z (position p))
       (Some (fun v p => with_geo (AcGePoint3d.setZ v (position p)) p))).

Definition geometryGroup : AcDbEntityPropertyGroup.t t :=
  AcDbEntityPropertyGroup.mk "geometry"
    [positionXProperty; positionYProperty; positionZProperty].

(** [get properties()] *)
Definition properties : AcDbEntityProperties.t t :=
  AcDbEntityProperties.mk (typeName (E := t))
    (getGeneralProperties :: [geometryGroup]).

(** The typed setter behind each editable property of the group this
    class adds, with the value the accessor is to read back. *)
Definition bindings : list (binding.t t) :=
  [ binding.mk positionXProperty AcGePointLike.t set_position
      AcGePointLike.x;
    binding.mk positionYProperty AcGePointLike.t set_position
      AcGePointLike.y;
    binding.mk positionZProperty AcGePointLike.t set_position
      (fun value =>
         match AcGePointLike.z value with
         | Some z => z
         | None => 0
         end) ].
End AcDbPoint.

(** ** AcDbLine *)

Module AcGeLine3d.
Local Open Scope R_scope.

(** Modelled from the spec: the line segment of the geometry engine,
    which is not among the sources.  The spec gives it two endpoints, a
    midpoint halfway between them, and a box that spans exactly the two
    endpoints; assigning an endpoint stores the given point. *)
Record t : Type := mk {
  startPoint : AcGePoint3d.t;
  endPoint : AcGePoint3d.t
}.

(** Modelled from the spec: assigning an endpoint stores the point. *)
Definition set_startPoint (value : AcGePoint3d.t) (g : t) : t :=
  mk value (endPoint g).
Definition set_endPoint (value : AcGePoint3d.t) (g : t) : t :=
  mk (startPoint g) value.

(** Modelled from the spec: the midpoint, halfway between the endpoints. *)
Definition midPoint (g : t) : AcGePoint3d.t :=
  AcGePoint3d.mk
    ((AcGePoint3d.x (startPoint g) + AcGePoint3d.x (endPoint g)) / 2)
    ((AcGePoint3d.y (startPoint g) + AcGePoint3d.y (endPoint g)) / 2)
    ((AcGePoint3d.z (startPoint g) + AcGePoint3d.z (endPoint g)) / 2).

(** Modelled from the spec: the box that spans the two endpoints. *)
Definition box (g : t) : AcGeBox3d.t :=
  AcGeBox3d.setFromPoints [startPoint g; endPoint g].
End AcGeLine3d.

Module AcDbLine.
Local Open Scope R_scope.

Record t : Type := mk {
  entity : AcDbEntity.t;
  _geo : AcGeLine3d.t
}.

Definition with_entity (v : AcDbEntity.t) (l : t) : t := mk v (_geo l).
Definition with_geo (v : AcGeLine3d.t) (l : t) : t := mk (entity l) v.

(** [constructor(start, end)], on top of an already initialised base
    part. *)
Definition new (base : AcDbEntity.t) (start end_ : AcGePoint3d.t) : t :=
  mk base (AcGeLine3d.mk start end_).

Definition startPoint (l : t) : AcGePoint3d.t :=
  AcGeLine3d.startPoint (_geo l).
Definition set_startPoint (value : AcGePoint3d.t) (l : t) : t :=
  with_geo (AcGeLine3d.set_startPoint value (_geo l)) l.

Definition endPoint (l : t) : AcGePoint3d.t :=
  AcGeLine3d.endPoint (_geo l).
Definition set_endPoint (value : AcGePoint3d.t) (l : t) : t :=
  with_geo (AcGeLine3d.set_endPoint value (_geo l)) l.

Definition midPoint (l : t) : AcGePoint3d.t := AcGeLine3d.midPoint (_geo l).

(** [get geometricExtents()] *)
Definition geometricExtents (l : t) : AcGeBox3d.t := AcGeLine3d.box (_geo l).

Definition closed (l : t) : bool := false.

#[global] Instance entityClass : AcDbEntityClass t :=
  {| typeName := "Line"; base := entity; withBase := with_entity;
     base_withBase := fun _ _ => eq_refl |}.

(** The properties of the [geometry] group. *)
Definition startXProperty : AcDbEntityRuntimeProperty.t t :=
  AcDbEntityRuntimeProperty.mk "startX" "float" true R
    (AcDbPropertyAccessor.mk
       (fun l => AcGePoint3d.x (startPoint l))
       (Some (fun v l =>
                with_geo
                  (AcGeLine3d.mk (AcGePoint3d.setX v (startPoint l))
                     (endPoint l)) l))).
Definition startYProperty : AcDbEntityRuntimeProperty.t t :=
  AcDbEntityRuntimeProperty.mk "startY" "float" true R
    (AcDbPropertyAccessor.mk
       (fun l => AcGePoint3d.y (startPoint l))
       (Some (fun v l =>
                with_geo
                  (AcGeLine3d.mk (AcGePoint3d.setY v (startPoint l))
                     (endPoint l)) l))).
Definition startZProperty : AcDbEntityRuntimeProperty.t t :=
  AcDbEntityRuntimeProperty.mk "startZ" "float" true R
    (AcDbPropertyAccessor.mk
       (fun l => AcGePoint3d.z (startPoint l))
       (Some (fun v l =>
                with_geo
                  (AcGeLine3d.mk (AcGePoint3d.setZ v (startPoint l))
                     (endPoint l)) l))).
Definition endXProperty : AcDbEntityRuntimeProperty.t t :=
  AcDbEntityRuntimeProperty.mk "endX" "float" true R
    (AcDbPropertyAccessor.mk
       (fun l => AcGePoint3d.x (endPoint l))
       (Some (fun v l =>
                with_geo
                  (AcGeLine3d.mk (startPoint l)
                     (AcGePoint3d.setX v (endPoint l))) l))).
Definition endYProperty : AcDbEntityRuntimeProperty.t t :=
  AcDbEntityRuntimeProperty.mk "endY" "float" true R
    (AcDbPropertyAccessor.mk
       (fun l => AcGePoint3d.y (endPoint l))
       (Some (fun v l =>
                with_geo
                  (AcGeLine3d.mk (startPoint l)
                     (AcGePoint3d.setY v (endPoint l))) l))).
Definition endZProperty : AcDbEntityRuntimeProperty.t t :=
  AcDbEntityRuntimeProperty.mk "endZ" "float" true R
    (AcDbPropertyAccessor.mk
       (fun l => AcGePoint3d.z (endPoint l))
       (Some (fun v l =>
                with_geo
                  (AcGeLine3d.mk (startPoint l)
                     (AcGePoint3d.setZ v (endPoint l))) l))).

Definition geometryGroup : AcDbEntityPropertyGroup.t t :=
  AcDbEntityPropertyGroup.mk "geometry"
    [startXProperty; startYProperty; startZProperty;
     endXProperty; endYProperty; endZProperty].

(** [get properties()] *)
Definition properties : AcDbEntityProperties.t t :=
  AcDbEntityProperties.mk (typeName (E := t))
    (getGeneralProperties :: [geometryGroup]).

(** The typed setter behind each editable property of the group this
    class adds, with the value the accessor is to read back. *)
Definition bindings : list (binding.t t) :=
  [ binding.mk startXProperty AcGePoint3d.t set_startPoint AcGePoint3d.x;
    binding.mk startYProperty AcGePoint3d.t set_startPoint AcGePoint3d.y;
    binding.mk startZProperty AcGePoint3d.t set_startPoint AcGePoint3d.z;
    binding.mk endXProperty AcGePoint3d.t set_endPoint AcGePoint3d.x;
    binding.mk endYProperty AcGePoint3d.t set_endPoint AcGePoint3d.y;
    binding.mk endZProperty AcGePoint3d.t set_endPoint AcGePoint3d.z ].

(** [subGetGripPoints()] *)
Definition subGetGripPoints (l : t) : list AcGePoint3d.t :=
  let gripPoints := [] in
  let gripPoints := gripPoints ++ [midPoint l] in
  let gripPoints := gripPoints ++ [startPoint l] in
  let gripPoints := gripPoints ++ [endPoint l] in
  gripPoints.

Section Engine.
(** What the geometry engine computes for the nearest and the
    perpendicular snap. *)
Variable project : AcGeLine3d.t -> AcGePoint3d.t -> AcGePoint3d.t.
Variable perpPoint : AcGeLine3d.t -> AcGePoint3d.t -> AcGePoint3d.t.

(** [subGetOsnapPoints(osnapMode, pickPoint, _lastPoint, snapPoints)]:
    the caller's array after the call. *)
Definition subGetOsnapPoints (osnapMode : AcDbOsnapMode)
    (pickPoint _lastPoint : AcGePoint3d.t)
    (snapPoints : list AcGePoint3d.t) (l : t) : list AcGePoint3d.t :=
  let startPoint := startPoint l in
  let endPoint := endPoint l in
  match osnapMode with
  | EndPoint =>
      let snapPoints := snapPoints ++ [startPoint] in
      snapPoints ++ [endPoint]
  | MidPoint => snapPoints ++ [midPoint l]
  | Nearest =>
      let projectedPoint := project (_geo l) pickPoint in
      snapPoints ++ [projectedPoint]
  | Perpendicular =>
      let perpPoint := perpPoint (_geo l) pickPoint in
      snapPoints ++ [perpPoint]
  | Tangent => snapPoints ++ [startPoint]
  | OtherMode _ => snapPoints
  end.
End Engine.

(** [draw(renderer)] *)
Definition draw (db : AcDbDatabase) (l : t) (renderer : AcGiRenderer)
    : AcGiRenderer :=
  let start := startPoint l in
  let end_ := endPoint l in
  let points :=
    [ AcGePoint3d.mk (AcGePoint3d.x start) (AcGePoint3d.y start) 0;
      AcGePoint3d.mk (AcGePoint3d.x end_) (AcGePoint3d.y end_) 0 ] in
  let renderer := AcDbEntity.attachToEntityTraits db (entity l) renderer in
  request (GiLines points) renderer.
End AcDbLine.

(** ** The arcs of the geometry engine *)

Module AcGeCircArc3d.
(** Modelled from the spec: the circular arc of the geometry engine, which
    is not among the sources: a centre, a radius, two angles, a normal and
    a reference direction. *)
Record t : Type := mk {
  center : AcGePoint3d.t;
  radius : R;
  startAngle : R;
  endAngle : R;
  normal : AcGePoint3d.t;
  refVec : AcGePoint3d.t
}.

(** Modelled from the spec: assigning a field stores the value. *)
Definition set_center (value : AcGePoint3d.t) (g : t) : t :=
  mk value (radius g) (startAngle g) (endAngle g) (normal g) (refVec g).
Definition set_radius (value : R) (g : t) : t :=
  mk (center g) value (startAngle g) (endAngle g) (normal g) (refVec g).
Definition set_startAngle (value : R) (g : t) : t :=
  mk (center g) (radius g) value (endAngle g) (normal g) (refVec g).
Definition set_endAngle (value : R) (g : t) : t :=
  mk (center g) (radius g) (startAngle g) value (normal g) (refVec g).
Definition set_normal (value : AcGePoint3d.t) (g : t) : t :=
  mk (center g) (radius g) (startAngle g) (endAngle g) value (refVec g).
Definition set_refVec (value : AcGePoint3d.t) (g : t) : t :=
  mk (center g) (radius g) (startAngle g) (endAngle g) (normal g) value.
End AcGeCircArc3d.

Module AcGeEllipseArc3d.
(** Modelled from the spec: the elliptical arc of the geometry engine,
    which is not among the sources: a centre, a normal, a major axis, two
    radii and two angles. *)
Record t : Type := mk {
  center : AcGePoint3d.t;
  normal : AcGePoint3d.t;
  majorAxis : AcGePoint3d.t;
  majorAxisRadius : R;
  minorAxisRadius : R;
  startAngle : R;
  endAngle : R
}.

(** Modelled from the spec: assigning a field stores the value. *)
Definition set_center (value : AcGePoint3d.t) (g : t) : t :=
  mk value (normal g) (majorAxis g) (majorAxisRadius g) (minorAxisRadius g)
     (startAngle g) (endAngle g).
Definition set_normal (value : AcGePoint3d.t) (g : t) : t :=
  mk (center g) value (majorAxis g) (majorAxisRadius g) (minorAxisRadius g)
     (startAngle g) (endAngle g).
Definition set_majorAxis (value : AcGePoint3d.t) (g : t) : t :=
  mk (center g) (normal g) value (majorAxisRadius g) (minorAxisRadius g)
     (startAngle g) (endAngle g).
Definition set_majorAxisRadius (value : R) (g : t) : t :=
  mk (center g) (normal g) (majorAxis g) value (minorAxisRadius g)
     (startAngle g) (endAngle g).
Definition set_minorAxisRadius (value : R) (g : t) : t :=
  mk (center g) (normal g) (majorAxis g) (majorAxisRadius g) value
     (startAngle g) (endAngle g).
Definition set_startAngle (value : R) (g : t) : t :=
  mk (center g) (normal g) (majorAxis g) (majorAxisRadius g)
     (minorAxisRadius g) value (endAngle g).
Definition set_endAngle (value : R) (g : t) : t :=
  mk (center g) (normal g) (majorAxis g) (majorAxisRadius g)
     (minorAxisRadius g) (startAngle g) value.
End AcGeEllipseArc3d.

(** ** AcDbCircle *)

Module AcDbCircle.
Local Open Scope R_scope.

Record t : Type := mk {
  entity : AcDbEntity.t;
  _geo : AcGeCircArc3d.t
}.

Definition with_entity (v : AcDbEntity.t) (c : t) : t := mk v (_geo c).
Definition with_geo (v : AcGeCircArc3d.t) (c : t) : t := mk (entity c) v.

Definition radius (c : t) : R := AcGeCircArc3d.radius (_geo c).
Definition set_radius (value : R) (c : t) : t :=
  with_geo (AcGeCircArc3d.set_radius value (_geo c)) c.
Definition center (c : t) : AcGePoint3d.t := AcGeCircArc3d.center (_geo c).
Definition set_center (value : AcGePoint3d.t) (c : t) : t :=
  with_geo (AcGeCircArc3d.set_center value (_geo c)) c.
Definition normal (c : t) : AcGePoint3d.t := AcGeCircArc3d.normal (_geo c).

#[global] Instance entityClass : AcDbEntityClass t :=
  {| typeName := "Circle"; base := entity; withBase := with_entity;
     base_withBase := fun _ _ => eq_refl |}.

(** The properties of the [geometry] group. *)
Definition centerXProperty : AcDbEntityRuntimeProperty.t t :=
  AcDbEntityRuntimeProperty.mk "centerX" "float" true R
    (AcDbPropertyAccessor.mk
       (fun c => AcGePoint3d.x (center c))
       (Some (fun v c =>
                with_geo
                  (AcGeCircArc3d.set_center (AcGePoint3d.setX v (center c))
                     (_geo c)) c))).
Definition centerYProperty : AcDbEntityRuntimeProperty.t t :=
  AcDbEntityRuntimeProperty.mk "centerY" "float" true R
    (AcDbPropertyAccessor.mk
       (fun c => AcGePoint3d.y (center c))
       (Some (fun v c =>
                with_geo
                  (AcGeCircArc3d.set_center (AcGePoint3d.setY v (center c))
                     (_geo c)) c))).
Definition centerZProperty : AcDbEntityRuntimeProperty.t t :=
  AcDbEntityRuntimeProperty.mk "centerZ" "float" true R
    (AcDbPropertyAccessor.mk
       (fun c => AcGePoint3d.z (center c))
       (Some (fun v c =>
                with_geo
                  (AcGeCircArc3d.set_center (AcGePoint3d.setZ v (center c))
                     (_geo c)) c))).
Definition radiusProperty : AcDbEntityRuntimeProperty.t t :=
  AcDbEntityRuntimeProperty.mk "radius" "float" true R
    (AcDbPropertyAccessor.mk
       (fun c => radius c)
       (Some (fun v c => set_radius v c))).
Definition normalXProperty : AcDbEntityRuntimeProperty.t t :=
  AcDbEntityRuntimeProperty.mk "normalX" "float" true R
    (AcDbPropertyAccessor.mk
       (fun c => AcGePoint3d.x (normal c))
       (Some (fun v c =>
                with_geo
                  (AcGeCircArc3d.set_normal (AcGePoint3d.setX v (normal c))
                     (_geo c)) c))).
Definition normalYProperty : AcDbEntityRuntimeProperty.t t :=
  AcDbEntityRuntimeProperty.mk "normalY" "float" true R
    (AcDbPropertyAccessor.mk
       (fun c => AcGePoint3d.y (normal c))
       (Some (fun v c =>
                with_geo
                  (AcGeCircArc3d.set_normal (AcGePoint3d.setY v (normal c))
                     (_geo c)) c))).
Definition normalZProperty : AcDbEntityRuntimeProperty.t t :=
  AcDbEntityRuntimeProperty.mk "normalZ" "float" true R
    (AcDbPropertyAccessor.mk
       (fun c => AcGePoint3d.z (normal c))
       (Some (fun v c =>
                with_geo
                  (AcGeCircArc3d.set_normal (AcGePoint3d.setZ v (normal c))
                     (_geo c)) c))).

Definition geometryGroup : AcDbEntityPropertyGroup.t t :=
  AcDbEntityPropertyGroup.mk "geometry"
    [centerXProperty; centerYProperty; centerZProperty; radiusProperty;
     normalXProperty; normalYProperty; normalZProperty].

(** [get properties()] *)
Definition properties : AcDbEntityProperties.t t :=
  AcDbEntityProperties.mk (typeName (E := t))
    (getGeneralProperties :: [geometryGroup]).

(** The typed setter behind each editable property of the group this
    class adds, with the value the accessor is to read back. *)
Definition bindings : list (binding.t t) :=
  [
    binding.mk centerXProperty AcGePoint3d.t set_center AcGePoint3d.x;
    binding.mk centerYProperty AcGePoint3d.t set_center AcGePoint3d.y;
    binding.mk centerZProperty AcGePoint3d.t set_center AcGePoint3d.z;
    binding.mk radiusProperty R set_radius (fun v => v)
  ].

(** The editable properties for which the class has no typed setter. *)
Definition withoutSetter : list (AcDbEntityRuntimeProperty.t t) :=
  [normalXProperty; normalYProperty; normalZProperty].
End AcDbCircle.

(** ** AcDbArc *)

Module AcDbArc.
Local Open Scope R_scope.

Record t : Type := mk {
  entity : AcDbEntity.t;
  _geo : AcGeCircArc3d.t
}.

Definition with_entity (v : AcDbEntity.t) (c : t) : t := mk v (_geo c).
Definition with_geo (v : AcGeCircArc3d.t) (c : t) : t := mk (entity c) v.

Definition radius (c : t) : R := AcGeCircArc3d.radius (_geo c).
Definition set_radius (value : R) (c : t) : t :=
  with_geo (AcGeCircArc3d.set_radius value (_geo c)) c.
Definition startAngle (c : t) : R := AcGeCircArc3d.startAngle (_geo c).
Definition set_startAngle (value : R) (c : t) : t :=
  with_geo (AcGeCircArc3d.set_startAngle value (_geo c)) c.
Definition endAngle (c : t) : R := AcGeCircArc3d.endAngle (_geo c).
Definition set_endAngle (value : R) (c : t) : t :=
  with_geo (AcGeCircArc3d.set_endAngle value (_geo c)) c.
Definition center (c : t) : AcGePoint3d.t := AcGeCircArc3d.center (_geo c).
Definition set_center (value : AcGePoint3d.t) (c : t) : t :=
  with_geo (AcGeCircArc3d.set_center value (_geo c)) c.
Definition normal (c : t) : AcGePoint3d.t := AcGeCircArc3d.normal (_geo c).
Definition set_normal (value : AcGePoint3d.t) (c : t) : t :=
  with_geo (AcGeCircArc3d.set_normal value (_geo c)) c.

#[global] Instance entityClass : AcDbEntityClass t :=
  {| typeName := "Arc"; base := entity; withBase := with_entity;
     base_withBase := fun _ _ => eq_refl |}.

(** The properties of the [geometry] group. *)
Definition centerXProperty : AcDbEntityRuntimeProperty.t t :=
  AcDbEntityRuntimeProperty.mk "centerX" "float" true R
    (AcDbPropertyAccessor.mk
       (fun c => AcGePoint3d.x (center c))
       (Some (fun v c =>
                with_geo
                  (AcGeCircArc3d.set_center (AcGePoint3d.setX v (center c))
                     (_geo c)) c))).
Definition centerYProperty : AcDbEntityRuntimeProperty.t t :=
  AcDbEntityRuntimeProperty.mk "centerY" "float" true R
    (AcDbPropertyAccessor.mk
       (fun c => AcGePoint3d.y (center c))
       (Some (fun v c =>
                with_geo
                  (AcGeCircArc3d.set_center (AcGePoint3d.setY v (center c))
                     (_geo c)) c))).
Definition centerZProperty : AcDbEntityRuntimeProperty.t t :=
  AcDbEntityRuntimeProperty.mk "centerZ" "float" true R
    (AcDbPropertyAccessor.mk
       (fun c => AcGePoint3d.z (center c))
       (Some (fun v c =>
                with_geo
                  (AcGeCircArc3d.set_center (AcGePoint3d.setZ v (center c))
                     (_geo c)) c))).
Definition radiusProperty : AcDbEntityRuntimeProperty.t t :=
  AcDbEntityRuntimeProperty.mk "radius" "float" true R
    (AcDbPropertyAccessor.mk
       (fun c => radius c)
       (Some (fun v c => set_radius v c))).
Definition startAngleProperty : AcDbEntityRuntimeProperty.t t :=
  AcDbEntityRuntimeProperty.mk "startAngle" "float" true R
    (AcDbPropertyAccessor.mk
       (fun c => startAngle c)
       (Some (fun v c => set_startAngle v c))).
Definition endAngleProperty : AcDbEntityRuntimeProperty.t t :=
  AcDbEntityRuntimeProperty.mk "endAngle" "float" true R
    (AcDbPropertyAccessor.mk
       (fun c => endAngle c)
       (Some (fun v c => set_endAngle v c))).
Definition normalXProperty : AcDbEntityRuntimeProperty.t t :=
  AcDbEntityRuntimeProperty.mk "normalX" "float" true R
    (AcDbPropertyAccessor.mk
       (fun c => AcGePoint3d.x (normal c))
       (Some (fun v c =>
                with_geo
                  (AcGeCircArc3d.set_normal (AcGePoint3d.setX v (normal c))
                     (_geo c)) c))).
Definition normalYProperty : AcDbEntityRuntimeProperty.t t :=
  AcDbEntityRuntimeProperty.mk "normalY" "float" true R
    (AcDbPropertyAccessor.mk
       (fun c => AcGePoint3d.y (normal c))
       (Some (fun v c =>
                with_geo
                  (AcGeCircArc3d.set_normal (AcGePoint3d.setY v (normal c))
                     (_geo c)) c))).
Definition normalZProperty : AcDbEntityRuntimeProperty.t t :=
  AcDbEntityRuntimeProperty.mk "normalZ" "float" true R
    (AcDbPropertyAccessor.mk
       (fun c => AcGePoint3d.z (normal c))
       (Some (fun v c =>
                with_geo
                  (AcGeCircArc3d.set_normal (AcGePoint3d.setZ v (normal c))
                     (_geo c)) c))).

Definition geometryGroup : AcDbEntityPropertyGroup.t t :=
  AcDbEntityPropertyGroup.mk "geometry"
    [centerXProperty; centerYProperty; centerZProperty; radiusProperty;
     startAngleProperty; endAngleProperty; normalXProperty;
     normalYProperty; normalZProperty].

(** [get properties()] *)
Definition properties : AcDbEntityProperties.t t :=
  AcDbEntityProperties.mk (typeName (E := t))
    (getGeneralProperties :: [geometryGroup]).

(** The typed setter behind each editable property of the group this
    class adds, with the value the accessor is to read back. *)
Definition bindings : list (binding.t t) :=
  [
    binding.mk centerXProperty AcGePoint3d.t set_center AcGePoint3d.x;
    binding.mk centerYProperty AcGePoint3d.t set_center AcGePoint3d.y;
    binding.mk centerZProperty AcGePoint3d.t set_center AcGePoint3d.z;
    binding.mk radiusProperty R set_radius (fun v => v);
    binding.mk startAngleProperty R set_startAngle (fun v => v);
    binding.mk endAngleProperty R set_endAngle (fun v => v);
    binding.mk normalXProperty AcGePoint3d.t set_normal AcGePoint3d.x;
    binding.mk normalYProperty AcGePoint3d.t set_normal AcGePoint3d.y;
    binding.mk normalZProperty AcGePoint3d.t set_normal AcGePoint3d.z
  ].
End AcDbArc.

(** ** AcDbEllipse *)

Module AcDbEllipse.
Local Open Scope R_scope.

Record t : Type := mk {
  entity : AcDbEntity.t;
  _geo : AcGeEllipseArc3d.t
}.

Definition with_entity (v : AcDbEntity.t) (c : t) : t := mk v (_geo c).
Definition with_geo (v : AcGeEllipseArc3d.t) (c : t) : t := mk (entity c) v.

Definition majorAxisRadius (c : t) : R :=
  AcGeEllipseArc3d.majorAxisRadius (_geo c).
Definition set_majorAxisRadius (value : R) (c : t) : t :=
  with_geo (AcGeEllipseArc3d.set_majorAxisRadius value (_geo c)) c.
Definition minorAxisRadius (c : t) : R :=
  AcGeEllipseArc3d.minorAxisRadius (_geo c).
Definition set_minorAxisRadius (value : R) (c : t) : t :=
  with_geo (AcGeEllipseArc3d.set_minorAxisRadius value (_geo c)) c.
Definition startAngle (c : t) : R := AcGeEllipseArc3d.startAngle (_geo c).
Definition set_startAngle (value : R) (c : t) : t :=
  with_geo (AcGeEllipseArc3d.set_startAngle value (_geo c)) c.
Definition endAngle (c : t) : R := AcGeEllipseArc3d.endAngle (_geo c).
Definition set_endAngle (value : R) (c : t) : t :=
  with_geo (AcGeEllipseArc3d.set_endAngle value (_geo c)) c.
Definition center (c : t) : AcGePoint3d.t := AcGeEllipseArc3d.center (_geo c).
Definition set_center (value : AcGePoint3d.t) (c : t) : t :=
  with_geo (AcGeEllipseArc3d.set_center value (_geo c)) c.
Definition normal (c : t) : AcGePoint3d.t := AcGeEllipseArc3d.normal (_geo c).
Definition set_normal (value : AcGePoint3d.t) (c : t) : t :=
  with_geo (AcGeEllipseArc3d.set_normal value (_geo c)) c.

#[global] Instance entityClass : AcDbEntityClass t :=
  {| typeName := "Ellipse"; base := entity; withBase := with_entity;
     base_withBase := fun _ _ => eq_refl |}.

(** The properties of the [geometry] group. *)
Definition centerXProperty : AcDbEntityRuntimeProperty.t t :=
  AcDbEntityRuntimeProperty.mk "centerX" "float" true R
    (AcDbPropertyAccessor.mk
       (fun c => AcGePoint3d.x (center c))
       (Some (fun v c =>
                with_geo
                  (AcGeEllipseArc3d.set_center (AcGePoint3d.setX v (center c))
                     (_geo c)) c))).
Definition centerYProperty : AcDbEntityRuntimeProperty.t t :=
  AcDbEntityRuntimeProperty.mk "centerY" "float" true R
    (AcDbPropertyAccessor.mk
       (fun c => AcGePoint3d.y (center c))
       (Some (fun v c =>
                with_geo
                  (AcGeEllipseArc3d.set_center (AcGePoint3d.setY v (center c))
                     (_geo c)) c))).
Definition centerZProperty : AcDbEntityRuntimeProperty.t t :=
  AcDbEntityRuntimeProperty.mk "centerZ" "float" true R
    (AcDbPropertyAccessor.mk
       (fun c => AcGePoint3d.z (center c))
       (Some (fun v c =>
                with_geo
                  (AcGeEllipseArc3d.set_center (AcGePoint3d.setZ v (center c))
                     (_geo c)) c))).
(** The setter of this accessor is [this.center.x = v]. *)
Definition majorAxisRadiusProperty : AcDbEntityRuntimeProperty.t t :=
  AcDbEntityRuntimeProperty.mk "majorAxisRadius" "float" true R
    (AcDbPropertyAccessor.mk
       (fun c => majorAxisRadius c)
       (Some (fun v c =>
                with_geo
                  (AcGeEllipseArc3d.set_center (AcGePoint3d.setX v (center c))
                     (_geo c)) c))).
Definition minorAxisRadiusProperty : AcDbEntityRuntimeProperty.t t :=
  AcDbEntityRuntimeProperty.mk "minorAxisRadius" "float" true R
    (AcDbPropertyAccessor.mk
       (fun c => minorAxisRadius c)
       (Some (fun v c => set_minorAxisRadius v c))).
Definition startAngleProperty : AcDbEntityRuntimeProperty.t t :=
  AcDbEntityRuntimeProperty.mk "startAngle" "float" true R
    (AcDbPropertyAccessor.mk
       (fun c => startAngle c)
       (Some (fun v c => set_startAngle v c))).
Definition endAngleProperty : AcDbEntityRuntimeProperty.t t :=
  AcDbEntityRuntimeProperty.mk "endAngle" "float" true R
    (AcDbPropertyAccessor.mk
       (fun c => endAngle c)
       (Some (fun v c => set_endAngle v c))).
Definition normalXProperty : AcDbEntityRuntimeProperty.t t :=
  AcDbEntityRuntimeProperty.mk "normalX" "float" true R
    (AcDbPropertyAccessor.mk
       (fun c => AcGePoint3d.x (normal c))
       (Some (fun v c =>
                with_geo
                  (AcGeEllipseArc3d.set_normal (AcGePoint3d.setX v (normal c))
                     (_geo c)) c))).
Definition normalYProperty : AcDbEntityRuntimeProperty.t t :=
  AcDbEntityRuntimeProperty.mk "normalY" "float" true R
    (AcDbPropertyAccessor.mk
       (fun c => AcGePoint3d.y (normal c))
       (Some (fun v c =>
                with_geo
                  (AcGeEllipseArc3d.set_normal (AcGePoint3d.setY v (normal c))
                     (_geo c)) c))).
Definition normalZProperty : AcDbEntityRuntimeProperty.t t :=
  AcDbEntityRuntimeProperty.mk "normalZ" "float" true R
    (AcDbPropertyAccessor.mk
       (fun c => AcGePoint3d.z (normal c))
       (Some (fun v c =>
                with_geo
                  (AcGeEllipseArc3d.set_normal (AcGePoint3d.setZ v (normal c))
                     (_geo c)) c))).

Definition geometryGroup : AcDbEntityPropertyGroup.t t :=
  AcDbEntityPropertyGroup.mk "geometry"
    [centerXProperty; centerYProperty; centerZProperty;
     majorAxisRadiusProperty; minorAxisRadiusProperty;
     startAngleProperty; endAngleProperty; normalXProperty;
     normalYProperty; normalZProperty].

(** [get properties()] *)
Definition properties : AcDbEntityProperties.t t :=
  AcDbEntityProperties.mk (typeName (E := t))
    (getGeneralProperties :: [geometryGroup]).

(** The typed setter behind each editable property of the group this
    class adds, with the value the accessor is to read back. *)
Definition bindings : list (binding.t t) :=
  [
    binding.mk centerXProperty AcGePoint3d.t set_center AcGePoint3d.x;
    binding.mk centerYProperty AcGePoint3d.t set_center AcGePoint3d.y;
    binding.mk centerZProperty AcGePoint3d.t set_center AcGePoint3d.z;
    binding.mk majorAxisRadiusProperty R set_majorAxisRadius (fun v => v);
    binding.mk minorAxisRadiusProperty R set_minorAxisRadius (fun v => v);
    binding.mk startAngleProperty R set_startAngle (fun v => v);
    binding.mk endAngleProperty R set_endAngle (fun v => v);
    binding.mk normalXProperty AcGePoint3d.t set_normal AcGePoint3d.x;
    binding.mk normalYProperty AcGePoint3d.t set_normal AcGePoint3d.y;
    binding.mk normalZProperty AcGePoint3d.t set_normal AcGePoint3d.z
  ].
End AcDbEllipse.

(** * The rest of the classes

    The methods of the classes above that the first part leaves out, and
    the classes it does not reach.  A module whose name ends in a word after
    the class name continues that class. *)

(** [array[index].copy(point)]: the array with the element overwritten, or
    the [TypeError] of calling [copy] on [undefined] when the array has no
    such element. *)
Definition js_copyAt (index : Z) (point : AcGePoint3d.t)
    (vertices : list AcGePoint3d.t) : completion (list AcGePoint3d.t) :=
  match js_index vertices index with
  | Some _ => Normal (<[Z.to_nat index := point]> vertices)
  | None => Throw TypeError
  end.

(** The conversion of an integral number stored into a [Uint16Array]. *)
Definition ToUint16 (n : Z) : Z := (n mod 2 ^ 16)%Z.

(** ** AcDbFace: vertices, extents, grip points and drawing *)

Module AcDbFaceVertices.
Local Open Scope Z_scope.

(** [getVertexAt(index)]: the element returned, [None] for [undefined]. *)
Definition getVertexAt (index : Z) (f : AcDbFace.t)
    : option AcGePoint3d.t :=
  let vertices := AcDbFace._vertices f in
  if index <? 0 then js_index vertices 0
  else if index >? Z.of_nat (length vertices) then
    js_index vertices (Z.of_nat (length vertices) - 1)
  else js_index vertices index.

(** [setVertexAt(index, point)], for a point with its three coordinates:
    the completion and the face as the call leaves it.  The first [if] has
    no [return], so a negative index goes on to the last statement. *)
Definition setVertexAt (index : Z) (point : AcGePoint3d.t) (f : AcDbFace.t)
    : completion unit * AcDbFace.t :=
  let mask := AcDbFace._edgeInvisibilities f in
  let vertices := AcDbFace._vertices f in
  match (if index <? 0 then js_copyAt 0 point vertices
         else Normal vertices) with
  | Throw e => (Throw e, f)
  | Normal vertices =>
      if index >=? 3 then
        let vertices :=
          if (length vertices =? 3)%nat
          then vertices ++ [AcGePoint3d.origin]
          else vertices in
        match js_copyAt 3 point vertices with
        | Normal vertices => (Normal tt, AcDbFace.mk vertices mask)
        | Throw e => (Throw e, AcDbFace.mk vertices mask)
        end
      else
        match js_copyAt index point vertices with
        | Normal vertices => (Normal tt, AcDbFace.mk vertices mask)
        | Throw e => (Throw e, AcDbFace.mk vertices mask)
        end
  end.

(** [get geometricExtents()] *)
Definition geometricExtents (f : AcDbFace.t) : AcGeBox3d.t :=
  AcGeBox3d.setFromPoints (AcDbFace._vertices f).

(** [subGetGripPoints()]: one [getVertexAt(index)] per index below the
    number of vertices. *)
Definition subGetGripPoints (f : AcDbFace.t)
    : list (option AcGePoint3d.t) :=
  map (fun index => getVertexAt (Z.of_nat index) f)
      (seq 0 (length (AcDbFace._vertices f))).

Section Float.
(** The rounding of a number stored into a [Float32Array]. *)
Variable fround : R -> R.

(** The loop of [draw] from vertex [i] on: the coordinates written to the
    buffer and the two indices written for each vertex (left at zero for a
    hidden edge); [isEdgeVisibleAt] may throw. *)
Fixpoint drawLoop (f : AcDbFace.t) (i : Z) (vertices : list AcGePoint3d.t)
    : completion (list R * list Z) :=
  match vertices with
  | [] => Normal ([], [])
  | v :: rest =>
      match AcDbFace.isEdgeVisibleAt i f with
      | Throw e => Throw e
      | Normal visible =>
          match drawLoop f (i + 1) rest with
          | Throw e => Throw e
          | Normal (buffer, indices) =>
              Normal
                ([fround (AcGePoint3d.x v); fround (AcGePoint3d.y v);
                  fround (AcGePoint3d.z v)] ++ buffer,
                 (if visible
                  then [ToUint16 i; ToUint16 ((i + 1) mod 4)]
                  else [0; 0]) ++ indices)
          end
      end
  end.

(** [draw(renderer)], the inherited part of the face passed alongside: the
    renderer with the traits written, and the buffer, the stride and the
    indices handed to [renderer.lineSegments]; a throw in the loop leaves
    the renderer untouched. *)
Definition draw (db : AcDbDatabase) (base : AcDbEntity.t) (f : AcDbFace.t)
    (r : AcGiRenderer)
    : completion (AcGiRenderer * (list R * Z * list Z)) :=
  match drawLoop f 0 (AcDbFace._vertices f) with
  | Throw e => Throw e
  | Normal (buffer, indices) =>
      Normal (AcDbEntity.attachToEntityTraits db base r,
              (buffer, 3, indices))
  end.
End Float.

(** A face has three or four vertices. *)
Definition wellFormed (f : AcDbFace.t) : Prop :=
  length (AcDbFace._vertices f) = 3%nat
  \/ length (AcDbFace._vertices f) = 4%nat.
End AcDbFaceVertices.

(** ** AcDbTrace *)

Module AcDbTrace.
Local Open Scope Z_scope.

Record t : Type := mk {
  entity : AcDbEntity.t;
  _elevation : R;
  _vertices : list AcGePoint3d.t;
  _thickness : R
}.

(** [constructor()], on top of an already initialised base part. *)
Definition new (base : AcDbEntity.t) : t :=
  mk base 0
     [AcGePoint3d.origin; AcGePoint3d.origin; AcGePoint3d.origin;
      AcGePoint3d.origin]
     1.

(** [getPointAt(index)]: the element returned, [None] for [undefined]. *)
Definition getPointAt (index : Z) (tr : t) : option AcGePoint3d.t :=
  if index <? 0 then js_index (_vertices tr) 0
  else if index >? 3 then js_index (_vertices tr) 3
  else js_index (_vertices tr) index.

(** [setPointAt(index, point)], for a point with its three coordinates:
    the completion and the trace as the call leaves it.  The first [if]
    has no [return], so a negative index goes on to the last statement. *)
Definition setPointAt (index : Z) (point : AcGePoint3d.t) (tr : t)
    : completion unit * t :=
  let withVertices vertices :=
    mk (entity tr) (_elevation tr) vertices (_thickness tr) in
  match (if index <? 0 then js_copyAt 0 point (_vertices tr)
         else Normal (_vertices tr)) with
  | Throw e => (Throw e, tr)
  | Normal vertices =>
      if index >? 3 then
        match js_copyAt 3 point vertices with
        | Normal vertices => (Normal tt, withVertices vertices)
        | Throw e => (Throw e, withVertices vertices)
        end
      else
        match js_copyAt index point vertices with
        | Normal vertices => (Normal tt, withVertices vertices)
        | Throw e => (Throw e, withVertices vertices)
        end
  end.

(** [get geometricExtents()] *)
Definition geometricExtents (tr : t) : AcGeBox3d.t :=
  AcGeBox3d.setFromPoints (_vertices tr).

(** [subGetGripPoints()]: [getPointAt(index)] for the indices 0 to 3. *)
Definition subGetGripPoints (tr : t) : list (option AcGePoint3d.t) :=
  map (fun index => getPointAt (Z.of_nat index) tr) (seq 0 4).

(** A trace has four vertices. *)
Definition wellFormed (tr : t) : Prop := length (_vertices tr) = 4%nat.
End AcDbTrace.

(** ** AcDbRasterImage: extents, file name and position *)

(** Modelled from the spec: an image definition of the database's
    [imageDefs] dictionary, "image definition with .sourceFileName". *)
Record AcDbRasterImageDef : Type := mkImageDef {
  sourceFileName : string
}.

Module AcDbRasterImageRest.
Local Open Scope R_scope.

(** [get geometricExtents()]: [min] is a copy of the position, [max] is
    set to the far corner with [z = 0]. *)
Definition geometricExtents (img : AcDbRasterImage.t) : AcGeBox3d.t :=
  let position := AcDbRasterImage._position img in
  AcGeBox3d.Box
    position
    (AcGePoint3d.mk
       (AcGePoint3d.x position + AcDbRasterImage._width img)
       (AcGePoint3d.y position + AcDbRasterImage._height img)
       0).

(** [get imageFileName()], given the [imageDefs] dictionary of the
    database. *)
Definition imageFileName (imageDefs : gmap string AcDbRasterImageDef)
    (img : AcDbRasterImage.t) : string :=
  if truthy (AcDbRasterImage._imageDefId img) then
    match imageDefs !! AcDbRasterImage._imageDefId img with
    | Some imageDef => sourceFileName imageDef
    | None => ""
    end
  else "".

(** [set position(value)]: the argument becomes the position. *)
Definition set_position (value : AcGePoint3d.t)
    (img : AcDbRasterImage.t) : AcDbRasterImage.t :=
  AcDbRasterImage.mk
    (AcDbRasterImage.entity img) (AcDbRasterImage._brightness img)
    (AcDbRasterImage._contrast img) (AcDbRasterImage._fade img)
    (AcDbRasterImage._width img) (AcDbRasterImage._height img)
    value (AcDbRasterImage._rotation img)
    (AcDbRasterImage._scale img) (AcDbRasterImage._clipBoundaryType img)
    (AcDbRasterImage._clipBoundary img)
    (AcDbRasterImage._imageDefId img) (AcDbRasterImage._isClipped img)
    (AcDbRasterImage._isShownClipped img)
    (AcDbRasterImage._isImageShown img)
    (AcDbRasterImage._isImageTransparent img) (AcDbRasterImage._image img).
End AcDbRasterImageRest.

(** ** AcDbText and AcDbMText: the text style and drawing *)

(** What [renderer.mtext] receives from a multiline text. *)
Record AcGiMTextData : Type := mkMTextData {
  mtext_text : string;
  mtext_height : R;
  mtext_width : R;
  mtext_position : AcGePoint3d.t;
  mtext_rotation : R;
  mtext_directionVector : AcGePoint3d.t;
  mtext_attachmentPoint : Z;
  mtext_drawingDirection : Z;
  mtext_lineSpaceFactor : R
}.

Section TextStyle.
(** The text style of the graphic interface, carried by the records of
    the text style table. *)
Variable AcGiTextStyle : Type.

(** [getTextStyle()] of both text classes, given the text style table and
    the style name of the entity: the named record, else ["STANDARD"],
    else ["Standard"]; reading [textStyle] of [undefined] raises a
    [TypeError]. *)
Definition getTextStyleOf (textStyleTable : gmap string AcGiTextStyle)
    (styleName : string) : completion AcGiTextStyle :=
  let style := textStyleTable !! styleName in
  let style :=
    match style with
    | Some _ => style
    | None =>
        match textStyleTable !! "STANDARD" with
        | Some s => Some s
        | None => textStyleTable !! "Standard"
        end
    end in
  match style with
  | Some s => Normal s
  | None => Throw TypeError
  end.

(** [AcDbText.getTextStyle()] *)
Definition AcDbText_getTextStyle
    (textStyleTable : gmap string AcGiTextStyle) (t0 : AcDbText.t)
    : completion AcGiTextStyle :=
  getTextStyleOf textStyleTable (AcDbText.styleName t0).

(** [AcDbMText.getTextStyle()] *)
Definition AcDbMText_getTextStyle
    (textStyleTable : gmap string AcGiTextStyle) (m : AcDbMText.t)
    : completion AcGiTextStyle :=
  getTextStyleOf textStyleTable (AcDbMText.styleName m).

(** [AcDbMText.draw(renderer, delay)]: the renderer with the traits
    written, and the data, the style and the delay flag handed to
    [renderer.mtext]; the style is fetched before the traits are
    written. *)
Definition AcDbMText_draw (db : AcDbDatabase)
    (textStyleTable : gmap string AcGiTextStyle) (m : AcDbMText.t)
    (delay : option bool) (r : AcGiRenderer)
    : completion (AcGiRenderer
                  * (AcGiMTextData * AcGiTextStyle * option bool)) :=
  let mtextData :=
    mkMTextData (AcDbMText.contents m) (AcDbMText.height m)
      (AcDbMText.width m) (AcDbMText.location m) (AcDbMText.rotation m)
      (AcDbMText.direction m) (AcDbMText.attachmentPoint m)
      (AcDbMText.drawingDirection m) (AcDbMText.lineSpacingFactor m) in
  match AcDbMText_getTextStyle textStyleTable m with
  | Throw e => Throw e
  | Normal textStyle =>
      Normal (AcDbEntity.attachToEntityTraits db (AcDbMText.entity m) r,
              (mtextData, textStyle, delay))
  end.
End TextStyle.

(** ** AcDbViewport *)

(** What the renderer knows of a viewport. *)
Record AcGiViewport : Type := mkGiViewport {
  vp_id : string;
  vp_groupId : string;
  vp_number : Z;
  vp_centerPoint : AcGePoint3d.t;
  vp_width : R;
  vp_height : R;
  vp_viewHeight : R;
  vp_viewCenter : AcGePoint3d.t
}.

(** The tags [attachEntityInfo] writes on a rendered entity. *)
Record AcGiEntityInfo : Type := mkEntityInfo {
  info_objectId : string;
  info_ownerId : option string;
  info_layerName : string;
  info_visible : bool
}.

(** [AcDbEntity.attachEntityInfo(target)]: [ownerId] is the owner attribute
    of the entity, [None] when it has none; a missing target is left
    alone. *)
Definition attachEntityInfo (e : AcDbEntity.t) (ownerId : option string)
    (target : option AcGiEntityInfo) : option AcGiEntityInfo :=
  match target with
  | Some info =>
      Some (mkEntityInfo
              (AcDbEntity.objectId e)
              (match ownerId with
               | Some owner => Some owner
               | None => info_ownerId info
               end)
              (AcDbEntity.layer e)
              (AcDbEntity.visibility e))
  | None => None
  end.

Module AcDbViewport.
Local Open Scope R_scope.

(** The fields of the class, with the owner that it inherits from
    [AcDbObject]; the viewport is taken to have one. *)
Record t : Type := mk {
  entity : AcDbEntity.t;
  ownerId : string;
  _centerPoint : AcGePoint3d.t;
  _height : R;
  _width : R;
  _viewCenter : AcGePoint3d.t;
  _viewHeight : R;
  _number : Z
}.

(** [constructor()], on top of an already initialised base part. *)
Definition new (base : AcDbEntity.t) (owner : string) : t :=
  mk base owner AcGePoint3d.origin 0 0 AcGePoint3d.origin 0 (-1).

(** [toGiViewport()] *)
Definition toGiViewport (v : t) : AcGiViewport :=
  mkGiViewport (AcDbEntity.objectId (entity v)) (ownerId v) (_number v)
    (_centerPoint v) (_width v) (_height v) (_viewHeight v)
    (_viewCenter v).

(** The four sides that [createViewportRect] asks the renderer for. *)
Definition viewportRect (viewport : AcGiViewport)
    : list (list AcGePoint3d.t) :=
  let cx := AcGePoint3d.x (vp_centerPoint viewport) in
  let cy := AcGePoint3d.y (vp_centerPoint viewport) in
  let w := vp_width viewport in
  let h := vp_height viewport in
  [ [AcGePoint3d.mk (cx - w / 2) (cy - h / 2) 0;
     AcGePoint3d.mk (cx + w / 2) (cy - h / 2) 0];
    [AcGePoint3d.mk (cx + w / 2) (cy - h / 2) 0;
     AcGePoint3d.mk (cx + w / 2) (cy + h / 2) 0];
    [AcGePoint3d.mk (cx + w / 2) (cy + h / 2) 0;
     AcGePoint3d.mk (cx - w / 2) (cy + h / 2) 0];
    [AcGePoint3d.mk (cx - w / 2) (cy + h / 2) 0;
     AcGePoint3d.mk (cx - w / 2) (cy - h / 2) 0] ].

(** [createViewportRect(viewport, renderer)]: one [renderer.lines] call
    per side, in order. *)
Definition createViewportRect (viewport : AcGiViewport) (r : AcGiRenderer)
    : AcGiRenderer :=
  fold_left (fun r side => request (GiLines side) r)
            (viewportRect viewport) r.

(** [draw(renderer)], given the object id of the model space and the
    entity that [renderer.group] returns for the four sides (if any): the
    tagged group returned ([None] for [undefined]) and the renderer after
    the call.  The sides are requested while the argument of
    [renderer.group] is evaluated, after the traits have been written. *)
Definition draw (db : AcDbDatabase) (modelSpaceId : string)
    (group : option AcGiEntityInfo) (v : t) (r : AcGiRenderer)
    : option AcGiEntityInfo * AcGiRenderer :=
  if (_number v >? 1)%Z && negb (String.eqb (ownerId v) modelSpaceId) then
    let viewport := toGiViewport v in
    let r := AcDbEntity.attachToEntityTraits db (entity v) r in
    let r := createViewportRect viewport r in
    (attachEntityInfo (entity v) (Some (ownerId v)) group, r)
  else (None, r).
End AcDbViewport.

(** ** AcDb2dPolyline: construction and drawing *)

Module AcGePolyline2d.
(** Modelled from the spec: a vertex of the planar polyline of the
    geometry engine, with the bulge that may be missing. *)
Record vertex : Type := mkVertex {
  x : R;
  y : R;
  bulge : option R
}.

(** Modelled from the spec: the planar polyline of the geometry engine, as
    the vertices and the closed flag its constructor receives. *)
Record t : Type := mk {
  vertices : list vertex;
  closed : bool
}.
End AcGePolyline2d.

Module AcDb2dPolyline.
Local Open Scope R_scope.

Inductive AcDbPoly2dType : Type :=
| SimplePoly
| FitCurvePoly
| QuadSplinePoly
| CubicSplinePoly.

Record t : Type := mk {
  entity : AcDbEntity.t;
  _polyType : AcDbPoly2dType;
  _elevation : R;
  _geo : AcGePolyline2d.t
}.

(** The vertices the constructor hands to the engine: the planar
    coordinates of each vertex, with [bulges[index]] when [bulges] is given
    and as long as the vertex list, and no bulge otherwise. *)
Definition polylineVertices (vertices : list AcGePoint3d.t)
    (bulges : option (list R)) : list AcGePolyline2d.vertex :=
  let hasBulge :=
    match bulges with
    | Some b => (length b =? length vertices)%nat
    | None => false
    end in
  imap (fun index vertex =>
          AcGePolyline2d.mkVertex
            (AcGePoint3d.x vertex) (AcGePoint3d.y vertex)
            (if hasBulge
             then match bulges with
                  | Some b => b !! index
                  | None => None
                  end
             else None))
       vertices.

(** [constructor(type, vertices, elevation = 0, closed = false,
    _startWidth = 0, _endWidth = 0, bulges = null)], on top of an already
    initialised base part; [None] stands for an argument left out. *)
Definition new (base : AcDbEntity.t) (type : AcDbPoly2dType)
    (vertices : list AcGePoint3d.t) (elevation : option R)
    (closed : option bool) (_startWidth _endWidth : option R)
    (bulges : option (list R)) : t :=
  mk base type
     (match elevation with Some e => e | None => 0 end)
     (AcGePolyline2d.mk (polylineVertices vertices bulges)
        (match closed with Some c => c | None => false end)).

Definition elevation (pl : t) : R := _elevation pl.

Definition closed (pl : t) : bool := AcGePolyline2d.closed (_geo pl).

Section Engine.
(** The sample points the geometry engine computes for a polyline. *)
Variable getPoints : AcGePolyline2d.t -> Z -> list AcGePoint2d.t.

(** [draw(renderer)] *)
Definition draw (db : AcDbDatabase) (pl : t) (r : AcGiRenderer)
    : AcGiRenderer :=
  let tmp := getPoints (_geo pl) 100 in
  let points :=
    map (fun point =>
           AcGePoint3d.mk (AcGePoint2d.x point) (AcGePoint2d.y point)
                          (elevation pl))
        tmp in
  let r := AcDbEntity.attachToEntityTraits db (entity pl) r in
  request (GiLines points) r.
End Engine.
End AcDb2dPolyline.

(** ** AcDbHatch: the fill flag *)

Module AcDbHatch.
Section Collaborators.
(** The area of the geometry engine and the pattern lines of the graphic
    interface, which the class only stores. *)
Variable AcGeArea2d : Type.
Variable AcGiHatchPatternLine : Type.
(** [String.prototype.toUpperCase]. *)
Variable toUpperCase : string -> string.

Inductive AcDbHatchPatternType : Type :=
| UserDefined
| Predefined
| Custom.

Inductive AcDbHatchStyle : Type :=
| Normal
| Outer
| Ignore.

Record t : Type := mk {
  entity : AcDbEntity.t;
  _geo : AcGeArea2d;
  _isSolidFill : bool;
  _elevation : R;
  _definitionLines : list AcGiHatchPatternLine;
  _patternName : string;
  _patternType : AcDbHatchPatternType;
  _patternAngle : R;
  _patternScale : R;
  _hatchStyle : AcDbHatchStyle
}.

(** [get isSolidFill()] *)
Definition isSolidFill (h : t) : bool :=
  _isSolidFill h || String.eqb (toUpperCase (_patternName h)) "SOLID".

Definition set_isSolidFill (value : bool) (h : t) : t :=
  mk (entity h) (_geo h) value (_elevation h) (_definitionLines h)
     (_patternName h) (_patternType h) (_patternAngle h) (_patternScale h)
     (_hatchStyle h).

Definition patternName (h : t) : string := _patternName h.
Definition set_patternName (value : string) (h : t) : t :=
  mk (entity h) (_geo h) (_isSolidFill h) (_elevation h)
     (_definitionLines h) value (_patternType h) (_patternAngle h)
     (_patternScale h) (_hatchStyle h).
End Collaborators.
End AcDbHatch.

(** ** AcDbSpline: the constructor *)

Module AcDbSpline.
Section Arguments.
(** The arguments of the constructor, as JavaScript values of which the
    constructor only asks whether they are [undefined] and whether they
    are arrays; and the error object it throws. *)
Variable Value : Type.
Variable isUndefined : Value -> bool.
Variable isArray : Value -> bool.
Variable ILLEGAL_PARAMETERS : JsError.
(** The spline of the geometry engine, which is not among the sources,
    and the two forms of its constructor, either of which may throw:
    [new AcGeSpline3d(fitPoints, knotParam, degree, closed)] and
    [new AcGeSpline3d(controlPoints, knots, weights, degree, closed)]. *)
Variable Spline3d : Type.
Variable fromFitPoints :
  Value -> Value -> Value -> Value -> completion Spline3d.
Variable fromControlPoints :
  Value -> Value -> Value -> Value -> Value -> completion Spline3d.

Record t : Type := mk {
  entity : AcDbEntity.t;
  _geo : Spline3d
}.

Definition defined (v : Value) : Z := if isUndefined v then 0%Z else 1%Z.

(** [constructor(a, b, c, d, e)], on top of an already initialised base
    part: the argument check, then the engine's constructor, whose throw
    nothing catches. *)
Definition new (base : AcDbEntity.t) (a b c d e : Value) : completion t :=
  let argsLength :=
    (defined a + defined b + defined c + defined d + defined e)%Z in
  if (argsLength <? 2)%Z || (argsLength >? 5)%Z then
    Throw ILLEGAL_PARAMETERS
  else
    let isFitPointsConstructor := negb (isArray b) in
    if isFitPointsConstructor then
      match fromFitPoints a b c d with
      | Normal geo => Normal (mk base geo)
      | Throw error => Throw error
      end
    else
      match fromControlPoints a b c d e with
      | Normal geo => Normal (mk base geo)
      | Throw error => Throw error
      end.
End Arguments.
End AcDbSpline.

(** * Notions used to state the properties *)

(** The inherited part of the sample entities below: handle ["1"], the
    default layer ["0"], colour and linetype by layer. *)
Definition sampleBase : AcDbEntity.t :=
  AcDbEntity.mk "1" "0" (AcCmColor.mk true false None) ByLayer (-1) (-1)
                true AcCmTransparency.ByLayer.

(** [basePoint + unitDir * k], coordinate by coordinate. *)
Definition pointAlong (basePoint unitDir : AcGePoint3d.t) (k : R)
    : AcGePoint3d.t :=
  AcGePoint3d.mk
    (AcGePoint3d.x basePoint + AcGePoint3d.x unitDir * k)
    (AcGePoint3d.y basePoint + AcGePoint3d.y unitDir * k)
    (AcGePoint3d.z basePoint + AcGePoint3d.z unitDir * k).

(** What holds of the leader's cache in every state: a spline is only
    present with two vertices or more, and a clean spline is the one the
    engine built from the current vertices, which it accepts. *)
Definition cacheInvariant
    (rejects : list AcGePoint3d.t -> string -> option JsError)
    (l : AcDbLeader.t) : Prop :=
  forall s, AcDbLeader._splineGeo l = Some s ->
    (2 <= AcDbLeader.numVertices l)%nat
    /\ (AcDbLeader._updated l = false ->
        s = AcGeSpline3d.mk (AcDbLeader._vertices l) "Uniform"
        /\ rejects (AcDbLeader._vertices l) "Uniform" = None).

(** The leader as a build that the engine accepts leaves it. *)
Definition built (w : AcDbLeader.world) : AcDbLeader.world :=
  let l := AcDbLeader.this w in
  let spline := AcGeSpline3d.mk (AcDbLeader._vertices l) "Uniform" in
  AcDbLeader.mkWorld
    (AcDbLeader.mk (AcDbLeader.entity l) (AcDbLeader._isSplined l)
       (Some spline) false (AcDbLeader._hasArrowHead l)
       (AcDbLeader._vertices l) (AcDbLeader._dimensionStyle l)
       (AcDbLeader._hasHookLine l) (AcDbLeader._annoType l))
    (AcDbLeader.splinesBuilt w ++ [spline]).

(** The RGB value of the database's current entity colour, white when it
    has none. *)
Definition cecolorRgb (db : AcDbDatabase) : Z :=
  match AcCmColor.RGB (cecolor db) with
  | Some rgb => rgb
  | None => 0xffffff%Z
  end.

(** Sample databases: one whose layer ["0"] is red while the current
    entity colour is green, and one with no layer at all. *)
Definition redLayerDatabase : AcDbDatabase :=
  mkDatabase
    (AcCmColor.mk false false (Some 0x00ff00%Z))
    {[ "0" := mkLayer (AcCmColor.mk false false (Some 0xff0000%Z))
                      "Continuous" ]}
    ∅.

Definition noLayerDatabase : AcDbDatabase :=
  mkDatabase (AcCmColor.mk false false (Some 0x00ff00%Z)) ∅ ∅.

(** The sample line of the spec, from (0,0,0) to (10,0,0). *)
Definition sampleLine : AcDbLine.t :=
  AcDbLine.new sampleBase (AcGePoint3d.mk 0 0 0) (AcGePoint3d.mk 10 0 0).

(** The points one call of the line's snap dispatch is to add, per mode. *)
Definition snapPointsOf
    (project perpPoint : AcGeLine3d.t -> AcGePoint3d.t -> AcGePoint3d.t)
    (osnapMode : AcDbOsnapMode) (pickPoint : AcGePoint3d.t)
    (l : AcDbLine.t) : list AcGePoint3d.t :=
  match osnapMode with
  | EndPoint => [AcDbLine.startPoint l; AcDbLine.endPoint l]
  | MidPoint => [AcDbLine.midPoint l]
  | Nearest => [project (AcDbLine._geo l) pickPoint]
  | Perpendicular => [perpPoint (AcDbLine._geo l) pickPoint]
  | Tangent => [AcDbLine.startPoint l]
  | OtherMode _ => []
  end.

(** The corners of the width-by-height rectangle anchored at the insertion
    point of an image, counter-clockwise from the insertion point. *)
Definition corner0 (img : AcDbRasterImage.t) : AcGePoint3d.t :=
  AcDbRasterImage._position img.

Definition corner1 (img : AcDbRasterImage.t) : AcGePoint3d.t :=
  let p := AcDbRasterImage._position img in
  AcGePoint3d.mk (AcGePoint3d.x p + AcDbRasterImage._width img)%R
                 (AcGePoint3d.y p) (AcGePoint3d.z p).

Definition corner2 (img : AcDbRasterImage.t) : AcGePoint3d.t :=
  let p := AcDbRasterImage._position img in
  AcGePoint3d.mk (AcGePoint3d.x p + AcDbRasterImage._width img)%R
                 (AcGePoint3d.y p + AcDbRasterImage._height img)%R
                 (AcGePoint3d.z p).

Definition corner3 (img : AcDbRasterImage.t) : AcGePoint3d.t :=
  let p := AcDbRasterImage._position img in
  AcGePoint3d.mk (AcGePoint3d.x p)
                 (AcGePoint3d.y p + AcDbRasterImage._height img)%R
                 (AcGePoint3d.z p).

(** A point rotated in the plane about a pivot, its [z] kept. *)
Definition rotateAbout (pivot : AcGePoint3d.t) (angle : R)
    (p : AcGePoint3d.t) : AcGePoint3d.t :=
  let q :=
    rotateAround
      (AcGePoint2d.mk (AcGePoint3d.x pivot) (AcGePoint3d.y pivot)) angle
      (AcGePoint2d.mk (AcGePoint3d.x p) (AcGePoint3d.y p)) in
  AcGePoint3d.mk (AcGePoint2d.x q) (AcGePoint2d.y q) (AcGePoint3d.z p).

(** The closed rectangle, as it stands and with vertices 1..3 rotated about
    vertex 1. *)
Definition plainRectangle (img : AcDbRasterImage.t) : list AcGePoint3d.t :=
  [corner0 img; corner1 img; corner2 img; corner3 img; corner0 img].

Definition rotatedRectangle (img : AcDbRasterImage.t)
    : list AcGePoint3d.t :=
  let rot := rotateAbout (corner1 img) (AcDbRasterImage._rotation img) in
  [corner0 img; rot (corner1 img); rot (corner2 img); rot (corner3 img);
   corner0 img].

(** The minimum corner of the bounding box of a list of planar points. *)
Definition isMinCorner (mn : AcGePoint2d.t) (points : list AcGePoint2d.t)
    : Prop :=
  Forall (fun p => (AcGePoint2d.x mn <= AcGePoint2d.x p
                    /\ AcGePoint2d.y mn <= AcGePoint2d.y p)%R) points
  /\ Exists (fun p => AcGePoint2d.x p = AcGePoint2d.x mn) points
  /\ Exists (fun p => AcGePoint2d.y p = AcGePoint2d.y mn) points.

(** A clip-boundary vertex mapped to world space: scaled by the width and
    the height, then translated by [(tx, ty)], where the translation takes
    the scaled minimum corner [mn] to the insertion point. *)
Definition toWorld (img : AcDbRasterImage.t) (mn point : AcGePoint2d.t)
    : AcGePoint3d.t :=
  let position := AcDbRasterImage._position img in
  let tx :=
    (AcGePoint3d.x position
     - AcGePoint2d.x mn * AcDbRasterImage._width img)%R in
  let ty :=
    (AcGePoint3d.y position
     - AcGePoint2d.y mn * AcDbRasterImage._height img)%R in
  AcGePoint3d.mk
    (AcGePoint2d.x point * AcDbRasterImage._width img + tx)
    (AcGePoint2d.y point * AcDbRasterImage._height img + ty)
    (AcGePoint3d.z position).

(** The sample image of the spec: 100 wide, 50 high, at the origin,
    unclipped; with no rotation, and turned by a negative quarter turn. *)
Definition imageWithRotation (rotation : R) : AcDbRasterImage.t :=
  AcDbRasterImage.mk sampleBase 50 50 0 100 50 (AcGePoint3d.mk 0 0 0)
    rotation (AcGePoint2d.mk 1 1) AcDbRasterImage.Rect [] "" false false
    true false None.

Definition sampleImage : AcDbRasterImage.t := imageWithRotation 0.

Definition turnedBackImage : AcDbRasterImage.t :=
  imageWithRotation (- (PI / 2)).

(** Stand-ins for what the geometry engine computes, used where a sample
    has to be run: the snap candidate is the pick point itself, the box of
    a spline is the box of its fit points, its samples are its fit
    points. *)
Definition sampleSnap (_ : AcGeLine3d.t) (pickPoint : AcGePoint3d.t)
    : AcGePoint3d.t :=
  pickPoint.

Definition sampleBox (s : AcGeSpline3d.t) : AcGeBox3d.t :=
  AcGeBox3d.setFromPoints (AcGeSpline3d.fitPoints s).

Definition samplePoints (s : AcGeSpline3d.t) (_ : Z) : list AcGePoint3d.t :=
  AcGeSpline3d.fitPoints s.

(** A sample spline constructor: it rejects fewer than four fit points. *)
Definition sampleRejects (points : list AcGePoint3d.t) (_ : string)
    : option JsError :=
  if (length points <? 4)%nat then Some (Error "Illegal Parameters")
  else None.

(** A spline-fit leader with the four vertices (0,0,0), (5,5,0), (10,5,0)
    and (15,0,0), and one with the first two of them only, as the calls
    that make them. *)
Definition sampleLeaderCalls : list AcDbLeader.call :=
  [AcDbLeader.CallSetIsSplined true;
   AcDbLeader.CallAppendVertex (AcGePoint3d.mk 0 0 0);
   AcDbLeader.CallAppendVertex (AcGePoint3d.mk 5 5 0);
   AcDbLeader.CallAppendVertex (AcGePoint3d.mk 10 5 0);
   AcDbLeader.CallAppendVertex (AcGePoint3d.mk 15 0 0)].

Definition sampleLeader : AcDbLeader.world :=
  AcDbLeader.run sampleRejects sampleBox samplePoints
    (AcDbLeader.initial sampleBase) sampleLeaderCalls.

Definition twoVertexLeader : AcDbLeader.world :=
  AcDbLeader.run sampleRejects sampleBox samplePoints
    (AcDbLeader.initial sampleBase)
    [AcDbLeader.CallSetIsSplined true;
     AcDbLeader.CallAppendVertex (AcGePoint3d.mk 0 0 0);
     AcDbLeader.CallAppendVertex (AcGePoint3d.mk 5 5 0)].

(** Further samples: a leader with the single vertex (0,0,0), the ray from
    the origin along the x axis, and a face with mask [0b0101]. *)
Definition oneVertexLeader : AcDbLeader.t :=
  AcDbLeader.appendVertex (AcGePoint3d.mk 0 0 0) (AcDbLeader.new sampleBase).

Definition sampleRay : AcDbRay.t :=
  AcDbRay.mk sampleBase AcGePoint3d.origin (AcGePoint3d.mk 1 0 0).

Definition maskedFace : AcDbFace.t :=
  AcDbFace.setEdgeInvisibilities 5 AcDbFace.new.

(** A draw call took the renderer from [r] to [r']: [r'] holds the traits
    resolved from the entity [e], and the primitives requested of [r]
    followed by the one primitive [p]. *)
Definition drawsOne (db : AcDbDatabase) (e : AcDbEntity.t)
    (r r' : AcGiRenderer) (p : AcGiPrimitive) : Prop :=
  requests r' = requests r ++ [p]
  /\ traits_rgbColor (subEntityTraits r') = AcDbEntity.rgbColor db e
  /\ traits_color (subEntityTraits r') = AcDbEntity.color e
  /\ traits_lineTypeScale (subEntityTraits r') = AcDbEntity.linetypeScale e
  /\ traits_lineWeight (subEntityTraits r') = AcDbEntity.lineWeight e
  /\ traits_transparency (subEntityTraits r') = AcDbEntity.transparency e
  /\ traits_layer (subEntityTraits r') = AcDbEntity.layer e.

(** A point dropped onto the plane [z = 0]. *)
Definition flatten (p : AcGePoint3d.t) : AcGePoint3d.t :=
  AcGePoint3d.mk (AcGePoint3d.x p) (AcGePoint3d.y p) 0.

(** The points that a sequence of calls appends to a leader, in order. *)
Definition appendedPoints (calls : list AcDbLeader.call)
    : list AcGePoint3d.t :=
  flat_map
    (fun c =>
       match c with
       | AcDbLeader.CallAppendVertex point => [point]
       | _ => []
       end)
    calls.

(** A property whose accessor writes through: it has a [set] exactly when
    it is editable, and a value handed to [set] is what [get] reads
    next. *)
Definition writesThrough {E : Type} (p : AcDbEntityRuntimeProperty.t E)
    : Prop :=
  match AcDbPropertyAccessor.set (AcDbEntityRuntimeProperty.accessor p) with
  | Some set =>
      AcDbEntityRuntimeProperty.editable p = true
      /\ forall (v : AcDbEntityRuntimeProperty.valueType p) (e : E),
           AcDbPropertyAccessor.get (AcDbEntityRuntimeProperty.accessor p)
             (set v e) = v
  | None => AcDbEntityRuntimeProperty.editable p = false
  end.

(** Every property of a tree writes through, but for those with one of the
    given names. *)
Definition writeThroughBut {E : Type} (names : list string)
    (tree : AcDbEntityProperties.t E) : Prop :=
  Forall
    (fun p =>
       ~ In (AcDbEntityRuntimeProperty.name p) names -> writesThrough p)
    (AcDbEntityProperties.allProperties tree).

(** Sample arguments for the spline constructor: [undefined], an array of
    so many points, an array of knots, and a value that is no array; and a
    sample engine, whose spline is the number of its points, which wants an
    array of four points or more first and, for control points, an array of
    knots second. *)
Inductive sampleValue : Type :=
| Undefined
| Points (count : nat)
| Knots
| Plain.

Definition sampleIsUndefined (v : sampleValue) : bool :=
  match v with Undefined => true | _ => false end.

Definition sampleIsArray (v : sampleValue) : bool :=
  match v with Points _ | Knots => true | _ => false end.

Definition sampleFromFitPoints (a b c d : sampleValue) : completion nat :=
  match a with
  | Points count =>
      if (count <? 4)%nat then Throw (Error "Illegal Parameters")
      else Normal count
  | _ => Throw TypeError
  end.

Definition sampleFromControlPoints (a b c d e : sampleValue)
    : completion nat :=
  match a, b with
  | Points count, Knots =>
      if (count <? 4)%nat then Throw (Error "Illegal Parameters")
      else Normal count
  | _, _ => Throw TypeError
  end.

(** A renderer that has been asked for nothing yet. *)
Definition blankRenderer : AcGiRenderer :=
  mkRenderer
    (mkTraits 0 (AcCmColor.mk true false None) 1 0 AcCmTransparency.ByLayer "")
    [].

(** Writing [p] through its accessor leaves what [q] reads as it was. *)
Definition leavesAlone {E : Type} (p q : AcDbEntityRuntimeProperty.t E)
    : Prop :=
  match AcDbPropertyAccessor.set (AcDbEntityRuntimeProperty.accessor p) with
  | Some set =>
      forall (v : AcDbEntityRuntimeProperty.valueType p) (e : E),
        AcDbPropertyAccessor.get (AcDbEntityRuntimeProperty.accessor q)
          (set v e)
        = AcDbPropertyAccessor.get (AcDbEntityRuntimeProperty.accessor q) e
  | None => True
  end.

(** Writing any property of a tree leaves every property of another name
    alone, but for the given pairs (written, read). *)
Definition independentBut {E : Type} (pairs : list (string * string))
    (tree : AcDbEntityProperties.t E) : Prop :=
  Forall
    (fun p =>
       Forall
         (fun q =>
            AcDbEntityRuntimeProperty.name p
            <> AcDbEntityRuntimeProperty.name q ->
            ~ In (AcDbEntityRuntimeProperty.name p,
                  AcDbEntityRuntimeProperty.name q) pairs ->
            leavesAlone p q)
         (AcDbEntityProperties.allProperties tree))
    (AcDbEntityProperties.allProperties tree).

(** An ellipse with radii 20 and 10 about the origin. *)
Definition sampleEllipse : AcDbEllipse.t :=
  AcDbEllipse.mk sampleBase
    (AcGeEllipseArc3d.mk AcGePoint3d.origin (AcGePoint3d.mk 0 0 1)
       (AcGePoint3d.mk 1 0 0) 20 10 0 1).

(** * Properties *)

(** ** Integer conversions of the bitwise operators *)

Lemma ToInt32_mod (n : Z) : (ToInt32 n mod 2 ^ 32 = n mod 2 ^ 32)%Z.
Proof.
  unfold ToInt32.
  rewrite Zminus_mod_idemp_l.
  f_equal. lia.
Qed.

Lemma ToInt32_testbit (n j : Z) :
  (0 <= j < 32)%Z -> Z.testbit (ToInt32 n) j = Z.testbit n j.
Proof.
  intros Hj.
  rewrite <- (Z.mod_pow2_bits_low (ToInt32 n) 32 j) by lia.
  rewrite ToInt32_mod.
  apply Z.mod_pow2_bits_low. lia.
Qed.

Lemma js_shl_one (i : Z) : (0 <= i <= 3)%Z -> js_shl 1 i = (2 ^ i)%Z.
Proof.
  intros Hi.
  assert (i = 0 \/ i = 1 \/ i = 2 \/ i = 3)%Z as [-> | [-> | [-> | ->]]]
    by lia; reflexivity.
Qed.


Lemma land_pow2_eqb (a i : Z) :
  (0 <= i)%Z -> (Z.land a (2 ^ i) =? 0)%Z = negb (Z.testbit a i).
Proof.
  intros Hi.
  destruct (Z.testbit a i) eqn:Hbit; simpl.
  - apply Z.eqb_neq. intros Hzero.
    assert (Z.testbit (Z.land a (2 ^ i)) i = true) as Hone.
    { rewrite Z.land_spec, Hbit, Z.pow2_bits_true by lia. reflexivity. }
    rewrite Hzero, Z.bits_0 in Hone. discriminate.
  - apply Z.eqb_eq. apply Z.bits_inj'. intros k Hk.
    rewrite Z.land_spec, Z.bits_0.
    destruct (Z.eq_dec k i) as [-> | Hne].
    + rewrite Hbit. reflexivity.
    + rewrite Z.pow2_bits_false by lia. apply andb_false_r.
Qed.

Lemma pow2_int32 (i : Z) : (0 <= i <= 3)%Z -> ToInt32 (2 ^ i) = (2 ^ i)%Z.
Proof.
  intros Hi.
  assert (i = 0 \/ i = 1 \/ i = 2 \/ i = 3)%Z as [-> | [-> | [-> | ->]]]
    by lia; reflexivity.
Qed.

(** ** AcDbFace *)

(** C6. With edge-invisibility mask [m], [isEdgeVisibleAt(i)] for [i] in
    0..3 is true exactly when bit [i] of [m] is clear;
    [makeEdgeInvisibleAt(i)] sets bit [i] and leaves the vertices and the
    other bits alone; outside 0..3 both throw the range error. *)
Theorem face_edge_mask (f : AcDbFace.t) (i : Z) :
  ((0 <= i <= 3)%Z ->
     AcDbFace.isEdgeVisibleAt i f
     = Normal (negb (Z.testbit (AcDbFace._edgeInvisibilities f) i))
     /\ exists f',
         AcDbFace.makeEdgeInvisibleAt i f = Normal f'
         /\ Z.testbit (AcDbFace._edgeInvisibilities f') i = true
         /\ AcDbFace._vertices f' = AcDbFace._vertices f
         /\ forall j, (0 <= j < 32)%Z -> j <> i ->
              Z.testbit (AcDbFace._edgeInvisibilities f') j
              = Z.testbit (AcDbFace._edgeInvisibilities f) j)
  /\ ((i < 0 \/ 3 < i)%Z ->
        AcDbFace.isEdgeVisibleAt i f = Throw (Error "Index out of range")
        /\ AcDbFace.makeEdgeInvisibleAt i f
           = Throw (Error "Index out of range")).
Proof.
  split.
  - intros Hi.
    unfold AcDbFace.isEdgeVisibleAt, AcDbFace.makeEdgeInvisibleAt.
    replace ((i <? 0)%Z || (i >? 3)%Z) with false by lia.
    split.
    + f_equal. unfold js_and.
      rewrite js_shl_one, pow2_int32, land_pow2_eqb by lia.
      rewrite ToInt32_testbit by lia. reflexivity.
    + eexists. split; [reflexivity |]. simpl.
      unfold js_or. rewrite js_shl_one, pow2_int32 by lia.
      repeat split.
      * rewrite Z.lor_spec, Z.pow2_bits_true by lia. apply orb_true_r.
      * intros j Hj Hne.
        rewrite Z.lor_spec, Z.pow2_bits_false by lia.
        rewrite ToInt32_testbit by lia. apply orb_false_r.
  - intros Hi.
    unfold AcDbFace.isEdgeVisibleAt, AcDbFace.makeEdgeInvisibleAt.
    replace ((i <? 0)%Z || (i >? 3)%Z) with true by lia.
    split; reflexivity.
Qed.

(** The mask [0b0101] of the spec: edges 0 and 2 hidden, 1 and 3 shown,
    index 4 rejected. *)
Example face_mask_0b0101 :
  AcDbFace.isEdgeVisibleAt 0 maskedFace = Normal false
  /\ AcDbFace.isEdgeVisibleAt 1 maskedFace = Normal true
  /\ AcDbFace.isEdgeVisibleAt 2 maskedFace = Normal false
  /\ AcDbFace.isEdgeVisibleAt 3 maskedFace = Normal true
  /\ AcDbFace.isEdgeVisibleAt 4 maskedFace
     = Throw (Error "Index out of range").
Proof. repeat split. Qed.

Lemma face_edge_mask_witness :
  AcDbFace.isEdgeVisibleAt 2 maskedFace = Normal false
  /\ AcDbFace.makeEdgeInvisibleAt 4 maskedFace
     = Throw (Error "Index out of range").
Proof.
  split.
  - destruct (face_edge_mask maskedFace 2) as [Hin _].
    destruct Hin as [Hvisible _]; [lia | exact Hvisible].
  - destruct (face_edge_mask maskedFace 4) as [_ Hout].
    destruct Hout as [_ Hmake]; [lia | exact Hmake].
Defined.

(** ** AcDbMText *)

(** C10. The setter [backgroundFill = b] stores [b], resets the background
    fill colour to [0xc8c8c8] whatever it was and whatever [b] is, and
    changes no other field. *)
Theorem mtext_backgroundFill_resets_color (m : AcDbMText.t) (b : bool) :
  AcDbMText.set_backgroundFill b m
  = AcDbMText.mk
      (AcDbMText.entity m) (AcDbMText._height m) (AcDbMText._width m)
      (AcDbMText._contents m) (AcDbMText._lineSpacingStyle m)
      (AcDbMText._lineSpacingFactor m) b 0xc8c8c8%Z
      (AcDbMText._backgroundScaleFactor m)
      (AcDbMText._backgroundFillTransparency m) (AcDbMText._rotation m)
      (AcDbMText._styleName m) (AcDbMText._location m)
      (AcDbMText._attachmentPoint m) (AcDbMText._direction m)
      (AcDbMText._drawingDirection m)
  /\ forall c : Z,
       AcDbMText.backgroundFillColor
         (AcDbMText.set_backgroundFill b
            (AcDbMText.set_backgroundFillColor c m))
       = 0xc8c8c8%Z.
Proof. split; [reflexivity | intros c; reflexivity]. Qed.

(** ** AcDbRay and AcDbXline *)

Lemma add_multiplyScalar (b u : AcGePoint3d.t) (k : R) :
  AcGePoint3d.add b (AcGePoint3d.multiplyScalar k u) = pointAlong b u k.
Proof.
  unfold AcGePoint3d.add, AcGePoint3d.multiplyScalar, pointAlong; simpl.
  f_equal; ring.
Qed.

(** C7. A ray is drawn from its base point to [basePoint + unitDir * 10^6],
    a construction line from [basePoint - unitDir * 10^6] to
    [basePoint + unitDir * 10^6]; the extents of either are the box spanned
    by [basePoint + unitDir * 10] and [basePoint - unitDir * 10]. *)
Theorem ray_xline_finite_rendering
    (db : AcDbDatabase) (renderer : AcGiRenderer)
    (ray : AcDbRay.t) (xline : AcDbXline.t) :
  requests (AcDbRay.draw db ray renderer)
  = requests renderer
    ++ [GiLines [AcDbRay._basePoint ray;
                 pointAlong (AcDbRay._basePoint ray) (AcDbRay._unitDir ray)
                            1000000]]
  /\ requests (AcDbXline.draw db xline renderer)
     = requests renderer
       ++ [GiLines [pointAlong (AcDbXline._basePoint xline)
                               (AcDbXline._unitDir xline) (-1000000);
                    pointAlong (AcDbXline._basePoint xline)
                               (AcDbXline._unitDir xline) 1000000]]
  /\ AcDbRay.geometricExtents ray
     = (let p := pointAlong (AcDbRay._basePoint ray)
                            (AcDbRay._unitDir ray) 10 in
        let q := pointAlong (AcDbRay._basePoint ray)
                            (AcDbRay._unitDir ray) (-10) in
        AcGeBox3d.Box (AcGePoint3d.min p q) (AcGePoint3d.max p q))
  /\ AcDbXline.geometricExtents xline
     = (let p := pointAlong (AcDbXline._basePoint xline)
                            (AcDbXline._unitDir xline) 10 in
        let q := pointAlong (AcDbXline._basePoint xline)
                            (AcDbXline._unitDir xline) (-10) in
        AcGeBox3d.Box (AcGePoint3d.min p q) (AcGePoint3d.max p q)).
Proof.
  unfold AcDbRay.draw, AcDbXline.draw, AcDbRay.geometricExtents,
    AcDbXline.geometricExtents, request; simpl.
  rewrite !add_multiplyScalar.
  repeat split; reflexivity.
Qed.

(** The two multipliers disagree: for the ray from the origin along the
    x axis, the far end of the drawn segment lies outside the extents. *)
Example ray_drawn_end_outside_extents :
  ~ AcGeBox3d.contains (AcDbRay.geometricExtents sampleRay)
      (pointAlong (AcDbRay._basePoint sampleRay) (AcDbRay._unitDir sampleRay)
                  1000000).
Proof.
  simpl. intros [[_ Hx] _].
  unfold Rmax in Hx.
  repeat destruct Rle_dec in Hx; lra.
Qed.

(** ** AcDbLine *)

Lemma Rmin_same (a : R) : Rmin a a = a.
Proof. unfold Rmin. destruct (Rle_dec a a); reflexivity. Qed.

Lemma Rmax_same (a : R) : Rmax a a = a.
Proof. unfold Rmax. destruct (Rle_dec a a); reflexivity. Qed.

(** C9. For the line from (0,0,0) to (10,0,0): the midpoint is (5,0,0), the
    extents are the box from (0,0,0) to (10,0,0), and the grip points are
    the midpoint, the start point and the end point, in that order. *)
Theorem line_0_10_midpoint_extents_grips (base : AcDbEntity.t) :
  let startPoint := AcGePoint3d.mk 0 0 0 in
  let endPoint := AcGePoint3d.mk 10 0 0 in
  let line := AcDbLine.new base startPoint endPoint in
  AcDbLine.midPoint line = AcGePoint3d.mk 5 0 0
  /\ AcDbLine.geometricExtents line = AcGeBox3d.Box startPoint endPoint
  /\ AcDbLine.subGetGripPoints line
     = [AcGePoint3d.mk 5 0 0; startPoint; endPoint].
Proof.
  simpl.
  assert (AcDbLine.midPoint
            (AcDbLine.new base (AcGePoint3d.mk 0 0 0) (AcGePoint3d.mk 10 0 0))
          = AcGePoint3d.mk 5 0 0) as Hmid.
  { unfold AcDbLine.midPoint, AcGeLine3d.midPoint; simpl. f_equal; lra. }
  split; [exact Hmid |]. split.
  - unfold AcDbLine.geometricExtents, AcGeLine3d.box, AcGeBox3d.setFromPoints;
      simpl.
    unfold AcGePoint3d.min, AcGePoint3d.max; simpl.
    rewrite !Rmin_same, !Rmax_same.
    rewrite Rmin_left, Rmax_right by lra. reflexivity.
  - unfold AcDbLine.subGetGripPoints. rewrite Hmid. reflexivity.
Qed.

(** For any line the grip points are the midpoint, the start point and the
    end point, in that order. *)
Lemma line_grip_points_order (l : AcDbLine.t) :
  AcDbLine.subGetGripPoints l
  = [AcDbLine.midPoint l; AcDbLine.startPoint l; AcDbLine.endPoint l].
Proof. reflexivity. Qed.

(** ** AcDbLeader: vertex access *)

Lemma js_index_outOfRange (index : Z) (l : AcDbLeader.t) :
  AcDbLeader.outOfRange index l = true ->
  js_index (AcDbLeader._vertices l) index = None.
Proof.
  unfold AcDbLeader.outOfRange, js_index. intros Hout.
  destruct (index <? 0)%Z eqn:Hneg; [reflexivity |].
  apply lookup_ge_None. simpl in Hout. lia.
Qed.

Lemma setVertexAt_state (index : Z) (point : AcGePoint3d.t)
    (l : AcDbLeader.t) :
  snd (AcDbLeader.setVertexAt index point l) = l.
Proof.
  unfold AcDbLeader.setVertexAt.
  destruct (AcDbLeader.outOfRange index l) eqn:Hout; [| reflexivity].
  rewrite js_index_outOfRange by exact Hout. reflexivity.
Qed.

(** C5, as the code has it.  [vertexAt] throws the range error for every
    index, in range or not; [setVertexAt] throws for every index (the
    range error in range, a [TypeError] out of range) and never changes
    the leader. *)
Theorem leader_vertex_access_always_throws
    (l : AcDbLeader.t) (index : Z) (point : AcGePoint3d.t) :
  AcDbLeader.vertexAt index l
  = Throw (Error "The vertex index is out of range!")
  /\ AcDbLeader.setVertexAt index point l
     = (if AcDbLeader.outOfRange index l
        then Throw TypeError
        else Throw (Error "The vertex index is out of range!"), l).
Proof.
  split.
  - unfold AcDbLeader.vertexAt.
    destruct (AcDbLeader.outOfRange index l); reflexivity.
  - unfold AcDbLeader.setVertexAt.
    destruct (AcDbLeader.outOfRange index l) eqn:Hout; [| reflexivity].
    rewrite js_index_outOfRange by exact Hout. reflexivity.
Qed.

(** A leader with the single vertex (0,0,0): index 0 is in range, yet
    reading it throws and writing it throws without storing the point. *)
Example leader_vertexAt_in_range_throws :
  AcDbLeader.outOfRange 0 oneVertexLeader = false
  /\ AcDbLeader.vertexAt 0 oneVertexLeader
     = Throw (Error "The vertex index is out of range!")
  /\ AcDbLeader.setVertexAt 0 (AcGePoint3d.mk 1 1 1) oneVertexLeader
     = (Throw (Error "The vertex index is out of range!"), oneVertexLeader).
Proof. repeat split. Qed.

(** ** AcDbLeader: the lazily rebuilt spline *)

Section LeaderCache.
Variable rejects : list AcGePoint3d.t -> string -> option JsError.
Variable calculateBoundingBox : AcGeSpline3d.t -> AcGeBox3d.t.
Variable getPoints : AcGeSpline3d.t -> Z -> list AcGePoint3d.t.

Local Abbreviation createSplineIfNeeded :=
  (AcDbLeader.createSplineIfNeeded rejects).
Local Abbreviation step :=
  (AcDbLeader.step rejects calculateBoundingBox getPoints).
Local Abbreviation run :=
  (AcDbLeader.run rejects calculateBoundingBox getPoints).
Local Abbreviation thrownBy :=
  (AcDbLeader.thrownBy rejects calculateBoundingBox getPoints).

(** [createSplineIfNeeded] by cases: nothing to do, a build, or the
    engine's throw. *)
Lemma createSplineIfNeeded_cases (w : AcDbLeader.world) :
  createSplineIfNeeded w
  = if AcDbLeader.needsSpline (AcDbLeader.this w) then
      match rejects (AcDbLeader._vertices (AcDbLeader.this w)) "Uniform" with
      | None => (Normal tt, built w)
      | Some e => (Throw e, w)
      end
    else (Normal tt, w).
Proof.
  unfold AcDbLeader.createSplineIfNeeded, AcDbLeader.newAcGeSpline3d.
  destruct (AcDbLeader.needsSpline (AcDbLeader.this w)); [| reflexivity].
  destruct (rejects (AcDbLeader._vertices (AcDbLeader.this w)) "Uniform");
    reflexivity.
Qed.

Lemma needsSpline_built (w : AcDbLeader.world) :
  AcDbLeader.needsSpline (AcDbLeader.this (built w)) = false.
Proof.
  unfold AcDbLeader.needsSpline; simpl. apply andb_false_r.
Qed.

(** A call of [createSplineIfNeeded] that returned leaves nothing to do
    for the next one. *)
Lemma createSplineIfNeeded_again (w w1 : AcDbLeader.world) (u : unit) :
  createSplineIfNeeded w = (Normal u, w1) ->
  createSplineIfNeeded w1 = (Normal tt, w1).
Proof.
  rewrite !createSplineIfNeeded_cases.
  destruct (AcDbLeader.needsSpline (AcDbLeader.this w)) eqn:Hneeds.
  - destruct (rejects (AcDbLeader._vertices (AcDbLeader.this w)) "Uniform");
      [discriminate |].
    intros [= _ <-]. rewrite needsSpline_built. reflexivity.
  - intros [= _ <-]. rewrite Hneeds. reflexivity.
Qed.

(** A call of [createSplineIfNeeded] that threw changed nothing. *)
Lemma createSplineIfNeeded_thrown (w w1 : AcDbLeader.world) (e : JsError) :
  createSplineIfNeeded w = (Throw e, w1) -> w1 = w.
Proof.
  rewrite createSplineIfNeeded_cases.
  destruct (AcDbLeader.needsSpline (AcDbLeader.this w));
    [| discriminate].
  destruct (rejects (AcDbLeader._vertices (AcDbLeader.this w)) "Uniform");
    [| discriminate].
  intros [= _ <-]. reflexivity.
Qed.

Lemma createSplineIfNeeded_idempotent (w : AcDbLeader.world) :
  snd (createSplineIfNeeded (snd (createSplineIfNeeded w)))
  = snd (createSplineIfNeeded w).
Proof.
  destruct (createSplineIfNeeded w) as [[u | e] w1] eqn:Hfirst; simpl.
  - rewrite (createSplineIfNeeded_again w w1 u Hfirst). reflexivity.
  - pose proof (createSplineIfNeeded_thrown w w1 e Hfirst) as ->.
    rewrite Hfirst. reflexivity.
Qed.

Lemma createSplineIfNeeded_not_splined (w : AcDbLeader.world) :
  AcDbLeader.isSplined (AcDbLeader.this w) = false ->
  createSplineIfNeeded w = (Normal tt, w).
Proof.
  intros Hplain. rewrite createSplineIfNeeded_cases.
  unfold AcDbLeader.needsSpline. rewrite Hplain. reflexivity.
Qed.

(** Reading the extents leaves the leader as one call of
    [createSplineIfNeeded] leaves it, and throws what that call throws. *)
Lemma geometricExtents_state (w : AcDbLeader.world) :
  snd (AcDbLeader.geometricExtents rejects calculateBoundingBox w)
  = snd (createSplineIfNeeded w)
  /\ thrown (fst (AcDbLeader.geometricExtents rejects calculateBoundingBox w))
     = thrown (fst (createSplineIfNeeded w)).
Proof.
  unfold AcDbLeader.geometricExtents.
  destruct (AcDbLeader.isSplined (AcDbLeader.this w)) eqn:Hsplined.
  - unfold AcDbLeader.splineGeo.
    destruct (createSplineIfNeeded w) as [[u | e] w1] eqn:Hfirst;
      [| split; reflexivity].
    rewrite (createSplineIfNeeded_again w w1 u Hfirst).
    destruct (AcDbLeader._splineGeo (AcDbLeader.this w1));
      split; reflexivity.
  - rewrite createSplineIfNeeded_not_splined by exact Hsplined.
    split; reflexivity.
Qed.

Lemma draw_state (db : AcDbDatabase) (w : AcDbLeader.world)
    (r : AcGiRenderer) :
  snd (fst (AcDbLeader.draw rejects getPoints db w r))
  = snd (createSplineIfNeeded w)
  /\ thrown (fst (fst (AcDbLeader.draw rejects getPoints db w r)))
     = thrown (fst (createSplineIfNeeded w)).
Proof.
  unfold AcDbLeader.draw.
  destruct (AcDbLeader.isSplined (AcDbLeader.this w)) eqn:Hsplined.
  - unfold AcDbLeader.splineGeo.
    destruct (createSplineIfNeeded w) as [[u | e] w1] eqn:Hfirst;
      [| split; reflexivity].
    rewrite (createSplineIfNeeded_again w w1 u Hfirst).
    destruct (AcDbLeader._splineGeo (AcDbLeader.this w1));
      split; reflexivity.
  - rewrite createSplineIfNeeded_not_splined by exact Hsplined.
    split; reflexivity.
Qed.

Lemma read_state (w : AcDbLeader.world) (c : AcDbLeader.call) :
  AcDbLeader.isRead c = true ->
  step w c = snd (createSplineIfNeeded w)
  /\ thrownBy w c = thrown (fst (createSplineIfNeeded w)).
Proof.
  destruct c; simpl; try discriminate; intros _.
  - apply geometricExtents_state.
  - apply draw_state.
Qed.

Lemma cacheInvariant_createSplineIfNeeded (w : AcDbLeader.world) :
  cacheInvariant rejects (AcDbLeader.this w) ->
  cacheInvariant rejects (AcDbLeader.this (snd (createSplineIfNeeded w))).
Proof.
  intros Hinv. rewrite createSplineIfNeeded_cases.
  destruct (AcDbLeader.needsSpline (AcDbLeader.this w)) eqn:Hneeds;
    [| exact Hinv].
  destruct (rejects (AcDbLeader._vertices (AcDbLeader.this w)) "Uniform")
    eqn:Haccepts; [exact Hinv |].
  intros s Hs. simpl in *. injection Hs as <-.
  unfold AcDbLeader.needsSpline in Hneeds.
  apply andb_prop in Hneeds as [Hneeds _].
  apply andb_prop in Hneeds as [_ Hlen].
  apply Nat.leb_le in Hlen.
  split; [exact Hlen |]. intros _. split; [reflexivity | exact Haccepts].
Qed.

Lemma cacheInvariant_step (w : AcDbLeader.world) (c : AcDbLeader.call) :
  cacheInvariant rejects (AcDbLeader.this w) ->
  cacheInvariant rejects (AcDbLeader.this (step w c)).
Proof.
  intros Hinv.
  destruct c; simpl;
    try rewrite setVertexAt_state;
    try exact Hinv;
    try (intros s Hs; exact (Hinv s Hs)).
  - intros s Hs. simpl in Hs. destruct (Hinv s Hs) as [Hlen _].
    split; [| discriminate].
    unfold AcDbLeader.numVertices in *; simpl.
    rewrite length_app. lia.
  - rewrite (proj1 (geometricExtents_state w)).
    apply cacheInvariant_createSplineIfNeeded, Hinv.
  - rewrite (proj1 (draw_state db w r)).
    apply cacheInvariant_createSplineIfNeeded, Hinv.
Qed.

Lemma cacheInvariant_run (calls : list AcDbLeader.call)
    (w : AcDbLeader.world) :
  cacheInvariant rejects (AcDbLeader.this w) ->
  cacheInvariant rejects (AcDbLeader.this (run w calls)).
Proof.
  revert w. induction calls as [| c calls IH]; intros w Hinv.
  - exact Hinv.
  - simpl. apply IH, cacheInvariant_step, Hinv.
Qed.

Lemma createSplineIfNeeded_vertices (w : AcDbLeader.world) :
  AcDbLeader._vertices (AcDbLeader.this (snd (createSplineIfNeeded w)))
  = AcDbLeader._vertices (AcDbLeader.this w)
  /\ AcDbLeader.entity (AcDbLeader.this (snd (createSplineIfNeeded w)))
     = AcDbLeader.entity (AcDbLeader.this w).
Proof.
  rewrite createSplineIfNeeded_cases.
  destruct (AcDbLeader.needsSpline (AcDbLeader.this w));
    [| split; reflexivity].
  destruct (rejects (AcDbLeader._vertices (AcDbLeader.this w)) "Uniform");
    split; reflexivity.
Qed.

Lemma vertices_changed_updated (w : AcDbLeader.world)
    (c : AcDbLeader.call) :
  AcDbLeader._vertices (AcDbLeader.this (step w c))
  <> AcDbLeader._vertices (AcDbLeader.this w) ->
  AcDbLeader._updated (AcDbLeader.this (step w c)) = true.
Proof.
  destruct c; simpl; try rewrite setVertexAt_state;
    try (intros Hne; exfalso; apply Hne; reflexivity).
  - reflexivity.
  - rewrite (proj1 (geometricExtents_state w)).
    rewrite (proj1 (createSplineIfNeeded_vertices w)).
    intros Hne; exfalso; apply Hne; reflexivity.
  - rewrite (proj1 (draw_state db w r)).
    rewrite (proj1 (createSplineIfNeeded_vertices w)).
    intros Hne; exfalso; apply Hne; reflexivity.
Qed.

Lemma setVertexAt_step (w : AcDbLeader.world) (index : Z)
    (point : AcGePoint3d.t) :
  step w (AcDbLeader.CallSetVertexAt index point) = w
  /\ thrownBy w (AcDbLeader.CallSetVertexAt index point) <> None.
Proof.
  split.
  - change (AcDbLeader.mkWorld
              (snd (AcDbLeader.setVertexAt index point (AcDbLeader.this w)))
              (AcDbLeader.splinesBuilt w) = w).
    rewrite setVertexAt_state. destruct w. reflexivity.
  - change (thrown (fst (AcDbLeader.setVertexAt index point
                           (AcDbLeader.this w))) <> None).
    unfold AcDbLeader.setVertexAt.
    destruct (AcDbLeader.outOfRange index (AcDbLeader.this w)) eqn:Hout;
      [| discriminate].
    rewrite js_index_outOfRange by exact Hout. discriminate.
Qed.
End LeaderCache.

Lemma needsSpline_after_append (l : AcDbLeader.t) (point : AcGePoint3d.t) :
  AcDbLeader.isSplined l = true ->
  (1 <= AcDbLeader.numVertices l)%nat ->
  AcDbLeader.needsSpline (AcDbLeader.appendVertex point l) = true.
Proof.
  intros Hsplined Hlen.
  unfold AcDbLeader.needsSpline, AcDbLeader.isSplined,
    AcDbLeader.numVertices in *.
  cbn -[Nat.leb].
  rewrite Hsplined, orb_true_r, andb_true_r.
  apply Nat.leb_le. rewrite length_app. simpl. lia.
Qed.


(** Four appended vertices and one read build one spline; a fifth vertex
    and two reads of the extents build exactly one more. *)
Example leader_five_vertices_two_builds :
  AcDbLeader.splinesBuilt sampleLeader = []
  /\ AcDbLeader.splinesBuilt
       (AcDbLeader.run sampleRejects sampleBox samplePoints sampleLeader
          [AcDbLeader.CallGeometricExtents])
     = [AcGeSpline3d.mk
          [AcGePoint3d.mk 0 0 0; AcGePoint3d.mk 5 5 0; AcGePoint3d.mk 10 5 0;
           AcGePoint3d.mk 15 0 0]
          "Uniform"]
  /\ AcDbLeader.splinesBuilt
       (AcDbLeader.run sampleRejects sampleBox samplePoints sampleLeader
          [AcDbLeader.CallGeometricExtents;
           AcDbLeader.CallAppendVertex (AcGePoint3d.mk 20 0 0);
           AcDbLeader.CallGeometricExtents;
           AcDbLeader.CallGeometricExtents])
     = [AcGeSpline3d.mk
          [AcGePoint3d.mk 0 0 0; AcGePoint3d.mk 5 5 0; AcGePoint3d.mk 10 5 0;
           AcGePoint3d.mk 15 0 0]
          "Uniform";
        AcGeSpline3d.mk
          [AcGePoint3d.mk 0 0 0; AcGePoint3d.mk 5 5 0; AcGePoint3d.mk 10 5 0;
           AcGePoint3d.mk 15 0 0; AcGePoint3d.mk 20 0 0]
          "Uniform"].
Proof. repeat split. Qed.



(** ** Object snap *)



(** ** Style resolution *)

(** C3, as the code has it.  For an entity with the default layer, colour
    and linetype: [rgbColor] is the RGB of layer ["0"] when the layer table
    has that layer with an RGB, and the RGB of the current entity colour
    (white when it has none) otherwise; [lineStyle.type] is ["ByLayer"]
    when the layer table has layer ["0"] with a non-empty linetype, and
    ["UserSpecified"] otherwise.  For any entity, [rgbColor] is white when
    neither the current entity colour, nor the entity's layer, nor the
    entity's own colour has an RGB. *)
Theorem default_style_resolution (db : AcDbDatabase) (e : AcDbEntity.t) :
  (AcDbEntity.hasDefaultStyle e ->
     AcDbEntity.rgbColor db e
     = match layerTable db !! "0" with
       | Some l =>
           match AcCmColor.RGB (layer_color l) with
           | Some rgb => rgb
           | None => cecolorRgb db
           end
       | None => cecolorRgb db
       end
     /\ ls_type (AcDbEntity.lineStyle db e)
        = match layerTable db !! "0" with
          | Some l =>
              if truthy (layer_linetype l) then "ByLayer"
              else "UserSpecified"
          | None => "UserSpecified"
          end)
  /\ (AcCmColor.RGB (cecolor db) = None ->
      (forall l, layerTable db !! AcDbEntity.layer e = Some l ->
                 AcCmColor.RGB (layer_color l) = None) ->
      AcCmColor.RGB (AcDbEntity.color e) = None ->
      AcDbEntity.rgbColor db e = 0xffffff%Z).
Proof.
  split.
  - intros (Hlayer & Hcolor & Hlinetype). split.
    + unfold AcDbEntity.rgbColor, AcDbEntity.getLayerColor, AcDbEntity.color,
        AcDbEntity.layer, cecolorRgb.
      rewrite Hcolor, Hlayer.
      destruct (layerTable db !! "0") as [l |]; [| reflexivity].
      destruct (AcCmColor.RGB (layer_color l)) eqn:Hrgb; [| reflexivity].
      rewrite Hrgb. reflexivity.
    + unfold AcDbEntity.lineStyle, AcDbEntity.getLineType, AcDbEntity.lineType,
        AcDbEntity.layer.
      rewrite Hlinetype, Hlayer. simpl.
      destruct (layerTable db !! "0") as [l |].
      * destruct (truthy (layer_linetype l));
          destruct (linetypeTable db !! _); reflexivity.
      * destruct (linetypeTable db !! _); reflexivity.
  - intros Hce Hlayers Hown.
    unfold AcDbEntity.rgbColor, AcDbEntity.getLayerColor.
    destruct (AcCmColor.isByLayer (AcDbEntity.color e)).
    + destruct (layerTable db !! AcDbEntity.layer e) as [l |] eqn:Hl.
      * rewrite (Hlayers l eq_refl), Hce. reflexivity.
      * rewrite Hce. reflexivity.
    + destruct (AcCmColor.isByBlock (AcDbEntity.color e)).
      * rewrite Hce. reflexivity.
      * rewrite Hown, Hce. reflexivity.
Qed.

(** C3 as stated fails: with the default style, the colour is the one of
    layer ["0"] when that layer has one, not the current entity colour, and
    the line style is not ["ByLayer"] when the layer table has no layer
    ["0"]. *)
Lemma default_style_not_always_cecolor :
  AcDbEntity.hasDefaultStyle sampleBase
  /\ AcDbEntity.rgbColor redLayerDatabase sampleBase = 0xff0000%Z
  /\ cecolorRgb redLayerDatabase = 0x00ff00%Z
  /\ AcDbEntity.rgbColor redLayerDatabase sampleBase
     <> cecolorRgb redLayerDatabase
  /\ ls_type (AcDbEntity.lineStyle noLayerDatabase sampleBase)
     <> "ByLayer".
Proof.
  assert (AcDbEntity.rgbColor redLayerDatabase sampleBase = 0xff0000%Z)
    as Hred.
  { unfold AcDbEntity.rgbColor, AcDbEntity.getLayerColor; simpl.
    rewrite lookup_singleton_eq. reflexivity. }
  repeat split; try exact Hred.
  - rewrite Hred. discriminate.
  - unfold AcDbEntity.lineStyle, AcDbEntity.getLineType; simpl.
    rewrite !lookup_empty. simpl. discriminate.
Qed.

Lemma default_style_resolution_witness :
  AcDbEntity.rgbColor redLayerDatabase sampleBase = 0xff0000%Z
  /\ AcDbEntity.rgbColor
       (mkDatabase (AcCmColor.mk true false None) ∅ ∅) sampleBase
     = 0xffffff%Z.
Proof.
  split.
  - destruct (default_style_resolution redLayerDatabase sampleBase)
      as [Hdefault _].
    destruct Hdefault as [Hrgb _]; [repeat split |].
    rewrite Hrgb. unfold redLayerDatabase; simpl.
    rewrite lookup_singleton_eq. reflexivity.
  - destruct (default_style_resolution
                (mkDatabase (AcCmColor.mk true false None) ∅ ∅) sampleBase)
      as [_ Hwhite].
    apply Hwhite; [reflexivity | | reflexivity].
    intros l Hl. simpl in Hl. rewrite lookup_empty in Hl. discriminate.
Defined.

(** ** AcDbRasterImage: the boundary path *)

Lemma box2d_fold (points : list AcGePoint2d.t) (mn mx : AcGePoint2d.t) :
  exists mn' mx',
    fold_left (fun b p => AcGeBox2d.expandByPoint p b) points
              (AcGeBox2d.Box mn mx)
    = AcGeBox2d.Box mn' mx'
    /\ (AcGePoint2d.x mn' <= AcGePoint2d.x mn)%R
    /\ (AcGePoint2d.y mn' <= AcGePoint2d.y mn)%R
    /\ Forall (fun p => (AcGePoint2d.x mn' <= AcGePoint2d.x p
                         /\ AcGePoint2d.y mn' <= AcGePoint2d.y p)%R) points
    /\ (AcGePoint2d.x mn' = AcGePoint2d.x mn
        \/ Exists (fun p => AcGePoint2d.x p = AcGePoint2d.x mn') points)
    /\ (AcGePoint2d.y mn' = AcGePoint2d.y mn
        \/ Exists (fun p => AcGePoint2d.y p = AcGePoint2d.y mn') points).
Proof.
  revert mn mx.
  induction points as [| p points IH]; intros mn mx.
  - exists mn, mx. simpl.
    repeat split; try apply Rle_refl; auto.
  - simpl.
    destruct (IH (AcGePoint2d.mk (Rmin (AcGePoint2d.x mn) (AcGePoint2d.x p))
                                 (Rmin (AcGePoint2d.y mn) (AcGePoint2d.y p)))
                 (AcGePoint2d.mk (Rmax (AcGePoint2d.x mx) (AcGePoint2d.x p))
                                 (Rmax (AcGePoint2d.y mx) (AcGePoint2d.y p))))
      as (mn' & mx' & Hfold & Hx & Hy & Hall & Hatx & Haty).
    simpl in Hx, Hy, Hatx, Haty.
    pose proof (Rmin_l (AcGePoint2d.x mn) (AcGePoint2d.x p)) as Hxl.
    pose proof (Rmin_r (AcGePoint2d.x mn) (AcGePoint2d.x p)) as Hxr.
    pose proof (Rmin_l (AcGePoint2d.y mn) (AcGePoint2d.y p)) as Hyl.
    pose proof (Rmin_r (AcGePoint2d.y mn) (AcGePoint2d.y p)) as Hyr.
    exists mn', mx'.
    split; [exact Hfold |].
    split; [lra |]. split; [lra |].
    split; [constructor; [split; lra | exact Hall] |].
    split.
    + destruct Hatx as [Hatx | Hatx]; [| right; right; exact Hatx].
      destruct (Rmin_case (AcGePoint2d.x mn) (AcGePoint2d.x p)
                  (fun m => m = AcGePoint2d.x mn \/ m = AcGePoint2d.x p))
        as [Hm | Hm]; [left; reflexivity | right; reflexivity | |].
      * left. lra.
      * right. left. lra.
    + destruct Haty as [Haty | Haty]; [| right; right; exact Haty].
      destruct (Rmin_case (AcGePoint2d.y mn) (AcGePoint2d.y p)
                  (fun m => m = AcGePoint2d.y mn \/ m = AcGePoint2d.y p))
        as [Hm | Hm]; [left; reflexivity | right; reflexivity | |].
      * left. lra.
      * right. left. lra.
Qed.

Lemma box2d_setFromPoints (points : list AcGePoint2d.t) :
  points <> [] ->
  exists mn mx,
    AcGeBox2d.setFromPoints points = AcGeBox2d.Box mn mx
    /\ isMinCorner mn points.
Proof.
  destruct points as [| p points]; [congruence | intros _].
  unfold AcGeBox2d.setFromPoints; simpl.
  destruct (box2d_fold points p p)
    as (mn & mx & Hfold & Hx & Hy & Hall & Hatx & Haty).
  exists mn, mx. split; [exact Hfold |].
  repeat split.
  - constructor; [split; assumption | exact Hall].
  - destruct Hatx as [Hatx | Hatx]; [left; symmetry | right]; exact Hatx.
  - destruct Haty as [Haty | Haty]; [left; symmetry | right]; exact Haty.
Qed.

Lemma rotateAbout_pivot (pivot : AcGePoint3d.t) (angle : R) :
  rotateAbout pivot angle pivot = pivot.
Proof.
  destruct pivot as [px py pz].
  unfold rotateAbout, rotateAround; simpl.
  f_equal; ring.
Qed.

Lemma boundaryPath_unclipped (img : AcDbRasterImage.t) :
  AcDbRasterImage.isClipped img = false
  \/ (length (AcDbRasterImage._clipBoundary img) < 4)%nat ->
  AcDbRasterImage.boundaryPath img
  = if Rlt_dec 0 (AcDbRasterImage._rotation img)
    then rotatedRectangle img
    else plainRectangle img.
Proof.
  intros Hunclipped.
  unfold AcDbRasterImage.boundaryPath.
  replace (AcDbRasterImage.isClipped img
           && (3 <? length (AcDbRasterImage._clipBoundary img))%nat)
    with false.
  - destruct (Rlt_dec 0 (AcDbRasterImage._rotation img)); reflexivity.
  - symmetry. apply andb_false_iff.
    destruct Hunclipped as [Hflag | Hshort]; [left; exact Hflag | right].
    apply Nat.ltb_ge. lia.
Qed.

(** C1, as the code has it.  Clipped with four boundary points or more,
    the path is the clip boundary mapped to world space by
    [(x, y) -> (x * width + tx, y * height + ty, position.z)], the
    translation taking the scaled minimum corner of the boundary's bounding
    box to the insertion point.  Otherwise it is the closed rectangle
    anchored at the insertion point, with vertices 1..3 rotated about
    vertex 1 when the rotation is positive, and left as they stand when it
    is zero or negative.  The sample image yields the rectangle of the
    spec. *)
Theorem raster_boundary_path :
  (forall img : AcDbRasterImage.t,
     (AcDbRasterImage.isClipped img = true ->
      (4 <= length (AcDbRasterImage._clipBoundary img))%nat ->
      exists mn,
        isMinCorner mn (AcDbRasterImage._clipBoundary img)
        /\ AcDbRasterImage.boundaryPath img
           = map (toWorld img mn) (AcDbRasterImage._clipBoundary img)
        /\ toWorld img mn mn = AcDbRasterImage._position img)
     /\ (AcDbRasterImage.isClipped img = false
         \/ (length (AcDbRasterImage._clipBoundary img) < 4)%nat ->
         ((0 < AcDbRasterImage._rotation img)%R ->
          AcDbRasterImage.boundaryPath img = rotatedRectangle img
          /\ rotateAbout (corner1 img) (AcDbRasterImage._rotation img)
               (corner1 img)
             = corner1 img)
         /\ ((AcDbRasterImage._rotation img <= 0)%R ->
             AcDbRasterImage.boundaryPath img = plainRectangle img)))
  /\ AcDbRasterImage.boundaryPath sampleImage
     = [AcGePoint3d.mk 0 0 0; AcGePoint3d.mk 100 0 0; AcGePoint3d.mk 100 50 0;
        AcGePoint3d.mk 0 50 0; AcGePoint3d.mk 0 0 0].
Proof.
  split.
  - intros img. split.
    + intros Hclipped Hlen.
      destruct (box2d_setFromPoints (AcDbRasterImage._clipBoundary img))
        as (mn & mx & Hbox & Hmin).
      { intros Hnil. rewrite Hnil in Hlen. simpl in Hlen. lia. }
      exists mn. split; [exact Hmin |]. split.
      * unfold AcDbRasterImage.boundaryPath.
        rewrite Hclipped, Hbox.
        replace (3 <? length (AcDbRasterImage._clipBoundary img))%nat
          with true by (symmetry; apply Nat.ltb_lt; lia).
        reflexivity.
      * unfold toWorld.
        destruct (AcDbRasterImage._position img) as [px py pz]; simpl.
        f_equal; ring.
    + intros Hunclipped.
      rewrite boundaryPath_unclipped by exact Hunclipped.
      split.
      * intros Hpos.
        destruct (Rlt_dec 0 (AcDbRasterImage._rotation img)); [| lra].
        split; [reflexivity | apply rotateAbout_pivot].
      * intros Hneg.
        destruct (Rlt_dec 0 (AcDbRasterImage._rotation img)); [lra |].
        reflexivity.
  - rewrite boundaryPath_unclipped by (left; reflexivity).
    destruct (Rlt_dec 0 (AcDbRasterImage._rotation sampleImage)) as [Hpos | _].
    + simpl in Hpos. lra.
    + unfold plainRectangle, corner0, corner1, corner2, corner3; simpl.
      repeat (f_equal; try lra).
Qed.

(** C1 as stated fails for a negative rotation: the sample image turned by
    a negative quarter turn has a non-zero rotation, yet its path is the
    plain rectangle, not the rotated one. *)
Lemma raster_negative_rotation_not_rotated :
  AcDbRasterImage._rotation turnedBackImage <> 0%R
  /\ AcDbRasterImage.isClipped turnedBackImage = false
  /\ AcDbRasterImage.boundaryPath turnedBackImage
     = plainRectangle turnedBackImage
  /\ AcDbRasterImage.boundaryPath turnedBackImage
     <> rotatedRectangle turnedBackImage.
Proof.
  pose proof PI_RGT_0 as Hpi.
  assert (AcDbRasterImage.boundaryPath turnedBackImage
          = plainRectangle turnedBackImage) as Hplain.
  { rewrite boundaryPath_unclipped by (left; reflexivity).
    destruct (Rlt_dec 0 (AcDbRasterImage._rotation turnedBackImage))
      as [Hpos | _]; [| reflexivity].
    simpl in Hpos. lra. }
  repeat split.
  - simpl. lra.
  - exact Hplain.
  - rewrite Hplain.
    unfold plainRectangle, rotatedRectangle. intros Heq.
    apply (f_equal
             (fun l => AcGePoint3d.y (nth 2 l AcGePoint3d.origin))) in Heq.
    unfold rotateAbout, rotateAround, corner1, corner2 in Heq; simpl in Heq.
    rewrite cos_neg, cos_PI2 in Heq. lra.
Qed.

Lemma raster_boundary_path_witness :
  AcDbRasterImage.boundaryPath sampleImage = plainRectangle sampleImage.
Proof.
  destruct raster_boundary_path as [Hgeneral _].
  destruct (Hgeneral sampleImage) as [_ Hunclipped].
  destruct Hunclipped as [_ Hplain]; [left; reflexivity |].
  apply Hplain. simpl. lra.
Defined.

(** ** Property reflection *)

Ltac round_trips :=
  repeat constructor; intros v e; reflexivity.

Lemma general_round_trips (E : Type) (C : AcDbEntityClass E) :
  Forall
    (fun b =>
       AcDbEntityRuntimeProperty.name (binding.property b) <> "linetype" ->
       binding.roundTrips b)
    (generalBindings (E := E)).
Proof.
  unfold generalBindings.
  repeat constructor; simpl; intros Hname; try congruence;
    intros v e; unfold inherited; simpl; rewrite base_withBase; reflexivity.
Qed.

Lemma linetype_read_back (E : Type) (C : AcDbEntityClass E)
    (v : string) (e : E) :
  AcDbPropertyAccessor.get
    (AcDbEntityRuntimeProperty.accessor (linetypeProperty (E := E)))
    (binding.typedSetter linetypeBinding v e)
  = if truthy v then v else ByLayer.
Proof.
  simpl. unfold inherited. rewrite base_withBase. reflexivity.
Qed.

(** C8, as the code has it.  For the general group of every entity class,
    and for the groups that line, text, multiline text, point, ray,
    construction line, circle, arc and ellipse add to it: every editable
    property has a typed setter (but the three normal coordinates of the
    circle, which has none for its normal), and a value set through that
    setter is what the property's accessor reads back, except that the
    linetype property reads back ["ByLayer"] after the empty string has
    been set. *)
Theorem property_round_trip :
  (forall (E : Type) (C : AcDbEntityClass E),
     Forall
       (fun b =>
          AcDbEntityRuntimeProperty.name (binding.property b) <> "linetype" ->
          binding.roundTrips b)
       (generalBindings (E := E))
     /\ forall (v : string) (e : E),
          AcDbPropertyAccessor.get
            (AcDbEntityRuntimeProperty.accessor (linetypeProperty (E := E)))
            (binding.typedSetter linetypeBinding v e)
          = if truthy v then v else ByLayer)
  /\ (covers AcDbLine.properties AcDbLine.bindings
      /\ Forall binding.roundTrips AcDbLine.bindings)
  /\ (covers AcDbText.properties AcDbText.bindings
      /\ Forall binding.roundTrips AcDbText.bindings)
  /\ (covers AcDbMText.properties AcDbMText.bindings
      /\ Forall binding.roundTrips AcDbMText.bindings)
  /\ (covers AcDbPoint.properties AcDbPoint.bindings
      /\ Forall binding.roundTrips AcDbPoint.bindings)
  /\ (covers AcDbRay.properties AcDbRay.bindings
      /\ Forall binding.roundTrips AcDbRay.bindings)
  /\ (covers AcDbXline.properties AcDbXline.bindings
      /\ Forall binding.roundTrips AcDbXline.bindings)
  /\ (coversBut AcDbCircle.properties AcDbCircle.bindings
        AcDbCircle.withoutSetter
      /\ Forall binding.roundTrips AcDbCircle.bindings)
  /\ (covers AcDbArc.properties AcDbArc.bindings
      /\ Forall binding.roundTrips AcDbArc.bindings)
  /\ (covers AcDbEllipse.properties AcDbEllipse.bindings
      /\ Forall binding.roundTrips AcDbEllipse.bindings).
Proof.
  split.
  { intros E C. split.
    - apply general_round_trips.
    - apply linetype_read_back. }
  repeat split; round_trips.
Qed.

(** C8 as stated fails: the empty string set through the typed setter
    [lineType] reads back as ["ByLayer"] through the linetype property. *)
Lemma linetype_empty_reads_back_ByLayer :
  AcDbPropertyAccessor.get
    (AcDbEntityRuntimeProperty.accessor linetypeProperty)
    (binding.typedSetter linetypeBinding "" sampleLine)
  = "ByLayer"
  /\ ~ binding.roundTrips (linetypeBinding (E := AcDbLine.t)).
Proof.
  split; [reflexivity |].
  intros Hround. specialize (Hround "" sampleLine). discriminate Hround.
Qed.

Lemma property_round_trip_witness :
  AcDbEntity.layer (base (inherited AcDbEntity.set_layer "walls" sampleLine))
  = "walls".
Proof.
  destruct property_round_trip as [Hgeneral _].
  destruct (Hgeneral AcDbLine.t AcDbLine.entityClass) as [Hall _].
  pose proof (Forall_inv (Forall_inv_tail Hall)) as Hlayer.
  apply (Hlayer ltac:(discriminate) "walls" sampleLine).
Defined.

(** * Further properties *)

(** ** Array access *)

(** Decides a comparison of integers that stands as a boolean. *)
Ltac zcmp :=
  lazymatch goal with
  | |- true = _ => symmetry
  | |- false = _ => symmetry
  | |- _ => idtac
  end;
  rewrite ?Z.gtb_ltb, ?Z.geb_leb;
  first [apply Z.ltb_lt | apply Z.ltb_ge | apply Z.leb_le | apply Z.leb_gt];
  lia.

Lemma js_index_negative {A : Type} (l : list A) (index : Z) :
  (index < 0)%Z -> js_index l index = None.
Proof.
  intros Hneg. unfold js_index.
  replace (index <? 0)%Z with true by zcmp. reflexivity.
Qed.

Lemma js_index_of_nat {A : Type} (l : list A) (n : nat) :
  js_index l (Z.of_nat n) = l !! n.
Proof.
  unfold js_index.
  replace (Z.of_nat n <? 0)%Z with false by zcmp.
  rewrite Nat2Z.id. reflexivity.
Qed.

Lemma js_copyAt_negative (index : Z) (point : AcGePoint3d.t)
    (vertices : list AcGePoint3d.t) :
  (index < 0)%Z -> js_copyAt index point vertices = Throw TypeError.
Proof.
  intros Hneg. unfold js_copyAt.
  rewrite js_index_negative by exact Hneg. reflexivity.
Qed.

Lemma js_copyAt_in_range (n : nat) (point : AcGePoint3d.t)
    (vertices : list AcGePoint3d.t) :
  (n < length vertices)%nat ->
  js_copyAt (Z.of_nat n) point vertices = Normal (<[n := point]> vertices).
Proof.
  intros Hlt. unfold js_copyAt.
  rewrite js_index_of_nat, Nat2Z.id.
  destruct (lookup_lt_is_Some_2 vertices n Hlt) as [v Hv].
  rewrite Hv. reflexivity.
Qed.

(** ** AcDbFace: vertices *)

Lemma face_setVertexAt_in_range (f : AcDbFace.t) (n : nat)
    (point : AcGePoint3d.t) :
  AcDbFaceVertices.wellFormed f ->
  (n < 3)%nat ->
  AcDbFaceVertices.setVertexAt (Z.of_nat n) point f
  = (Normal tt,
     AcDbFace.mk (<[n := point]> (AcDbFace._vertices f))
                 (AcDbFace._edgeInvisibilities f)).
Proof.
  intros Hwf Hn. unfold AcDbFaceVertices.setVertexAt.
  replace (Z.of_nat n <? 0)%Z with false by zcmp.
  replace (Z.of_nat n >=? 3)%Z with false by zcmp.
  rewrite js_copyAt_in_range; [reflexivity |].
  destruct Hwf as [Hlen | Hlen]; rewrite Hlen; lia.
Qed.

Lemma face_setVertexAt_high (f : AcDbFace.t) (index : Z)
    (point : AcGePoint3d.t) :
  AcDbFaceVertices.wellFormed f ->
  (3 <= index)%Z ->
  AcDbFaceVertices.setVertexAt index point f
  = (Normal tt,
     AcDbFace.mk (take 3 (AcDbFace._vertices f) ++ [point])
                 (AcDbFace._edgeInvisibilities f)).
Proof.
  intros Hwf Hindex. unfold AcDbFaceVertices.setVertexAt.
  replace (index <? 0)%Z with false by zcmp.
  replace (index >=? 3)%Z with true by zcmp.
  destruct f as [vertices mask]. unfold AcDbFaceVertices.wellFormed in Hwf.
  simpl in *.
  destruct vertices as [| a [| b [| c [| d [| e rest]]]]];
    simpl in Hwf; try (exfalso; lia); reflexivity.
Qed.

Lemma face_setVertexAt_negative (f : AcDbFace.t) (index : Z)
    (point : AcGePoint3d.t) :
  AcDbFaceVertices.wellFormed f ->
  (index < 0)%Z ->
  AcDbFaceVertices.setVertexAt index point f
  = (Throw TypeError,
     AcDbFace.mk (<[0%nat := point]> (AcDbFace._vertices f))
                 (AcDbFace._edgeInvisibilities f)).
Proof.
  intros Hwf Hindex. unfold AcDbFaceVertices.setVertexAt.
  replace (index <? 0)%Z with true by zcmp.
  rewrite (js_copyAt_in_range 0)
    by (destruct Hwf as [Hlen | Hlen]; rewrite Hlen; lia).
  replace (index >=? 3)%Z with false by zcmp.
  rewrite js_copyAt_negative by exact Hindex. reflexivity.
Qed.

(** X1. A face keeps three or four vertices: the constructor makes three,
    and neither [setVertexAt] (whatever the index, and whether it returns
    or throws), nor [setEdgeInvisibilities], nor [makeEdgeInvisibleAt]
    leaves that range. *)
Theorem face_vertex_count_invariant :
  AcDbFaceVertices.wellFormed AcDbFace.new
  /\ forall f : AcDbFace.t,
       AcDbFaceVertices.wellFormed f ->
       (forall index point,
          AcDbFaceVertices.wellFormed
            (snd (AcDbFaceVertices.setVertexAt index point f)))
       /\ (forall mask,
             AcDbFaceVertices.wellFormed
               (AcDbFace.setEdgeInvisibilities mask f))
       /\ (forall index f',
             AcDbFace.makeEdgeInvisibleAt index f = Normal f' ->
             AcDbFaceVertices.wellFormed f').
Proof.
  split; [left; reflexivity |].
  intros f Hwf. repeat split.
  - intros index point.
    destruct (Z_lt_dec index 0) as [Hneg | Hnonneg].
    + rewrite face_setVertexAt_negative by assumption.
      unfold AcDbFaceVertices.wellFormed in *; simpl.
      rewrite length_insert. exact Hwf.
    + destruct (Z_le_dec 3 index) as [Hhigh | Hlow].
      * rewrite face_setVertexAt_high by assumption.
        unfold AcDbFaceVertices.wellFormed in *; simpl.
        right. rewrite length_app, length_take. simpl.
        destruct Hwf as [Hlen | Hlen]; rewrite Hlen; reflexivity.
      * replace index with (Z.of_nat (Z.to_nat index)) by lia.
        rewrite face_setVertexAt_in_range by (try assumption; lia).
        unfold AcDbFaceVertices.wellFormed in *; simpl.
        rewrite length_insert. exact Hwf.
  - intros mask. exact Hwf.
  - intros index f' Hmake. unfold AcDbFace.makeEdgeInvisibleAt in Hmake.
    destruct ((index <? 0)%Z || (index >? 3)%Z); [discriminate |].
    injection Hmake as <-. exact Hwf.
Qed.

Lemma face_vertex_count_invariant_witness :
  AcDbFaceVertices.wellFormed
    (snd (AcDbFaceVertices.setVertexAt 7 (AcGePoint3d.mk 1 2 3)
            AcDbFace.new)).
Proof.
  destruct face_vertex_count_invariant as [Hnew Hkeep].
  destruct (Hkeep AcDbFace.new Hnew) as [Hset _].
  apply Hset.
Defined.

(** X2. [getVertexAt] of a face clamps a negative index to the first
    vertex and an index above the vertex count to the last one, but an
    index equal to the vertex count is not clamped: it is the one index
    for which the result is [undefined]. *)
Theorem face_getVertexAt_clamps (f : AcDbFace.t) (index : Z) :
  AcDbFaceVertices.wellFormed f ->
  let vertices := AcDbFace._vertices f in
  ((index < 0)%Z ->
     AcDbFaceVertices.getVertexAt index f = vertices !! 0%nat)
  /\ ((Z.of_nat (length vertices) < index)%Z ->
        AcDbFaceVertices.getVertexAt index f = last vertices)
  /\ ((0 <= index < Z.of_nat (length vertices))%Z ->
        AcDbFaceVertices.getVertexAt index f = vertices !! Z.to_nat index)
  /\ (AcDbFaceVertices.getVertexAt index f = None
      <-> index = Z.of_nat (length vertices)).
Proof.
  intros Hwf vertices.
  assert (vertices <> []) as Hne.
  { intros Hnil. unfold vertices in Hnil.
    destruct Hwf as [Hlen | Hlen]; rewrite Hnil in Hlen; discriminate. }
  assert (forall i, (0 <= i < Z.of_nat (length vertices))%Z ->
                    is_Some (js_index vertices i)) as Hsome.
  { intros i Hi. unfold js_index.
    replace (i <? 0)%Z with false by zcmp.
    apply lookup_lt_is_Some_2. lia. }
  assert (0 < length vertices)%nat as Hpos.
  { destruct vertices; [congruence | simpl; lia]. }
  unfold AcDbFaceVertices.getVertexAt. fold vertices.
  repeat split.
  - intros Hneg. replace (index <? 0)%Z with true by zcmp. reflexivity.
  - intros Hhigh.
    replace (index <? 0)%Z with false by zcmp.
    replace (index >? Z.of_nat (length vertices))%Z with true by zcmp.
    unfold js_index.
    replace (Z.of_nat (length vertices) - 1 <? 0)%Z with false by zcmp.
    rewrite last_lookup. f_equal. lia.
  - intros Hin.
    replace (index <? 0)%Z with false by zcmp.
    replace (index >? Z.of_nat (length vertices))%Z with false by zcmp.
    unfold js_index. replace (index <? 0)%Z with false by zcmp. reflexivity.
  - intros Hnone.
    destruct (Z_lt_dec index 0) as [Hneg | Hnonneg].
    + replace (index <? 0)%Z with true in Hnone by zcmp.
      destruct (Hsome 0%Z ltac:(lia)) as [v Hv]. congruence.
    + replace (index <? 0)%Z with false in Hnone by zcmp.
      destruct (Z_lt_dec (Z.of_nat (length vertices)) index) as [Hhigh | Hlow].
      * replace (index >? Z.of_nat (length vertices))%Z with true in Hnone
          by zcmp.
        destruct (Hsome (Z.of_nat (length vertices) - 1)%Z ltac:(lia))
          as [v Hv]. congruence.
      * replace (index >? Z.of_nat (length vertices))%Z with false in Hnone
          by zcmp.
        destruct (Z.eq_dec index (Z.of_nat (length vertices)))
          as [Heq | Hneq]; [exact Heq |].
        destruct (Hsome index ltac:(lia)) as [v Hv]. congruence.
  - intros ->.
    replace (Z.of_nat (length vertices) <? 0)%Z with false by zcmp.
    replace (Z.of_nat (length vertices) >? Z.of_nat (length vertices))%Z
      with false by zcmp.
    rewrite js_index_of_nat. apply lookup_ge_None. lia.
Qed.

Lemma face_getVertexAt_clamps_witness :
  AcDbFaceVertices.getVertexAt 3 AcDbFace.new = None.
Proof.
  destruct (face_getVertexAt_clamps AcDbFace.new 3) as (_ & _ & _ & Hnone).
  - left. reflexivity.
  - apply Hnone. reflexivity.
Defined.

(** X3. On a face, [setVertexAt(index, point)] with a non-negative index
    returns normally and stores the point where [getVertexAt] finds it
    again: at the index itself below 3, and at vertex 3 for every index
    from 3 up (a fourth vertex being added to a triangle).  The other
    vertices among the first three and the edge mask are unchanged. *)
Theorem face_setVertexAt_getVertexAt (f : AcDbFace.t) (index : Z)
    (point : AcGePoint3d.t) :
  AcDbFaceVertices.wellFormed f ->
  (0 <= index)%Z ->
  let f' := snd (AcDbFaceVertices.setVertexAt index point f) in
  fst (AcDbFaceVertices.setVertexAt index point f) = Normal tt
  /\ AcDbFaceVertices.getVertexAt (Z.min index 3) f' = Some point
  /\ (forall j, (0 <= j < 3)%Z -> j <> index ->
        AcDbFaceVertices.getVertexAt j f'
        = AcDbFaceVertices.getVertexAt j f)
  /\ AcDbFace._edgeInvisibilities f' = AcDbFace._edgeInvisibilities f.
Proof.
  intros Hwf Hindex f'. subst f'.
  destruct f as [vertices mask].
  assert (exists a b c rest, vertices = a :: b :: c :: rest
                             /\ (rest = [] \/ exists d, rest = [d]))
    as (a & b & c & rest & -> & Hrest).
  { unfold AcDbFaceVertices.wellFormed in Hwf; simpl in Hwf.
    destruct vertices as [| a [| b [| c [| d [| e rest]]]]];
      simpl in Hwf; try (exfalso; lia).
    - exists a, b, c, []. split; [reflexivity | left; reflexivity].
    - exists a, b, c, [d]. split; [reflexivity | right; eauto]. }
  destruct (Z_le_dec 3 index) as [Hhigh | Hlow].
  - rewrite face_setVertexAt_high by assumption.
    rewrite Z.min_r by lia. simpl.
    split; [reflexivity |].
    split; [destruct Hrest as [-> | [d ->]]; reflexivity |].
    split; [| reflexivity].
    intros j Hj Hne.
    assert (j = 0 \/ j = 1 \/ j = 2)%Z as [-> | [-> | ->]] by lia;
      destruct Hrest as [-> | [d ->]]; reflexivity.
  - assert (index = 0 \/ index = 1 \/ index = 2)%Z
      as [-> | [-> | ->]] by lia.
    + rewrite (face_setVertexAt_in_range _ 0) by (try assumption; lia).
      split; [reflexivity |].
      split; [destruct Hrest as [-> | [d ->]]; reflexivity |].
      split; [| reflexivity].
      intros j Hj Hne.
      assert (j = 1 \/ j = 2)%Z as [-> | ->] by lia;
        destruct Hrest as [-> | [d ->]]; reflexivity.
    + rewrite (face_setVertexAt_in_range _ 1) by (try assumption; lia).
      split; [reflexivity |].
      split; [destruct Hrest as [-> | [d ->]]; reflexivity |].
      split; [| reflexivity].
      intros j Hj Hne.
      assert (j = 0 \/ j = 2)%Z as [-> | ->] by lia;
        destruct Hrest as [-> | [d ->]]; reflexivity.
    + rewrite (face_setVertexAt_in_range _ 2) by (try assumption; lia).
      split; [reflexivity |].
      split; [destruct Hrest as [-> | [d ->]]; reflexivity |].
      split; [| reflexivity].
      intros j Hj Hne.
      assert (j = 0 \/ j = 1)%Z as [-> | ->] by lia;
        destruct Hrest as [-> | [d ->]]; reflexivity.
Qed.

Lemma face_setVertexAt_getVertexAt_witness :
  AcDbFaceVertices.getVertexAt 3
    (snd (AcDbFaceVertices.setVertexAt 9 (AcGePoint3d.mk 1 2 3)
            AcDbFace.new))
  = Some (AcGePoint3d.mk 1 2 3).
Proof.
  destruct (face_setVertexAt_getVertexAt AcDbFace.new 9
              (AcGePoint3d.mk 1 2 3)) as (_ & Hget & _).
  - left. reflexivity.
  - lia.
  - exact Hget.
Defined.

(** X4. On a face, [setVertexAt] with a negative index does not clamp
    quietly: it overwrites vertex 0 with the point and then throws a
    [TypeError], because the statement for the first vertex does not
    return; the other vertices and the edge mask are unchanged. *)
Theorem face_setVertexAt_negative_index (f : AcDbFace.t) (index : Z)
    (point : AcGePoint3d.t) :
  AcDbFaceVertices.wellFormed f ->
  (index < 0)%Z ->
  let f' := snd (AcDbFaceVertices.setVertexAt index point f) in
  fst (AcDbFaceVertices.setVertexAt index point f) = Throw TypeError
  /\ AcDbFace._vertices f' = <[0%nat := point]> (AcDbFace._vertices f)
  /\ AcDbFaceVertices.getVertexAt 0 f' = Some point
  /\ AcDbFace._edgeInvisibilities f' = AcDbFace._edgeInvisibilities f.
Proof.
  intros Hwf Hindex f'. subst f'.
  rewrite face_setVertexAt_negative by assumption. simpl.
  split; [reflexivity |]. split; [reflexivity |]. split; [| reflexivity].
  unfold AcDbFaceVertices.getVertexAt; simpl.
  replace (0 >? Z.of_nat _)%Z with false by zcmp.
  rewrite (js_index_of_nat _ 0).
  apply list_lookup_insert_eq.
  destruct Hwf as [Hlen | Hlen]; rewrite Hlen; lia.
Qed.

Lemma face_setVertexAt_negative_index_witness :
  fst (AcDbFaceVertices.setVertexAt (-1) (AcGePoint3d.mk 1 2 3)
         AcDbFace.new)
  = Throw TypeError.
Proof.
  destruct (face_setVertexAt_negative_index AcDbFace.new (-1)
              (AcGePoint3d.mk 1 2 3)) as [Hthrow _].
  - left. reflexivity.
  - lia.
  - exact Hthrow.
Defined.

(** ** AcDbFace: drawing *)

Lemma face_drawLoop (fround : R -> R) (f : AcDbFace.t)
    (vertices : list AcGePoint3d.t) (i : Z) :
  (0 <= i)%Z ->
  (i + Z.of_nat (length vertices) <= 4)%Z ->
  exists buffer indices,
    AcDbFaceVertices.drawLoop fround f i vertices
    = Normal (buffer, indices)
    /\ length buffer = (3 * length vertices)%nat
    /\ length indices = (2 * length vertices)%nat
    /\ Forall (fun k => (0 <= k <= 3)%Z) indices.
Proof.
  revert i. induction vertices as [| v rest IH]; intros i Hi Hlen.
  - exists [], []. repeat split. constructor.
  - simpl in Hlen.
    destruct (IH (i + 1)%Z ltac:(lia) ltac:(lia))
      as (buffer & indices & Hloop & Hbuffer & Hindices & Hbound).
    simpl. unfold AcDbFace.isEdgeVisibleAt.
    replace ((i <? 0)%Z || (i >? 3)%Z) with false by lia.
    rewrite Hloop.
    eexists. eexists. split; [reflexivity |].
    split; [simpl; lia |].
    split.
    + rewrite length_app.
      destruct (js_and (AcDbFace._edgeInvisibilities f) (js_shl 1 i) =? 0)%Z;
        simpl; lia.
    + apply Forall_app. split; [| exact Hbound].
      destruct (js_and (AcDbFace._edgeInvisibilities f) (js_shl 1 i) =? 0)%Z.
      * unfold ToUint16.
        assert (0 <= (i + 1) mod 4 < 4)%Z by (apply Z.mod_pos_bound; lia).
        rewrite !Z.mod_small by lia.
        repeat constructor; lia.
      * repeat constructor; lia.
Qed.

(** X5. Drawing a face never throws: with three or four vertices every
    edge index the loop asks about is within 0..3.  The call writes the
    traits, requests nothing through the primitives of the other entities,
    and hands [lineSegments] three numbers and two indices per vertex with
    stride 3, every index within 0..3. *)
Theorem face_draw_never_throws (fround : R -> R) (db : AcDbDatabase)
    (base : AcDbEntity.t) (f : AcDbFace.t) (r : AcGiRenderer) :
  AcDbFaceVertices.wellFormed f ->
  exists buffer indices,
    AcDbFaceVertices.draw fround db base f r
    = Normal (AcDbEntity.attachToEntityTraits db base r,
              (buffer, 3%Z, indices))
    /\ length buffer = (3 * length (AcDbFace._vertices f))%nat
    /\ length indices = (2 * length (AcDbFace._vertices f))%nat
    /\ Forall (fun k => (0 <= k <= 3)%Z) indices.
Proof.
  intros Hwf.
  destruct (face_drawLoop fround f (AcDbFace._vertices f) 0)
    as (buffer & indices & Hloop & Hrest); [lia | |].
  { destruct Hwf as [Hlen | Hlen]; rewrite Hlen; simpl; lia. }
  exists buffer, indices. split; [| exact Hrest].
  unfold AcDbFaceVertices.draw. rewrite Hloop. reflexivity.
Qed.

Lemma face_draw_never_throws_witness :
  exists buffer indices,
    AcDbFaceVertices.draw (fun x => x) noLayerDatabase sampleBase
      AcDbFace.new (mkRenderer
                      (mkTraits 0 (AcCmColor.mk true false None) 1 0
                                AcCmTransparency.ByLayer "")
                      [])
    = Normal
        (AcDbEntity.attachToEntityTraits noLayerDatabase sampleBase
           (mkRenderer
              (mkTraits 0 (AcCmColor.mk true false None) 1 0
                        AcCmTransparency.ByLayer "")
              []),
         (buffer, 3%Z, indices))
    /\ length buffer = 9%nat.
Proof.
  destruct (face_draw_never_throws (fun x => x) noLayerDatabase sampleBase
              AcDbFace.new
              (mkRenderer
                 (mkTraits 0 (AcCmColor.mk true false None) 1 0
                           AcCmTransparency.ByLayer "")
                 []))
    as (buffer & indices & Hdraw & Hbuffer & _).
  - left. reflexivity.
  - exists buffer, indices. split; [exact Hdraw | exact Hbuffer].
Defined.

(** ** AcDbTrace *)

Lemma trace_four_vertices (tr : AcDbTrace.t) :
  AcDbTrace.wellFormed tr ->
  exists a b c d, AcDbTrace._vertices tr = [a; b; c; d].
Proof.
  unfold AcDbTrace.wellFormed. intros Hlen.
  destruct (AcDbTrace._vertices tr) as [| a [| b [| c [| d [| e rest]]]]];
    simpl in Hlen; try discriminate.
  exists a, b, c, d. reflexivity.
Qed.

(** X6. A trace always has four vertices, [getPointAt] never returns
    [undefined] on it: it clamps every index into 0..3; and the grip points
    are the four vertices in order. *)
Theorem trace_getPointAt_total (base : AcDbEntity.t) (tr : AcDbTrace.t) :
  AcDbTrace.wellFormed (AcDbTrace.new base)
  /\ (AcDbTrace.wellFormed tr ->
      (forall index point,
         AcDbTrace.wellFormed (snd (AcDbTrace.setPointAt index point tr)))
      /\ (forall index,
            AcDbTrace.getPointAt index tr
            = AcDbTrace._vertices tr !! Z.to_nat (Z.max 0 (Z.min index 3))
            /\ is_Some (AcDbTrace.getPointAt index tr))
      /\ AcDbTrace.subGetGripPoints tr
         = map Some (AcDbTrace._vertices tr)).
Proof.
  split; [reflexivity |].
  intros Hwf.
  destruct (trace_four_vertices tr Hwf) as (a & b & c & d & Hvs).
  split; [| split].
  - intros index point.
    unfold AcDbTrace.setPointAt, AcDbTrace.wellFormed. rewrite Hvs.
    destruct (Z_lt_dec index 0) as [Hneg | Hnonneg].
    + replace (index <? 0)%Z with true by zcmp.
      replace (index >? 3)%Z with false by zcmp.
      simpl. rewrite js_copyAt_negative by exact Hneg. reflexivity.
    + replace (index <? 0)%Z with false by zcmp.
      destruct (Z_lt_dec 3 index) as [Hhigh | Hlow].
      * replace (index >? 3)%Z with true by zcmp. reflexivity.
      * replace (index >? 3)%Z with false by zcmp.
        assert (index = 0 \/ index = 1 \/ index = 2 \/ index = 3)%Z
          as [-> | [-> | [-> | ->]]] by lia; reflexivity.
  - intros index.
    unfold AcDbTrace.getPointAt. rewrite Hvs.
    destruct (Z_lt_dec index 0) as [Hneg | Hnonneg].
    + replace (index <? 0)%Z with true by zcmp.
      rewrite Z.max_l by lia. split; [reflexivity | eauto].
    + replace (index <? 0)%Z with false by zcmp.
      destruct (Z_lt_dec 3 index) as [Hhigh | Hlow].
      * replace (index >? 3)%Z with true by zcmp.
        rewrite Z.min_r, Z.max_r by lia. split; [reflexivity | eauto].
      * replace (index >? 3)%Z with false by zcmp.
        assert (index = 0 \/ index = 1 \/ index = 2 \/ index = 3)%Z
          as [-> | [-> | [-> | ->]]] by lia;
          (split; [reflexivity | eauto]).
  - unfold AcDbTrace.subGetGripPoints, AcDbTrace.getPointAt.
    rewrite Hvs. reflexivity.
Qed.

Lemma trace_getPointAt_total_witness :
  is_Some (AcDbTrace.getPointAt 17 (AcDbTrace.new sampleBase)).
Proof.
  destruct (trace_getPointAt_total sampleBase (AcDbTrace.new sampleBase))
    as [Hnew Hrest].
  destruct (Hrest Hnew) as (_ & Hget & _).
  apply Hget.
Defined.

(** X7. On a trace, [setPointAt(index, point)] with a non-negative index
    returns normally and stores the point at the clamped index, where
    [getPointAt] finds it again, leaving the other vertices alone; with a
    negative index it overwrites vertex 0 and then throws a [TypeError].
    Elevation and thickness are unchanged either way. *)
Theorem trace_setPointAt_getPointAt (tr : AcDbTrace.t) (index : Z)
    (point : AcGePoint3d.t) :
  AcDbTrace.wellFormed tr ->
  let result := AcDbTrace.setPointAt index point tr in
  let at_ := Z.to_nat (Z.max 0 (Z.min index 3)) in
  AcDbTrace._vertices (snd result)
  = <[at_ := point]> (AcDbTrace._vertices tr)
  /\ AcDbTrace.getPointAt (Z.of_nat at_) (snd result) = Some point
  /\ AcDbTrace._elevation (snd result) = AcDbTrace._elevation tr
  /\ AcDbTrace._thickness (snd result) = AcDbTrace._thickness tr
  /\ fst result
     = if (index <? 0)%Z then Throw TypeError else Normal tt.
Proof.
  intros Hwf result at_. subst result at_.
  destruct (trace_four_vertices tr Hwf) as (a & b & c & d & Hvs).
  unfold AcDbTrace.setPointAt, AcDbTrace.getPointAt. rewrite Hvs.
  destruct (Z_lt_dec index 0) as [Hneg | Hnonneg].
  - replace (index <? 0)%Z with true by zcmp.
    replace (index >? 3)%Z with false by zcmp.
    rewrite Z.max_l by lia.
    simpl. rewrite js_copyAt_negative by exact Hneg.
    repeat apply conj; reflexivity.
  - replace (index <? 0)%Z with false by zcmp.
    destruct (Z_lt_dec 3 index) as [Hhigh | Hlow].
    + replace (index >? 3)%Z with true by zcmp.
      rewrite Z.min_r, Z.max_r by lia.
      repeat apply conj; reflexivity.
    + replace (index >? 3)%Z with false by zcmp.
      assert (index = 0 \/ index = 1 \/ index = 2 \/ index = 3)%Z
        as [-> | [-> | [-> | ->]]] by lia;
        repeat apply conj; reflexivity.
Qed.

Lemma trace_setPointAt_getPointAt_witness :
  fst (AcDbTrace.setPointAt (-2) (AcGePoint3d.mk 1 2 3)
         (AcDbTrace.new sampleBase))
  = Throw TypeError.
Proof.
  destruct (trace_setPointAt_getPointAt (AcDbTrace.new sampleBase) (-2)
              (AcGePoint3d.mk 1 2 3)) as (_ & _ & _ & _ & Hfst).
  - reflexivity.
  - exact Hfst.
Defined.

(** ** AcDbRasterImage: extents and file name *)

(** X8. For an unclipped image that is not rotated, has a non-negative
    width and height and lies at [z = 0], every point of the boundary path
    (and so every grip point) lies within the geometric extents. *)
Theorem raster_extents_contain_plain_boundary (img : AcDbRasterImage.t) :
  AcDbRasterImage.isClipped img = false
  \/ (length (AcDbRasterImage._clipBoundary img) < 4)%nat ->
  (AcDbRasterImage._rotation img <= 0)%R ->
  (0 <= AcDbRasterImage._width img)%R ->
  (0 <= AcDbRasterImage._height img)%R ->
  AcGePoint3d.z (AcDbRasterImage._position img) = 0%R ->
  Forall (AcGeBox3d.contains (AcDbRasterImageRest.geometricExtents img))
         (AcDbRasterImage.subGetGripPoints img).
Proof.
  intros Hunclipped Hrot Hw Hh Hz.
  unfold AcDbRasterImage.subGetGripPoints.
  rewrite boundaryPath_unclipped by exact Hunclipped.
  destruct (Rlt_dec 0 (AcDbRasterImage._rotation img)); [lra |].
  unfold plainRectangle, corner0, corner1, corner2, corner3,
    AcDbRasterImageRest.geometricExtents.
  destruct (AcDbRasterImage._position img) as [px py pz].
  simpl in *. subst pz.
  repeat (apply List.Forall_cons; [simpl; lra |]).
  apply List.Forall_nil.
Qed.

Lemma raster_extents_contain_plain_boundary_witness :
  Forall (AcGeBox3d.contains
            (AcDbRasterImageRest.geometricExtents sampleImage))
         (AcDbRasterImage.subGetGripPoints sampleImage).
Proof.
  apply raster_extents_contain_plain_boundary.
  - left. reflexivity.
  - simpl. lra.
  - simpl. lra.
  - simpl. lra.
  - reflexivity.
Defined.

(** X9. The extents of an image take their upper [z] to be 0 whatever the
    insertion point: an image placed above the plane ([z > 0]) has extents
    that contain no point at all, not even its own insertion point. *)
Theorem raster_extents_empty_above_plane (img : AcDbRasterImage.t)
    (p : AcGePoint3d.t) :
  (0 < AcGePoint3d.z (AcDbRasterImage._position img))%R ->
  ~ AcGeBox3d.contains (AcDbRasterImageRest.geometricExtents img) p.
Proof.
  intros Hz (_ & _ & Hlow & Hhigh).
  simpl in Hlow, Hhigh. lra.
Qed.

Lemma raster_extents_empty_above_plane_witness :
  ~ AcGeBox3d.contains
      (AcDbRasterImageRest.geometricExtents
         (AcDbRasterImageRest.set_position (AcGePoint3d.mk 0 0 5)
            sampleImage))
      (AcGePoint3d.mk 0 0 5).
Proof.
  apply raster_extents_empty_above_plane. simpl. lra.
Defined.

(** X11. The file name of an image is the empty string unless its image
    definition id is non-empty and the dictionary has a definition under
    it, in which case it is that definition's source file name. *)
Theorem raster_imageFileName_lookup
    (imageDefs : gmap string AcDbRasterImageDef) (img : AcDbRasterImage.t) :
  (AcDbRasterImage._imageDefId img = "" ->
   AcDbRasterImageRest.imageFileName imageDefs img = "")
  /\ (imageDefs !! AcDbRasterImage._imageDefId img = None ->
      AcDbRasterImageRest.imageFileName imageDefs img = "")
  /\ (forall imageDef,
        AcDbRasterImage._imageDefId img <> "" ->
        imageDefs !! AcDbRasterImage._imageDefId img = Some imageDef ->
        AcDbRasterImageRest.imageFileName imageDefs img
        = sourceFileName imageDef).
Proof.
  unfold AcDbRasterImageRest.imageFileName.
  repeat apply conj.
  - intros ->. reflexivity.
  - intros ->. destruct (truthy _); reflexivity.
  - intros imageDef Hid ->.
    destruct (AcDbRasterImage._imageDefId img); [congruence | reflexivity].
Qed.

Lemma raster_imageFileName_lookup_witness :
  AcDbRasterImageRest.imageFileName
    {[ "A1" := mkImageDef "plan.png" ]} sampleImage
  = "".
Proof.
  destruct (raster_imageFileName_lookup
              {[ "A1" := mkImageDef "plan.png" ]} sampleImage)
    as [Hempty _].
  apply Hempty. reflexivity.
Defined.

(** ** Drawing: the traits and one primitive *)

(** X12. Each of these draw methods leaves the renderer with the traits
    resolved from the entity and with exactly one primitive more than was
    requested before: for a line its two endpoints dropped onto [z = 0];
    for a ray and a construction line one segment; for a raster image its
    boundary path, as an image when it holds image data and as lines when
    it does not; for a wipeout the same boundary path as an area; for a 2D
    polyline the engine's samples lifted to its elevation. *)
Theorem draw_requests_one_primitive (db : AcDbDatabase) (r : AcGiRenderer) :
  (forall l : AcDbLine.t,
     drawsOne db (AcDbLine.entity l) r (AcDbLine.draw db l r)
       (GiLines [flatten (AcDbLine.startPoint l);
                 flatten (AcDbLine.endPoint l)]))
  /\ (forall ray : AcDbRay.t,
        exists far,
          drawsOne db (AcDbRay.entity ray) r (AcDbRay.draw db ray r)
            (GiLines [AcDbRay.basePoint ray; far]))
  /\ (forall xline : AcDbXline.t,
        exists near far,
          drawsOne db (AcDbXline.entity xline) r
            (AcDbXline.draw db xline r) (GiLines [near; far]))
  /\ (forall img : AcDbRasterImage.t,
        drawsOne db (AcDbRasterImage.entity img) r
          (AcDbRasterImage.draw db img r)
          (match AcDbRasterImage._image img with
           | Some blob =>
               GiImage blob (AcDbRasterImage.boundaryPath img)
                       (AcDbRasterImage._rotation img)
           | None => GiLines (AcDbRasterImage.boundaryPath img)
           end)
        /\ drawsOne db (AcDbRasterImage.entity img) r
             (AcDbWipeout.draw db img r)
             (GiArea (AcDbRasterImage.boundaryPath img)))
  /\ (forall getPoints (pl : AcDb2dPolyline.t),
        drawsOne db (AcDb2dPolyline.entity pl) r
          (AcDb2dPolyline.draw getPoints db pl r)
          (GiLines
             (map (fun p => AcGePoint3d.mk (AcGePoint2d.x p)
                                           (AcGePoint2d.y p)
                                           (AcDb2dPolyline.elevation pl))
                  (getPoints (AcDb2dPolyline._geo pl) 100%Z)))).
Proof.
  repeat apply conj.
  - intros l. repeat split.
  - intros ray. eexists. repeat split.
  - intros xline. eexists. eexists. repeat split.
  - intros img. split.
    + unfold AcDbRasterImage.draw.
      destruct (AcDbRasterImage._image img); repeat split.
    + repeat split.
  - intros getPoints pl. repeat split.
Qed.

(** ** Style resolution beyond the defaults *)

(** X13. How [rgbColor] resolves for any entity and database: a colour by
    block resolves to the database's current entity colour; an explicit
    colour with an RGB resolves to that RGB whatever the layer table holds;
    a colour by layer resolves to the RGB of the entity's layer when the
    layer table has that layer with an RGB, and to the current entity
    colour when the layer is missing. *)
Theorem entity_rgbColor_resolution (db : AcDbDatabase) (e : AcDbEntity.t) :
  (AcCmColor.isByLayer (AcDbEntity.color e) = false ->
   AcCmColor.isByBlock (AcDbEntity.color e) = true ->
   AcDbEntity.rgbColor db e = cecolorRgb db)
  /\ (AcCmColor.isByLayer (AcDbEntity.color e) = false ->
      AcCmColor.isByBlock (AcDbEntity.color e) = false ->
      forall rgb,
        AcCmColor.RGB (AcDbEntity.color e) = Some rgb ->
        AcDbEntity.rgbColor db e = rgb)
  /\ (AcCmColor.isByLayer (AcDbEntity.color e) = true ->
      layerTable db !! AcDbEntity.layer e = None ->
      AcDbEntity.rgbColor db e = cecolorRgb db)
  /\ (AcCmColor.isByLayer (AcDbEntity.color e) = true ->
      forall l rgb,
        layerTable db !! AcDbEntity.layer e = Some l ->
        AcCmColor.RGB (layer_color l) = Some rgb ->
        AcDbEntity.rgbColor db e = rgb).
Proof.
  unfold AcDbEntity.rgbColor, AcDbEntity.getLayerColor, cecolorRgb.
  repeat apply conj.
  - intros -> ->. reflexivity.
  - intros -> -> rgb Hrgb. rewrite Hrgb, Hrgb. reflexivity.
  - intros -> ->. reflexivity.
  - intros -> l rgb -> Hrgb. rewrite Hrgb, Hrgb. reflexivity.
Qed.

Lemma entity_rgbColor_resolution_witness :
  AcDbEntity.rgbColor redLayerDatabase
    (AcDbEntity.set_color (AcCmColor.mk false false (Some 255%Z)) sampleBase)
  = 255%Z.
Proof.
  destruct (entity_rgbColor_resolution redLayerDatabase
              (AcDbEntity.set_color (AcCmColor.mk false false (Some 255%Z))
                 sampleBase)) as (_ & Hexplicit & _).
  apply Hexplicit; reflexivity.
Defined.

Lemma lineStyle_type (db : AcDbDatabase) (e : AcDbEntity.t) :
  ls_type (AcDbEntity.lineStyle db e) = fst (AcDbEntity.getLineType db e).
Proof.
  unfold AcDbEntity.lineStyle.
  destruct (AcDbEntity.getLineType db e) as [type name].
  destruct (linetypeTable db !! name); reflexivity.
Qed.

Lemma truthy_nonempty (s : string) : truthy s = true <-> s <> "".
Proof.
  destruct s; simpl; split; congruence.
Qed.

(** X14. The kind of a resolved line style is one of three strings, and
    which one is decided as follows: ["ByLayer"] exactly when the entity's
    linetype is by layer and the layer table has the entity's layer with a
    non-empty linetype; ["ByBlock"] exactly when the entity's linetype is by
    block; ["UserSpecified"] in every other case, which includes a linetype
    by layer whose layer is missing. *)
Theorem entity_lineStyle_kind (db : AcDbDatabase) (e : AcDbEntity.t) :
  let kind := ls_type (AcDbEntity.lineStyle db e) in
  (kind = "ByLayer" \/ kind = "ByBlock" \/ kind = "UserSpecified")
  /\ (kind = "ByLayer"
      <-> AcDbEntity.lineType e = ByLayer
          /\ exists l, layerTable db !! AcDbEntity.layer e = Some l
                       /\ layer_linetype l <> "")
  /\ (kind = "ByBlock" <-> AcDbEntity.lineType e = ByBlock).
Proof.
  intros kind. subst kind. rewrite lineStyle_type.
  unfold AcDbEntity.getLineType.
  destruct (String.eqb_spec (AcDbEntity.lineType e) ByLayer) as [Hbl | Hbl].
  - rewrite Hbl.
    destruct (layerTable db !! AcDbEntity.layer e) as [l |] eqn:Hl.
    + destruct (truthy (layer_linetype l)) eqn:Htruthy; simpl.
      * apply truthy_nonempty in Htruthy.
        split; [left; reflexivity |]. split.
        -- split; [intros _ | reflexivity].
           split; [reflexivity | eauto].
        -- split; discriminate.
      * split; [right; right; reflexivity |]. split.
        -- split; [discriminate |].
           intros (_ & l' & Hl' & Hne). injection Hl' as <-.
           apply truthy_nonempty in Hne. congruence.
        -- split; discriminate.
    + simpl. split; [right; right; reflexivity |]. split.
      * split; [discriminate |].
        intros (_ & l' & Hl' & _). discriminate.
      * split; discriminate.
  - destruct (String.eqb_spec (AcDbEntity.lineType e) ByBlock) as [Hbb | Hbb];
      simpl.
    + split; [right; left; reflexivity |]. split.
      * split; [discriminate | intros [Heq _]; contradiction].
      * split; [intros _; exact Hbb | reflexivity].
    + split; [right; right; reflexivity |]. split.
      * split; [discriminate | intros [Heq _]; contradiction].
      * split; [discriminate | intros Heq; contradiction].
Qed.

Lemma entity_lineStyle_kind_witness :
  ls_type
    (AcDbEntity.lineStyle redLayerDatabase
       (AcDbEntity.set_lineType ByBlock sampleBase))
  = "ByBlock".
Proof.
  apply (proj2 (proj2 (entity_lineStyle_kind redLayerDatabase
                         (AcDbEntity.set_lineType ByBlock sampleBase)))).
  reflexivity.
Defined.

(** ** Rays and construction lines: the extents hold the base point *)

Lemma between_scaled (b u : R) :
  (Rmin (b + u * 10) (b + u * -10) <= b
   <= Rmax (b + u * 10) (b + u * -10))%R.
Proof.
  unfold Rmin, Rmax.
  destruct (Rle_dec (b + u * 10) (b + u * -10)); split; lra.
Qed.

Lemma extents_hold_base (b u : AcGePoint3d.t) :
  let p := pointAlong b u 10 in
  let q := pointAlong b u (-10) in
  AcGeBox3d.contains
    (AcGeBox3d.Box (AcGePoint3d.min p q) (AcGePoint3d.max p q)) b.
Proof.
  destruct b as [bx by' bz], u as [ux uy uz]. simpl.
  split; [| split]; apply between_scaled.
Qed.

Lemma ray_extents_box (ray : AcDbRay.t) :
  AcDbRay.geometricExtents ray
  = (let p := pointAlong (AcDbRay._basePoint ray) (AcDbRay._unitDir ray) 10 in
     let q :=
       pointAlong (AcDbRay._basePoint ray) (AcDbRay._unitDir ray) (-10) in
     AcGeBox3d.Box (AcGePoint3d.min p q) (AcGePoint3d.max p q)).
Proof.
  unfold AcDbRay.geometricExtents; simpl.
  rewrite !add_multiplyScalar. reflexivity.
Qed.

Lemma xline_extents_box (xline : AcDbXline.t) :
  AcDbXline.geometricExtents xline
  = (let p :=
       pointAlong (AcDbXline._basePoint xline) (AcDbXline._unitDir xline) 10 in
     let q :=
       pointAlong (AcDbXline._basePoint xline) (AcDbXline._unitDir xline)
                  (-10) in
     AcGeBox3d.Box (AcGePoint3d.min p q) (AcGePoint3d.max p q)).
Proof.
  unfold AcDbXline.geometricExtents; simpl.
  rewrite !add_multiplyScalar. reflexivity.
Qed.

(** X15. The extents of a ray and of a construction line are never empty
    and always contain the base point, whatever the direction, the zero
    vector included. *)
Theorem ray_xline_extents_hold_base_point (ray : AcDbRay.t)
    (xline : AcDbXline.t) :
  AcGeBox3d.contains (AcDbRay.geometricExtents ray) (AcDbRay.basePoint ray)
  /\ AcGeBox3d.contains (AcDbXline.geometricExtents xline)
       (AcDbXline.basePoint xline).
Proof.
  rewrite ray_extents_box, xline_extents_box.
  split; apply extents_hold_base.
Qed.

(** ** Leader: what a read returns *)

Lemma createSplineIfNeeded_value
    (rejects : list AcGePoint3d.t -> string -> option JsError)
    (w : AcDbLeader.world) :
  cacheInvariant rejects (AcDbLeader.this w) ->
  AcDbLeader.isSplined (AcDbLeader.this w) = true ->
  let l := AcDbLeader.this w in
  let after := AcDbLeader.createSplineIfNeeded rejects w in
  if (2 <=? AcDbLeader.numVertices l)%nat then
    match rejects (AcDbLeader._vertices l) "Uniform" with
    | None =>
        fst after = Normal tt
        /\ AcDbLeader._splineGeo (AcDbLeader.this (snd after))
           = Some (AcGeSpline3d.mk (AcDbLeader._vertices l) "Uniform")
    | Some e => after = (Throw e, w)
    end
  else
    fst after = Normal tt
    /\ AcDbLeader._splineGeo (AcDbLeader.this (snd after)) = None.
Proof.
  intros Hinv Hsplined l after. subst after.
  rewrite createSplineIfNeeded_cases.
  fold l in Hinv, Hsplined |- *.
  unfold AcDbLeader.needsSpline.
  rewrite Hsplined. cbn [andb].
  destruct (2 <=? AcDbLeader.numVertices l)%nat eqn:Hlen; cbn [andb].
  - destruct (AcDbLeader._splineGeo l) as [s |] eqn:Hs; cbn [orb].
    + destruct (AcDbLeader._updated l) eqn:Hdirty.
      * destruct (rejects (AcDbLeader._vertices l) "Uniform");
          [reflexivity | split; reflexivity].
      * destruct (Hinv s Hs) as [_ Hclean].
        destruct (Hclean Hdirty) as [-> ->].
        split; [reflexivity | exact Hs].
    + destruct (rejects (AcDbLeader._vertices l) "Uniform");
        [reflexivity | split; reflexivity].
  - destruct (AcDbLeader._splineGeo l) as [s |] eqn:Hs;
      [| split; [reflexivity | exact Hs]].
    apply Nat.leb_gt in Hlen. destruct (Hinv s Hs) as [Hlen' _].
    unfold l in *. lia.
Qed.

(** X16. In every state a leader reaches from its constructor, a read
    never answers from a stale spline.  A spline-fit leader with two
    vertices or more gets the engine's bounding box, and is drawn as the
    engine's 100 samples, of the spline through the vertices as they are
    now, when the engine's constructor accepts them; when it rejects
    them, the read throws the constructor's error, and [draw] has written
    the traits and requested nothing.  Any other leader gets the box of
    its vertices and is drawn as the polyline through them.  A [draw]
    that returns leaves the leader's traits and that one more primitive
    with the renderer. *)
Theorem leader_reads_current_geometry
    (rejects : list AcGePoint3d.t -> string -> option JsError)
    (calculateBoundingBox : AcGeSpline3d.t -> AcGeBox3d.t)
    (getPoints : AcGeSpline3d.t -> Z -> list AcGePoint3d.t)
    (base : AcDbEntity.t) (calls : list AcDbLeader.call)
    (db : AcDbDatabase) (r : AcGiRenderer) :
  let w :=
    AcDbLeader.run rejects calculateBoundingBox getPoints
      (AcDbLeader.initial base) calls in
  let l := AcDbLeader.this w in
  let fitted :=
    AcDbLeader.isSplined l && (2 <=? AcDbLeader.numVertices l)%nat in
  let spline := AcGeSpline3d.mk (AcDbLeader._vertices l) "Uniform" in
  let extents :=
    fst (AcDbLeader.geometricExtents rejects calculateBoundingBox w) in
  let drawn := AcDbLeader.draw rejects getPoints db w r in
  (fitted = false ->
   extents = Normal (AcGeBox3d.setFromPoints (AcDbLeader._vertices l))
   /\ fst (fst drawn) = Normal tt
   /\ drawsOne db (AcDbLeader.entity l) r (snd drawn)
        (GiLines (AcDbLeader._vertices l)))
  /\ (fitted = true ->
      match rejects (AcDbLeader._vertices l) "Uniform" with
      | None =>
          extents = Normal (calculateBoundingBox spline)
          /\ fst (fst drawn) = Normal tt
          /\ drawsOne db (AcDbLeader.entity l) r (snd drawn)
               (GiLines (getPoints spline 100%Z))
      | Some e =>
          extents = Throw e
          /\ fst (fst drawn) = Throw e
          /\ snd drawn
             = AcDbEntity.attachToEntityTraits db (AcDbLeader.entity l) r
      end).
Proof.
  intros w l fitted spline extents drawn.
  assert (cacheInvariant rejects l) as Hinv.
  { apply cacheInvariant_run. intros s Hs. discriminate Hs. }
  subst fitted spline extents drawn.
  unfold AcDbLeader.geometricExtents, AcDbLeader.draw, AcDbLeader.splineGeo.
  fold l.
  destruct (AcDbLeader.isSplined l) eqn:Hsplined; cbn [andb].
  - pose proof (createSplineIfNeeded_value rejects w Hinv Hsplined) as Hvalue.
    cbv zeta in Hvalue. fold l in Hvalue.
    destruct (AcDbLeader.createSplineIfNeeded rejects w)
      as [outcome w1] eqn:Hfirst.
    cbn [fst snd] in Hvalue.
    split.
    + intros Hfew. rewrite Hfew in Hvalue.
      destruct Hvalue as [-> Hnone]. rewrite Hnone.
      assert (AcDbLeader._vertices (AcDbLeader.this w1)
              = AcDbLeader._vertices l) as ->.
      { pose proof (proj1 (createSplineIfNeeded_vertices rejects w)) as Hv.
        rewrite Hfirst in Hv. exact Hv. }
      repeat split.
    + intros Hmany. rewrite Hmany in Hvalue.
      destruct (rejects (AcDbLeader._vertices l) "Uniform") as [e |].
      * injection Hvalue as -> ->. repeat split.
      * destruct Hvalue as [-> Hsome]. rewrite Hsome.
        rewrite (createSplineIfNeeded_again rejects w w1 tt Hfirst).
        rewrite Hsome. repeat split.
  - split; [intros _; repeat split | discriminate].
Qed.

Lemma leader_reads_current_geometry_witness :
  fst (AcDbLeader.geometricExtents sampleRejects sampleBox sampleLeader)
  = Normal
      (sampleBox
         (AcGeSpline3d.mk
            [AcGePoint3d.mk 0 0 0; AcGePoint3d.mk 5 5 0;
             AcGePoint3d.mk 10 5 0; AcGePoint3d.mk 15 0 0]
            "Uniform")).
Proof.
  pose proof (leader_reads_current_geometry sampleRejects sampleBox
                samplePoints sampleBase sampleLeaderCalls noLayerDatabase
                blankRenderer) as Hread.
  cbv zeta in Hread.
  destruct Hread as [_ Hfitted].
  destruct (Hfitted ltac:(reflexivity)) as [Hextents _].
  exact Hextents.
Defined.

(** X17. The vertices of a leader are the points appended to it, in the
    order of the calls: no other call, [setVertexAt] included, adds,
    removes or changes a vertex. *)
Theorem leader_vertices_are_appended_points
    (rejects : list AcGePoint3d.t -> string -> option JsError)
    (calculateBoundingBox : AcGeSpline3d.t -> AcGeBox3d.t)
    (getPoints : AcGeSpline3d.t -> Z -> list AcGePoint3d.t)
    (w : AcDbLeader.world) (calls : list AcDbLeader.call) :
  AcDbLeader._vertices
    (AcDbLeader.this
       (AcDbLeader.run rejects calculateBoundingBox getPoints w calls))
  = AcDbLeader._vertices (AcDbLeader.this w) ++ appendedPoints calls.
Proof.
  revert w. induction calls as [| c calls IH]; intros w.
  - simpl. rewrite app_nil_r. reflexivity.
  - change (AcDbLeader.run rejects calculateBoundingBox getPoints w
              (c :: calls))
      with (AcDbLeader.run rejects calculateBoundingBox getPoints
              (AcDbLeader.step rejects calculateBoundingBox getPoints w c)
              calls).
    rewrite IH.
    destruct c; simpl; try rewrite setVertexAt_state;
      try reflexivity.
    + rewrite <- app_assoc. reflexivity.
    + rewrite (proj1 (geometricExtents_state rejects calculateBoundingBox
                        w)).
      rewrite (proj1 (createSplineIfNeeded_vertices rejects w)).
      reflexivity.
    + rewrite (proj1 (draw_state rejects getPoints db w r)).
      rewrite (proj1 (createSplineIfNeeded_vertices rejects w)).
      reflexivity.
Qed.

(** ** Properties: writing through the accessor *)

Ltac writes_through :=
  unfold writeThroughBut;
  cbv [AcDbEntityProperties.allProperties AcDbEntityProperties.groups
       AcDbEntityPropertyGroup.properties map concat app
       entityProperties getGeneralProperties
       AcDbLine.properties AcDbLine.geometryGroup
       AcDbText.properties AcDbText.textGroup AcDbText.geometryGroup
       AcDbMText.properties AcDbMText.textGroup AcDbMText.geometryGroup
       AcDbPoint.properties AcDbPoint.geometryGroup
       AcDbRay.properties AcDbRay.geometryGroup
       AcDbXline.properties AcDbXline.geometryGroup
       AcDbCircle.properties AcDbCircle.geometryGroup
       AcDbArc.properties AcDbArc.geometryGroup
       AcDbEllipse.properties AcDbEllipse.geometryGroup];
  repeat (apply List.Forall_cons;
          [ intros Hname;
            first [ reflexivity
                  | exfalso; apply Hname; simpl; tauto
                  | split; [reflexivity |];
                    intros v e; simpl; unfold inherited;
                    rewrite ?base_withBase; reflexivity ]
          | ]);
  apply List.Forall_nil.

(** X18. Writing a property through its accessor, as the property palette
    does: in the general group of every entity class, and in the trees of
    line, text, multiline text, point, ray, construction line, circle, arc
    and ellipse, every editable property has a [set], every property that
    is not editable has none, and a value handed to [set] is what [get]
    reads next.  The exceptions are the linetype property and the
    major-axis radius of the ellipse. *)
Theorem accessor_write_through :
  (forall (E : Type) (C : AcDbEntityClass E),
     writeThroughBut ["linetype"] (entityProperties (E := E)))
  /\ writeThroughBut ["linetype"] AcDbLine.properties
  /\ writeThroughBut ["linetype"] AcDbText.properties
  /\ writeThroughBut ["linetype"] AcDbMText.properties
  /\ writeThroughBut ["linetype"] AcDbPoint.properties
  /\ writeThroughBut ["linetype"] AcDbRay.properties
  /\ writeThroughBut ["linetype"] AcDbXline.properties
  /\ writeThroughBut ["linetype"] AcDbCircle.properties
  /\ writeThroughBut ["linetype"] AcDbArc.properties
  /\ writeThroughBut ["linetype"; "majorAxisRadius"] AcDbEllipse.properties.
Proof.
  split; [intros E C; writes_through |].
  repeat split; writes_through.
Qed.

Lemma accessor_write_through_witness :
  AcDbPropertyAccessor.get
    (AcDbEntityRuntimeProperty.accessor AcDbEllipse.minorAxisRadiusProperty)
    (AcDbEllipse.set_minorAxisRadius 5 sampleEllipse)
  = 5%R.
Proof.
  destruct accessor_write_through as (_ & _ & _ & _ & _ & _ & _ & _ & _ & Hall).
  unfold writeThroughBut in Hall.
  pose proof (Forall_inv
                (Forall_inv_tail (Forall_inv_tail (Forall_inv_tail
                   (Forall_inv_tail (Forall_inv_tail (Forall_inv_tail
                      (Forall_inv_tail (Forall_inv_tail (Forall_inv_tail
                         (Forall_inv_tail (Forall_inv_tail Hall))))))))))))
    as Hminor.
  apply (proj2
           (Hminor ltac:(simpl; intros [Heq | [Heq | []]]; discriminate Heq))
           5%R sampleEllipse).
Defined.

(** X19. The accessor of the ellipse's major-axis radius does not write the
    radius: after [set] the property reads the radius the ellipse had, for
    every value set, and the value has gone to the x coordinate of the
    centre; so it does not write through. *)
Theorem ellipse_majorAxisRadius_accessor_keeps_radius :
  match
    AcDbPropertyAccessor.set
      (AcDbEntityRuntimeProperty.accessor AcDbEllipse.majorAxisRadiusProperty)
  with
  | Some set =>
      forall (v : R) (e : AcDbEllipse.t),
        AcDbPropertyAccessor.get
          (AcDbEntityRuntimeProperty.accessor
             AcDbEllipse.majorAxisRadiusProperty) (set v e)
        = AcDbEllipse.majorAxisRadius e
        /\ AcDbEllipse.majorAxisRadius (set v e) = AcDbEllipse.majorAxisRadius e
        /\ AcGePoint3d.x (AcDbEllipse.center (set v e)) = v
  | None => False
  end
  /\ ~ writesThrough AcDbEllipse.majorAxisRadiusProperty.
Proof.
  split.
  - simpl. intros v e. repeat split.
  - intros [_ Hthrough]. specialize (Hthrough 5%R sampleEllipse).
    change (20 = 5)%R in Hthrough. lra.
Qed.

(** ** Properties: writing one leaves the others *)

Ltac leaves_alone :=
  unfold independentBut;
  cbv [AcDbEntityProperties.allProperties AcDbEntityProperties.groups
       AcDbEntityPropertyGroup.properties map concat app
       entityProperties getGeneralProperties
       AcDbLine.properties AcDbLine.geometryGroup
       AcDbText.properties AcDbText.textGroup AcDbText.geometryGroup
       AcDbMText.properties AcDbMText.textGroup AcDbMText.geometryGroup
       AcDbPoint.properties AcDbPoint.geometryGroup
       AcDbRay.properties AcDbRay.geometryGroup
       AcDbXline.properties AcDbXline.geometryGroup
       AcDbCircle.properties AcDbCircle.geometryGroup
       AcDbArc.properties AcDbArc.geometryGroup
       AcDbEllipse.properties AcDbEllipse.geometryGroup];
  repeat (apply List.Forall_cons;
          [ repeat (apply List.Forall_cons;
                    [ intros Hname Hpair;
                      first [ exact I
                            | intros v e; simpl; unfold inherited;
                              rewrite ?base_withBase; reflexivity
                            | exfalso; apply Hname; reflexivity
                            | exfalso; apply Hpair; simpl; tauto ]
                    | ]);
            apply List.Forall_nil
          | ]);
  apply List.Forall_nil.

(** X20. Writing one property through its accessor leaves what every other
    property reads as it was: in the general group of every entity class,
    and in the trees of line, text, multiline text, point, ray,
    construction line, circle, arc and ellipse.  The one exception is the
    major-axis radius of the ellipse, whose [set] changes what the
    property [centerX] reads. *)
Theorem accessor_set_leaves_other_properties :
  (forall (E : Type) (C : AcDbEntityClass E),
     independentBut [] (entityProperties (E := E)))
  /\ independentBut [] AcDbLine.properties
  /\ independentBut [] AcDbText.properties
  /\ independentBut [] AcDbMText.properties
  /\ independentBut [] AcDbPoint.properties
  /\ independentBut [] AcDbRay.properties
  /\ independentBut [] AcDbXline.properties
  /\ independentBut [] AcDbCircle.properties
  /\ independentBut [] AcDbArc.properties
  /\ independentBut [("majorAxisRadius", "centerX")] AcDbEllipse.properties.
Proof.
  split; [intros E C; leaves_alone |].
  repeat split; leaves_alone.
Qed.

Lemma accessor_set_leaves_other_properties_witness :
  leavesAlone AcDbLine.startXProperty AcDbLine.endXProperty.
Proof.
  destruct accessor_set_leaves_other_properties as (_ & Hline & _).
  unfold independentBut in Hline.
  pose proof (proj1 (List.Forall_forall _ _) Hline AcDbLine.startXProperty
                ltac:(simpl; tauto)) as Hstart.
  simpl in Hstart.
  pose proof (proj1 (List.Forall_forall _ _) Hstart AcDbLine.endXProperty
                ltac:(simpl; tauto)) as Hend.
  apply Hend; [discriminate | intros []].
Defined.

(** ** Viewport *)

(** X21. A viewport whose number is 1 or less, or whose owner is the model
    space, is not drawn: nothing is requested, the traits stay as they
    were and the result is [undefined].  Any other viewport writes its
    traits and requests four segments that close up into the rectangle of
    its width and height about its centre point, on the plane [z = 0]; what
    the renderer groups them into is tagged with the viewport's id, owner,
    layer and visibility. *)
Theorem viewport_draw_rectangle (db : AcDbDatabase) (modelSpaceId : string)
    (group : option AcGiEntityInfo) (v : AcDbViewport.t) (r : AcGiRenderer) :
  (((AcDbViewport._number v <= 1)%Z \/ AcDbViewport.ownerId v = modelSpaceId) ->
   AcDbViewport.draw db modelSpaceId group v r = (None, r))
  /\ ((1 < AcDbViewport._number v)%Z ->
      AcDbViewport.ownerId v <> modelSpaceId ->
      let cx := AcGePoint3d.x (AcDbViewport._centerPoint v) in
      let cy := AcGePoint3d.y (AcDbViewport._centerPoint v) in
      let w := AcDbViewport._width v in
      let h := AcDbViewport._height v in
      let a := AcGePoint3d.mk (cx - w / 2) (cy - h / 2) 0 in
      let b := AcGePoint3d.mk (cx + w / 2) (cy - h / 2) 0 in
      let c := AcGePoint3d.mk (cx + w / 2) (cy + h / 2) 0 in
      let d := AcGePoint3d.mk (cx - w / 2) (cy + h / 2) 0 in
      let r' := snd (AcDbViewport.draw db modelSpaceId group v r) in
      requests r'
      = requests r
        ++ [GiLines [a; b]; GiLines [b; c]; GiLines [c; d]; GiLines [d; a]]
      /\ subEntityTraits r'
         = subEntityTraits
             (AcDbEntity.attachToEntityTraits db (AcDbViewport.entity v) r)
      /\ fst (AcDbViewport.draw db modelSpaceId group v r)
         = match group with
           | Some _ =>
               Some (mkEntityInfo
                       (AcDbEntity.objectId (AcDbViewport.entity v))
                       (Some (AcDbViewport.ownerId v))
                       (AcDbEntity.layer (AcDbViewport.entity v))
                       (AcDbEntity.visibility (AcDbViewport.entity v)))
           | None => None
           end)%R.
Proof.
  unfold AcDbViewport.draw. split.
  - intros [Hnumber | Howner].
    + replace (AcDbViewport._number v >? 1)%Z with false by zcmp.
      reflexivity.
    + apply String.eqb_eq in Howner. rewrite Howner, andb_false_r.
      reflexivity.
  - intros Hnumber Howner.
    replace (AcDbViewport._number v >? 1)%Z with true by zcmp.
    apply String.eqb_neq in Howner. rewrite Howner.
    cbn [andb negb fst snd].
    split; [| split].
    + unfold AcDbViewport.createViewportRect, AcDbViewport.viewportRect,
        AcDbViewport.toGiViewport, request; simpl.
      rewrite <- !app_assoc. reflexivity.
    + reflexivity.
    + destruct group; reflexivity.
Qed.

Lemma viewport_draw_rectangle_witness :
  AcDbViewport.draw noLayerDatabase "model" None
    (AcDbViewport.new sampleBase "paper") blankRenderer
  = (None, blankRenderer).
Proof.
  apply (proj1 (viewport_draw_rectangle noLayerDatabase "model" None
                  (AcDbViewport.new sampleBase "paper") blankRenderer)).
  left. simpl. lia.
Defined.

(** ** Text styles *)

(** X22. The text style of a text or multiline text is looked up under the
    entity's style name, then under ["STANDARD"], then under ["Standard"],
    and the first record found is returned; the lookup throws exactly when
    the table has none of the three.  Drawing a multiline text throws in
    exactly that case, and otherwise hands the renderer the style so
    found. *)
Theorem text_style_fallback (AcGiTextStyle : Type)
    (textStyleTable : gmap string AcGiTextStyle) (styleName : string) :
  (forall s,
     textStyleTable !! styleName = Some s ->
     getTextStyleOf _ textStyleTable styleName = Normal s)
  /\ (textStyleTable !! styleName = None ->
      forall s,
        textStyleTable !! "STANDARD" = Some s ->
        getTextStyleOf _ textStyleTable styleName = Normal s)
  /\ (textStyleTable !! styleName = None ->
      textStyleTable !! "STANDARD" = None ->
      forall s,
        textStyleTable !! "Standard" = Some s ->
        getTextStyleOf _ textStyleTable styleName = Normal s)
  /\ (throws (getTextStyleOf _ textStyleTable styleName) = true
      <-> textStyleTable !! styleName = None
          /\ textStyleTable !! "STANDARD" = None
          /\ textStyleTable !! "Standard" = None)
  /\ (forall (t0 : AcDbText.t) (m : AcDbMText.t),
        AcDbText.styleName t0 = styleName ->
        AcDbMText.styleName m = styleName ->
        AcDbText_getTextStyle _ textStyleTable t0
        = getTextStyleOf _ textStyleTable styleName
        /\ AcDbMText_getTextStyle _ textStyleTable m
           = getTextStyleOf _ textStyleTable styleName)
  /\ (forall db m delay r,
        AcDbMText.styleName m = styleName ->
        match AcDbMText_draw _ db textStyleTable m delay r with
        | Normal (_, (_, textStyle, _)) =>
            getTextStyleOf _ textStyleTable styleName = Normal textStyle
        | Throw e =>
            e = TypeError
            /\ textStyleTable !! styleName = None
            /\ textStyleTable !! "STANDARD" = None
            /\ textStyleTable !! "Standard" = None
        end).
Proof.
  unfold AcDbMText_draw, AcDbText_getTextStyle, AcDbMText_getTextStyle,
    getTextStyleOf.
  split; [| split; [| split; [| split; [| split]]]].
  - intros s ->. reflexivity.
  - intros -> s ->. reflexivity.
  - intros -> -> s ->. reflexivity.
  - destruct (textStyleTable !! styleName);
      [simpl; split; [discriminate | intros [Hnone _]; discriminate] |].
    destruct (textStyleTable !! "STANDARD");
      [simpl; split; [discriminate | intros (_ & Hnone & _); discriminate] |].
    destruct (textStyleTable !! "Standard");
      [simpl; split; [discriminate | intros (_ & _ & Hnone); discriminate] |].
    simpl. split; [intros _; repeat split | reflexivity].
  - intros t0 m -> Hname. rewrite Hname. split; reflexivity.
  - intros db m delay r ->.
    destruct (textStyleTable !! styleName); [reflexivity |].
    destruct (textStyleTable !! "STANDARD"); [reflexivity |].
    destruct (textStyleTable !! "Standard"); [reflexivity |].
    repeat split.
Qed.

Lemma text_style_fallback_witness :
  getTextStyleOf Z {[ "STANDARD" := 1%Z; "Standard" := 2%Z ]} "Romans"
  = Normal 1%Z.
Proof.
  destruct (text_style_fallback Z
              {[ "STANDARD" := 1%Z; "Standard" := 2%Z ]} "Romans")
    as (_ & Hstandard & _).
  apply Hstandard; reflexivity.
Defined.

(** ** 2D polyline: the vertices handed to the engine *)

(** X23. The constructor of a 2D polyline hands the engine one vertex per
    given vertex, in order, with its x and y (z is dropped).  When bulges
    are given and there are as many as vertices, vertex [i] carries bulge
    [i]; when none are given, or their number differs from that of the
    vertices, no vertex carries a bulge.  The start and end widths have no
    effect, and the elevation and the closed flag default to 0 and
    [false]. *)
Theorem polyline2d_constructor_vertices (base : AcDbEntity.t)
    (type : AcDb2dPolyline.AcDbPoly2dType) (vertices : list AcGePoint3d.t)
    (elevation : option R) (closed : option bool)
    (startWidth endWidth : option R) (bulges : option (list R)) :
  let pl :=
    AcDb2dPolyline.new base type vertices elevation closed startWidth
      endWidth bulges in
  let handed := AcGePolyline2d.vertices (AcDb2dPolyline._geo pl) in
  length handed = length vertices
  /\ (forall i vertex,
        vertices !! i = Some vertex ->
        exists g,
          handed !! i = Some g
          /\ AcGePolyline2d.x g = AcGePoint3d.x vertex
          /\ AcGePolyline2d.y g = AcGePoint3d.y vertex)
  /\ (forall b,
        bulges = Some b ->
        length b = length vertices ->
        forall i g,
          handed !! i = Some g ->
          AcGePolyline2d.bulge g = b !! i /\ AcGePolyline2d.bulge g <> None)
  /\ ((bulges = None
       \/ exists b, bulges = Some b /\ length b <> length vertices) ->
      Forall (fun g => AcGePolyline2d.bulge g = None) handed)
  /\ pl = AcDb2dPolyline.new base type vertices elevation closed None None
            bulges
  /\ (elevation = None -> AcDb2dPolyline.elevation pl = 0%R)
  /\ (closed = None -> AcDb2dPolyline.closed pl = false).
Proof.
  intros pl handed. subst pl handed.
  unfold AcDb2dPolyline.new, AcDb2dPolyline.polylineVertices.
  cbn [AcDb2dPolyline._geo AcGePolyline2d.vertices].
  repeat apply conj.
  - apply length_imap.
  - intros i vertex Hi. rewrite list_lookup_imap, Hi. simpl.
    eexists. split; [reflexivity |]. split; reflexivity.
  - intros b -> Hlen i g. rewrite list_lookup_imap.
    destruct (vertices !! i) as [vertex |] eqn:Hi; [| discriminate].
    simpl. intros [= <-]. simpl.
    apply Nat.eqb_eq in Hlen. rewrite Hlen.
    split; [reflexivity |].
    apply Nat.eqb_eq in Hlen.
    apply lookup_lt_Some in Hi.
    destruct (lookup_lt_is_Some_2 b i ltac:(lia)) as [x Hx].
    rewrite Hx. discriminate.
  - intros Hnone. apply Forall_lookup. intros i g Hg.
    rewrite list_lookup_imap in Hg.
    destruct (vertices !! i); [| discriminate].
    simpl in Hg. injection Hg as <-. simpl.
    destruct Hnone as [-> | (b & -> & Hlen)]; [reflexivity |].
    apply Nat.eqb_neq in Hlen. rewrite Hlen. reflexivity.
  - reflexivity.
  - intros ->. reflexivity.
  - intros ->. reflexivity.
Qed.

Lemma polyline2d_constructor_vertices_witness :
  Forall (fun g => AcGePolyline2d.bulge g = None)
    (AcGePolyline2d.vertices
       (AcDb2dPolyline._geo
          (AcDb2dPolyline.new sampleBase AcDb2dPolyline.SimplePoly
             [AcGePoint3d.mk 0 0 0; AcGePoint3d.mk 1 0 0] None None None None
             (Some [1%R])))).
Proof.
  destruct (polyline2d_constructor_vertices sampleBase
              AcDb2dPolyline.SimplePoly
              [AcGePoint3d.mk 0 0 0; AcGePoint3d.mk 1 0 0] None None None None
              (Some [1%R])) as (_ & _ & _ & Hdropped & _).
  apply Hdropped. right. exists [1%R]. split; [reflexivity |].
  simpl. lia.
Defined.

(** ** Spline: the argument check of the constructor *)

(** X24. The constructor of a spline counts how many of its five arguments
    are defined.  With fewer than two it throws its illegal-parameters
    error without calling the engine; the test for more than five never
    fires.  With two or more it completes as the engine's constructor
    does, returning the spline the engine returns and throwing what the
    engine throws: the constructor from control points, with all five
    arguments, when the second argument is an array, and the one from fit
    points, without the fifth, when it is not, whichever of the arguments
    were the defined ones. *)
Theorem spline_constructor_argument_check (Value : Type)
    (isUndefined isArray : Value -> bool) (ILLEGAL_PARAMETERS : JsError)
    (Spline3d : Type)
    (fromFitPoints : Value -> Value -> Value -> Value -> completion Spline3d)
    (fromControlPoints :
       Value -> Value -> Value -> Value -> Value -> completion Spline3d)
    (base : AcDbEntity.t) (a b c d e : Value) :
  let defined := AcDbSpline.defined Value isUndefined in
  let argsLength := (defined a + defined b + defined c + defined d
                     + defined e)%Z in
  let result :=
    AcDbSpline.new Value isUndefined isArray ILLEGAL_PARAMETERS Spline3d
      fromFitPoints fromControlPoints base a b c d e in
  (0 <= argsLength <= 5)%Z
  /\ ((argsLength < 2)%Z -> result = Throw ILLEGAL_PARAMETERS)
  /\ ((2 <= argsLength)%Z ->
      result
      = match (if isArray b then fromControlPoints a b c d e
               else fromFitPoints a b c d) with
        | Normal geo => Normal (AcDbSpline.mk Spline3d base geo)
        | Throw error => Throw error
        end).
Proof.
  intros defined argsLength result.
  assert (forall v, (0 <= defined v <= 1)%Z) as Hdefined.
  { intros v. subst defined. unfold AcDbSpline.defined.
    destruct (isUndefined v); lia. }
  pose proof (Hdefined a). pose proof (Hdefined b). pose proof (Hdefined c).
  pose proof (Hdefined d). pose proof (Hdefined e).
  split; [subst argsLength; lia |].
  subst result. unfold AcDbSpline.new. fold defined. fold argsLength.
  split.
  - intros Hfew.
    replace (argsLength <? 2)%Z with true by zcmp. reflexivity.
  - intros Henough.
    replace (argsLength <? 2)%Z with false by zcmp.
    replace (argsLength >? 5)%Z with false by (subst argsLength; zcmp).
    destruct (isArray b); reflexivity.
Qed.

Lemma spline_constructor_argument_check_witness :
  AcDbSpline.new sampleValue sampleIsUndefined sampleIsArray
    (Error "Illegal Parameters") nat sampleFromFitPoints
    sampleFromControlPoints sampleBase
    (Points 4) Undefined Undefined Undefined Undefined
  = Throw (Error "Illegal Parameters")
  /\ AcDbSpline.new sampleValue sampleIsUndefined sampleIsArray
       (Error "Illegal Parameters") nat sampleFromFitPoints
       sampleFromControlPoints sampleBase
       (Points 4) Plain Undefined Undefined Undefined
     = Normal (AcDbSpline.mk nat sampleBase 4%nat).
Proof.
  split.
  - apply (proj1 (proj2 (spline_constructor_argument_check sampleValue
                           sampleIsUndefined sampleIsArray
                           (Error "Illegal Parameters") nat
                           sampleFromFitPoints sampleFromControlPoints
                           sampleBase
                           (Points 4) Undefined Undefined Undefined
                           Undefined))).
    cbv. reflexivity.
  - apply (proj2 (proj2 (spline_constructor_argument_check sampleValue
                           sampleIsUndefined sampleIsArray
                           (Error "Illegal Parameters") nat
                           sampleFromFitPoints sampleFromControlPoints
                           sampleBase
                           (Points 4) Plain Undefined Undefined
                           Undefined))).
    cbv. intros Hgt. discriminate Hgt.
Defined.

(** ** Hatch: the solid-fill flag *)

(** X25. A hatch reads as solid fill when the flag is set or when its
    pattern name, in upper case, is ["SOLID"].  So setting the flag to
    [true] always reads back [true], while setting it to [false] reads
    back [false] only when the pattern name is not ["SOLID"] in upper
    case; and naming the pattern so makes the hatch read as solid fill
    whatever the flag. *)
Theorem hatch_isSolidFill (AcGeArea2d AcGiHatchPatternLine : Type)
    (toUpperCase : string -> string)
    (h : AcDbHatch.t AcGeArea2d AcGiHatchPatternLine) :
  let isSolidFill := AcDbHatch.isSolidFill _ _ toUpperCase in
  isSolidFill (AcDbHatch.set_isSolidFill _ _ true h) = true
  /\ (isSolidFill (AcDbHatch.set_isSolidFill _ _ false h) = false
      <-> toUpperCase (AcDbHatch.patternName _ _ h) <> "SOLID")
  /\ (forall name,
        toUpperCase name = "SOLID" ->
        isSolidFill (AcDbHatch.set_patternName _ _ name h) = true)
  /\ (forall name,
        toUpperCase name <> "SOLID" ->
        isSolidFill (AcDbHatch.set_patternName _ _ name h)
        = AcDbHatch._isSolidFill _ _ h).
Proof.
  intros isSolidFill. subst isSolidFill.
  unfold AcDbHatch.isSolidFill, AcDbHatch.patternName. simpl.
  split; [| split; [| split]].
  - reflexivity.
  - apply String.eqb_neq.
  - intros name Hname. apply String.eqb_eq in Hname.
    rewrite Hname. apply orb_true_r.
  - intros name Hname. apply String.eqb_neq in Hname.
    rewrite Hname. apply orb_false_r.
Qed.

Lemma hatch_isSolidFill_witness :
  AcDbHatch.isSolidFill unit unit (fun name => name)
    (AcDbHatch.set_patternName unit unit "SOLID"
       (AcDbHatch.mk unit unit sampleBase tt false 0 [] ""
          (AcDbHatch.Predefined) 0 1 (AcDbHatch.Normal)))
  = true.
Proof.
  destruct (hatch_isSolidFill unit unit (fun name => name)
              (AcDbHatch.mk unit unit sampleBase tt false 0 [] ""
                 (AcDbHatch.Predefined) 0 1 (AcDbHatch.Normal)))
    as (_ & _ & Hnamed & _).
  apply (Hnamed "SOLID"). reflexivity.
Defined.

(** ** Extents and grip points of faces and traces *)

Lemma expandByPoint_contains (b : AcGeBox3d.t) (p q : AcGePoint3d.t) :
  AcGeBox3d.contains (AcGeBox3d.expandByPoint p b) p
  /\ (AcGeBox3d.contains b q ->
      AcGeBox3d.contains (AcGeBox3d.expandByPoint p b) q).
Proof.
  destruct b as [| mn mx]; simpl.
  - split; [lra | intros []].
  - pose proof (Rmin_l (AcGePoint3d.x mn) (AcGePoint3d.x p)).
    pose proof (Rmin_r (AcGePoint3d.x mn) (AcGePoint3d.x p)).
    pose proof (Rmin_l (AcGePoint3d.y mn) (AcGePoint3d.y p)).
    pose proof (Rmin_r (AcGePoint3d.y mn) (AcGePoint3d.y p)).
    pose proof (Rmin_l (AcGePoint3d.z mn) (AcGePoint3d.z p)).
    pose proof (Rmin_r (AcGePoint3d.z mn) (AcGePoint3d.z p)).
    pose proof (Rmax_l (AcGePoint3d.x mx) (AcGePoint3d.x p)).
    pose proof (Rmax_r (AcGePoint3d.x mx) (AcGePoint3d.x p)).
    pose proof (Rmax_l (AcGePoint3d.y mx) (AcGePoint3d.y p)).
    pose proof (Rmax_r (AcGePoint3d.y mx) (AcGePoint3d.y p)).
    pose proof (Rmax_l (AcGePoint3d.z mx) (AcGePoint3d.z p)).
    pose proof (Rmax_r (AcGePoint3d.z mx) (AcGePoint3d.z p)).
    split; [lra | intros (Hx & Hy & Hz); lra].
Qed.

Lemma fold_expandByPoint_contains (points : list AcGePoint3d.t)
    (b : AcGeBox3d.t) (q : AcGePoint3d.t) :
  AcGeBox3d.contains b q \/ In q points ->
  AcGeBox3d.contains
    (fold_left (fun b p => AcGeBox3d.expandByPoint p b) points b) q.
Proof.
  revert b. induction points as [| p points IH]; intros b Hq; simpl.
  - destruct Hq as [Hq | []]. exact Hq.
  - apply IH. destruct Hq as [Hq | [<- | Hq]].
    + left. apply (proj2 (expandByPoint_contains b p q)), Hq.
    + left. apply (proj1 (expandByPoint_contains b p p)).
    + right. exact Hq.
Qed.

(** X26. The extents of a face and of a trace contain every one of their
    vertices, the engine's box of a list of points being the span of the
    points.  The grip points of a face are its vertices, in order, none of
    them [undefined]. *)
Theorem face_trace_extents_contain_vertices :
  (forall (f : AcDbFace.t) (p : AcGePoint3d.t),
     In p (AcDbFace._vertices f) ->
     AcGeBox3d.contains (AcDbFaceVertices.geometricExtents f) p)
  /\ (forall (tr : AcDbTrace.t) (p : AcGePoint3d.t),
        In p (AcDbTrace._vertices tr) ->
        AcGeBox3d.contains (AcDbTrace.geometricExtents tr) p)
  /\ (forall f : AcDbFace.t,
        AcDbFaceVertices.subGetGripPoints f
        = map Some (AcDbFace._vertices f)).
Proof.
  split; [| split].
  - intros f p Hp. apply fold_expandByPoint_contains. right. exact Hp.
  - intros tr p Hp. apply fold_expandByPoint_contains. right. exact Hp.
  - intros f. unfold AcDbFaceVertices.subGetGripPoints.
    apply list_eq. intros i.
    rewrite !list_lookup_fmap.
    destruct (decide (i < length (AcDbFace._vertices f))%nat) as [Hi | Hi].
    + rewrite lookup_seq_lt by exact Hi. simpl.
      unfold AcDbFaceVertices.getVertexAt.
      replace (Z.of_nat i <? 0)%Z with false by zcmp.
      replace (Z.of_nat i >? Z.of_nat (length (AcDbFace._vertices f)))%Z
        with false by zcmp.
      rewrite js_index_of_nat.
      destruct (lookup_lt_is_Some_2 (AcDbFace._vertices f) i Hi) as [x Hx].
      rewrite Hx. reflexivity.
    + rewrite lookup_seq_ge by lia.
      rewrite lookup_ge_None_2 by lia. reflexivity.
Qed.

Lemma face_trace_extents_contain_vertices_witness :
  AcGeBox3d.contains (AcDbTrace.geometricExtents (AcDbTrace.new sampleBase))
    AcGePoint3d.origin.
Proof.
  apply (proj1 (proj2 face_trace_extents_contain_vertices)
           (AcDbTrace.new sampleBase) AcGePoint3d.origin).
  simpl. tauto.
Defined.

(** X27. Drawing a triangular face whose third edge is visible hands
    [lineSegments] the index 3 for the end of that edge, a vertex that the
    buffer of three vertices (nine numbers) does not hold. *)
Theorem face_triangle_third_edge_index (fround : R -> R)
    (db : AcDbDatabase) (base : AcDbEntity.t) (f : AcDbFace.t)
    (r : AcGiRenderer) :
  length (AcDbFace._vertices f) = 3%nat ->
  AcDbFace.isEdgeVisibleAt 2 f = Normal true ->
  exists buffer indices,
    AcDbFaceVertices.draw fround db base f r
    = Normal (AcDbEntity.attachToEntityTraits db base r,
              (buffer, 3%Z, indices))
    /\ length buffer = 9%nat
    /\ indices !! 4%nat = Some 2%Z
    /\ indices !! 5%nat = Some 3%Z.
Proof.
  intros Hlen Hvisible.
  unfold AcDbFaceVertices.draw.
  destruct (AcDbFace._vertices f) as [| a [| b [| c [| d rest]]]];
    try discriminate Hlen.
  cbn [AcDbFaceVertices.drawLoop].
  change (0 + 1 + 1)%Z with 2%Z. change (0 + 1)%Z with 1%Z.
  rewrite Hvisible.
  assert (forall i, (0 <= i <= 3)%Z ->
            exists v, AcDbFace.isEdgeVisibleAt i f = Normal v) as Hin.
  { intros i Hi. unfold AcDbFace.isEdgeVisibleAt.
    replace ((i <? 0)%Z || (i >? 3)%Z) with false by lia.
    eexists. reflexivity. }
  destruct (Hin 0%Z ltac:(lia)) as [v0 ->].
  destruct (Hin 1%Z ltac:(lia)) as [v1 ->].
  eexists. eexists. split; [reflexivity |].
  split; [reflexivity |].
  destruct v0, v1; split; reflexivity.
Qed.

Lemma face_triangle_third_edge_index_witness :
  exists buffer indices,
    AcDbFaceVertices.draw (fun x => x) noLayerDatabase sampleBase
      AcDbFace.new blankRenderer
    = Normal
        (AcDbEntity.attachToEntityTraits noLayerDatabase sampleBase
           blankRenderer,
         (buffer, 3%Z, indices))
    /\ indices !! 5%nat = Some 3%Z.
Proof.
  destruct (face_triangle_third_edge_index (fun x => x) noLayerDatabase
              sampleBase AcDbFace.new blankRenderer)
    as (buffer & indices & Hdraw & _ & _ & Hindex).
  - reflexivity.
  - reflexivity.
  - exists buffer, indices. split; [exact Hdraw | exact Hindex].
Defined.
